(** * sharp-viewer: the PLY to SPLAT converter and the volume analysis

    A shallow embedding of [backend/ply_to_splat.py] (the function
    [convert_ply_to_splat]) and of the volume code of [backend/main.py]
    ([calculate_splat_volume] and the arithmetic of [analyze_growth]),
    followed by the properties of the specification that concern them. Of
    [backend/main.py] the two polling helpers [find_latest_ply] and
    [get_prompt_result] and the listing [list_output_files] are embedded
    too, with properties of their own and further ones of the conversion.

    Conventions of the embedding.
    - A file is the list of its bytes; an open binary file is that list and a
      read position ([f.readline], [f.read], [f.seek]).
    - A Python exception is a value of [exn]; a computation that may raise
      returns a [result].
    - A NumPy array of floats is a dtype tag and a list of values of
      [spec_float], the IEEE 754 model of the Standard Library, with the
      arithmetic of the array's precision (binary32 or binary64). The sign
      and the payload of a NaN are not modelled: no property fixes the bytes
      written for a NaN.
    - [np.exp], [np.linalg.norm], Open3D's outlier removal and SciPy's convex
      hull are parameters.
    - [print] is not modelled, and memory is unbounded: no [MemoryError].
      A length that [f.read] refuses with [OverflowError] can only come from
      the record count of the header: the properties are stated for the
      counts within the limits of [f.read] ([readable_count]).
    - What [PlyData.read] returns is the coordinates and the opacities of
      the vertices, or a file without the element [vertex], or one without
      the coordinates.
    - The clock, the output directory and the answers of ComfyUI are
      sequences given to the functions that look at them. *)

From Stdlib Require Import ZArith List Bool Lia Arith.
From Stdlib Require Import Strings.Byte Ascii String.
From Stdlib Require Import SpecFloat.
From Stdlib Require Import Sorting.Sorted Sorting.Permutation.
Import ListNotations.

(* [length] is the length of a list throughout; a string's is [String.length]. *)
Abbreviation length := Datatypes.length (only parsing).

Local Open Scope string_scope.
Local Open Scope list_scope.
Local Open Scope Z_scope.

(* ================================================================== *)
(** * Part I. The model                                                *)
(* ================================================================== *)

(** ** Exceptions and results *)

(** Where a [ValueError] comes from. *)
Inductive value_error : Type :=
| NoVertexCount        (* "Could not determine vertex count from PLY header" *)
| InvalidIntLiteral    (* int(): invalid literal, or too many digits *)
| NegativeReadLength   (* f.read(n) with n < -1 *)
| BufferSizeNotMultiple(* np.frombuffer: size not a multiple of the item size *)
| CannotReshape        (* ndarray.reshape *)
| FloatNaNToInt        (* int(nan) *)
| NoSuchField.         (* a structured array indexed with a name it has not *)

Inductive exn : Type :=
| ValueError (why : value_error)
| OverflowError        (* int(inf); struct.pack('f', x) out of range *)
| IndexError
| StructError          (* struct.error *)
| ImportError
| HTTPException (status_code : Z)
| KeyError.

Inductive result (A : Type) : Type :=
| Ok (a : A)
| Raise (e : exn).
Arguments Ok {A} a.
Arguments Raise {A} e.

Definition bind {A B : Type} (r : result A) (k : A -> result B) : result B :=
  match r with
  | Ok a => k a
  | Raise e => Raise e
  end.

Notation "x <- c1 ;; c2" := (bind c1 (fun x => c2))
  (at level 61, c1 at next level, right associativity).
Notation "' pat <- c1 ;; c2" := (bind c1 (fun x => match x with pat => c2 end))
  (at level 61, pat pattern, c1 at next level, right associativity).

Definition is_value_error {A : Type} (r : result A) : bool :=
  match r with
  | Raise (ValueError _) => true
  | _ => false
  end.

(** ** Binary files *)

Abbreviation bytes := (list byte).

Definition newline : byte := x0a.

(** An open file: its contents and the read position. *)
Record reader : Type := mkReader { data : bytes; pos : nat }.

Definition open_rb (contents : bytes) : reader := mkReader contents 0.

Definition remaining (f : reader) : bytes := skipn (pos f) (data f).

(** The bytes of one line: up to and including the first newline, or up to
    the end when there is none. *)
Fixpoint take_line (bs : bytes) : bytes :=
  match bs with
  | [] => []
  | b :: bs' => if Byte.eqb b newline then [b] else b :: take_line bs'
  end.

(** [f.readline()]: at end of file it returns [b''] and leaves the position. *)
Definition readline (f : reader) : bytes * reader :=
  let line := take_line (remaining f) in
  (line, mkReader (data f) (pos f + length line)%nat).

(** [f.read(n)]: a length below -1 raises [ValueError]; -1 reads to the end.
    The lengths are those a [bytes] object can have: CPython raises
    [OverflowError] for a length outside a C [ssize_t], and for one above
    [2^63 - 34] on a 64-bit build, which this function does not show. The
    properties of the conversion are stated for the record counts whose
    first read is within these limits ([readable_count]). *)
Definition read (n : Z) (f : reader) : result (bytes * reader) :=
  if n <? -1 then Raise (ValueError NegativeReadLength)
  else
    let bs := if n =? -1 then remaining f else firstn (Z.to_nat n) (remaining f) in
    Ok (bs, mkReader (data f) (pos f + length bs)%nat).

(** [f.read()] *)
Definition read_all (f : reader) : bytes * reader :=
  let bs := remaining f in (bs, mkReader (data f) (pos f + length bs)%nat).

(** [f.seek(k)] *)
Definition seek (k : nat) (f : reader) : reader := mkReader (data f) k.

(** [p in s] on bytes: [p] occurs in [s] as a contiguous run. *)
Fixpoint starts_with (p s : bytes) : bool :=
  match p, s with
  | [], _ => true
  | _ :: _, [] => false
  | a :: p', b :: s' => Byte.eqb a b && starts_with p' s'
  end.

Fixpoint contains (p s : bytes) : bool :=
  starts_with p s ||
  match s with
  | [] => false
  | _ :: s' => contains p s'
  end.

(** [b'end_header'] *)
Definition end_header : bytes := list_byte_of_string "end_header".

(** ** The header loop

<<
    header = b''
    while True:
        line = f.readline()
        header += line
        if b'end_header' in line:
            break
>>
    One iteration is [header_step]; it either leaves the loop or goes on. *)

Inductive loop (S R : Type) : Type :=
| Continue (s : S)
| Break (r : R).
Arguments Continue {S R} s.
Arguments Break {S R} r.

Definition header_step (st : bytes * reader) : loop (bytes * reader) (bytes * reader) :=
  let '(header, f) := st in
  let '(line, f') := readline f in
  let header' := header ++ line in
  if contains end_header line then Break (header', f') else Continue (header', f').

(** The loop run for at most [fuel] iterations: [None] when it has not left
    the loop by then. *)
Fixpoint header_loop (fuel : nat) (st : bytes * reader) : option (bytes * reader) :=
  match fuel with
  | O => None
  | S fuel' =>
      match header_step st with
      | Break r => Some r
      | Continue st' => header_loop fuel' st'
      end
  end.

Definition read_header (fuel : nat) (contents : bytes) : option (bytes * reader) :=
  header_loop fuel ([], open_rb contents).

(** The lines of a file as successive [readline] calls deliver them. *)
Fixpoint lines_from (cur : bytes) (bs : bytes) : list bytes :=
  match bs with
  | [] => match cur with [] => [] | _ => [rev cur] end
  | b :: bs' =>
      if Byte.eqb b newline then rev (b :: cur) :: lines_from [] bs'
      else lines_from (b :: cur) bs'
  end.

Definition file_lines (contents : bytes) : list bytes := lines_from [] contents.

(** ** Parsing the header

<<
    header_str = header.decode('utf-8', errors='ignore')
    vertex_count = 0
    for line in header_str.split('\n'):
        if line.startswith('element vertex'):
            vertex_count = int(line.split()[-1])
            break
    if vertex_count == 0:
        raise ValueError("Could not determine vertex count from PLY header")
>>
    The text of a header is a [string] whose characters are the code points
    U+0000 to U+00FF; on these [str.split], [str.startswith] and [int] are
    modelled in full. *)

(** The decoding of a header of ASCII bytes, on which
    [decode('utf-8', errors='ignore')] is the identity. A header with a byte
    above 0x7f is outside the model. *)
Definition decode (header : bytes) : string := string_of_list_byte header.

Definition is_ascii_byte (b : byte) : bool := (Byte.to_N b <? 128)%N.

Definition ascii_header (header : bytes) : bool := forallb is_ascii_byte header.

Definition code (c : ascii) : Z := Z.of_N (N_of_ascii c).

(** The characters [str.split()] separates on (Python's [str.isspace] below
    U+0100): TAB, LF, VT, FF, CR, FS, GS, RS, US, space, NEL and NBSP. *)
Definition isspace (c : ascii) : bool :=
  let n := code c in
  ((9 <=? n) && (n <=? 13)) || ((28 <=? n) && (n <=? 32)) || (n =? 133) || (n =? 160).

(** [s.split(sep)] for a one-character separator. *)
Fixpoint split_on (sep : ascii) (s : string) : list string :=
  match s with
  | EmptyString => [EmptyString]
  | String c s' =>
      match split_on sep s' with
      | [] => [EmptyString]
      | w :: ws => if Ascii.eqb c sep then EmptyString :: w :: ws else String c w :: ws
      end
  end.

(** [s.split()]: the maximal runs of characters that are not whitespace. *)
Fixpoint split_ws (s : string) : list string :=
  match s with
  | EmptyString => []
  | String c s' =>
      if isspace c then split_ws s'
      else
        match s' with
        | EmptyString => [String c EmptyString]
        | String c' _ =>
            if isspace c' then String c EmptyString :: split_ws s'
            else
              match split_ws s' with
              | w :: ws => String c w :: ws
              | [] => [String c EmptyString]
              end
        end
  end.

(** [l[-1]] *)
Definition last_item {A : Type} (l : list A) : result A :=
  match rev l with
  | [] => Raise IndexError
  | a :: _ => Ok a
  end.

Definition digit_of (c : ascii) : option Z :=
  let n := code c in
  if (48 <=? n) && (n <=? 57) then Some (n - 48) else None.

(** The digits of an integer literal: decimal digits, single underscores
    allowed between two digits. Returns the value and the number of digits. *)
Fixpoint int_digits (acc : Z) (count : nat) (after_underscore : bool) (s : string)
  : option (Z * nat) :=
  match s with
  | EmptyString => if after_underscore then None else Some (acc, count)
  | String c s' =>
      if Ascii.eqb c "_" then
        if after_underscore then None else int_digits acc count true s'
      else
        match digit_of c with
        | Some d => int_digits (10 * acc + d) (S count) false s'
        | None => None
        end
  end.

Section PyInt.

(** CPython's limit on the digits of a decimal literal passed to [int]
    ([sys.get_int_max_str_digits()], 4300 by default since 3.11; 0 and the
    older interpreters: no limit). *)
Variable max_str_digits : nat.

(** [int(tok)] for a token without whitespace (as [str.split()] yields). *)
Definition py_int (tok : string) : result Z :=
  let '(neg, body) :=
    match tok with
    | String "-" s => (true, s)
    | String "+" s => (false, s)
    | _ => (false, tok)
    end in
  match int_digits 0 0 true body with
  | None => Raise (ValueError InvalidIntLiteral)
  | Some (v, digits) =>
      if (0 <? max_str_digits)%nat && (max_str_digits <? digits)%nat
      then Raise (ValueError InvalidIntLiteral)
      else Ok (if neg then - v else v)
  end.

(** The [for] loop over the lines: the first line that starts with
    ['element vertex'] decides; [0] when there is none. *)
Fixpoint find_vertex_count (lines : list string) : result Z :=
  match lines with
  | [] => Ok 0
  | line :: lines' =>
      if prefix "element vertex" line
      then tok <- last_item (split_ws line) ;; py_int tok
      else find_vertex_count lines'
  end.

Definition parse_vertex_count (header_str : string) : result Z :=
  vertex_count <- find_vertex_count (split_on "010" header_str) ;;
  if vertex_count =? 0 then Raise (ValueError NoVertexCount) else Ok vertex_count.

End PyInt.

(** CPython's default limit. *)
Definition default_max_str_digits : nat := 4300.


(** ** Floating-point values

    Values are [spec_float]; the operations are those of IEEE 754 in the
    precision of the array they act on. *)

Abbreviation float := spec_float.

Inductive dtype : Type := float32 | float64.

Definition prec (d : dtype) : Z := match d with float32 => 24 | float64 => 53 end.
Definition emax (d : dtype) : Z := match d with float32 => 128 | float64 => 1024 end.

Definition fadd (d : dtype) : float -> float -> float := SFadd (prec d) (emax d).
Definition fsub (d : dtype) : float -> float -> float := SFsub (prec d) (emax d).
Definition fmul (d : dtype) : float -> float -> float := SFmul (prec d) (emax d).
Definition fdiv (d : dtype) : float -> float -> float := SFdiv (prec d) (emax d).
Definition fneg : float -> float := SFopp.
Definition flt : float -> float -> bool := SFltb.
Definition fle : float -> float -> bool := SFleb.
Definition feq : float -> float -> bool := SFeqb.

Definition is_nan (x : float) : bool :=
  match x with S754_nan => true | _ => false end.

Definition is_finite (x : float) : bool :=
  match x with S754_zero _ | S754_finite _ _ _ => true | _ => false end.

(** Conversion to a dtype, rounding to nearest even ([astype], the cast of a
    Python scalar to the dtype of an array, [float(x)] on a NumPy scalar). *)
Definition round_to (d : dtype) (x : float) : float :=
  match x with
  | S754_finite s m e => binary_round (prec d) (emax d) s m e
  | _ => x
  end.

(** An integer as a float of the dtype. *)
Definition of_int (d : dtype) (n : Z) : float :=
  binary_normalize (prec d) (emax d) n 0 false.

(** A Python float literal [num / 10^den_exp], a binary64 correctly rounded. *)
Definition py_float (num : positive) (den_exp : nat) : float :=
  SFdiv 53 1024 (S754_finite false num 0)
                (S754_finite false (Pos.pow 10 (Pos.of_nat den_exp)) 0).

Definition zero : float := S754_zero false.
Definition one : float := of_int float64 1.
Definition lit_0_5 : float := py_float 5 1.
Definition lit_0_8 : float := py_float 8 1.
Definition lit_0_01 : float := py_float 1 2.
Definition lit_1e_8 : float := py_float 1 8.
(** 0.28209479177387814, the constant of the zeroth spherical harmonic *)
Definition SH_C0 : float := py_float 28209479177387814 17.

(** [int(x)]: truncation toward zero; NaN and the infinities raise. *)
Definition int_of_float (x : float) : result Z :=
  match x with
  | S754_nan => Raise (ValueError FloatNaNToInt)
  | S754_infinity _ => Raise OverflowError
  | S754_zero _ => Ok 0
  | S754_finite s m e =>
      let a := Z.shiftl (Zpos m) e in
      Ok (if s then - a else a)
  end.

(** *** binary32 words

    A NaN is one value here, [S754_nan]: its sign and its payload, which
    [np.frombuffer] reads and [struct.pack] writes back as they are, are
    not part of a [float]. The statements on the bytes written are
    therefore about the value the bytes decode to, or exclude NaN. *)

Definition float32_of_bits (w : Z) : float :=
  let s := Z.testbit w 31 in
  let e := Z.land (Z.shiftr w 23) 255 in
  let m := Z.land w (2 ^ 23 - 1) in
  if e =? 255 then (if m =? 0 then S754_infinity s else S754_nan)
  else if e =? 0 then
    match m with
    | Zpos p => S754_finite s p (-149)
    | _ => S754_zero s
    end
  else
    match m + 2 ^ 23 with
    | Zpos p => S754_finite s p (e - 150)
    | _ => S754_nan
    end.

(** The word of a binary32 value (of a value [round_to float32] returns). A
    NaN is given the word of the quiet NaN 0x7fc00000, one of the words
    [struct.pack] can write for a NaN. *)
Definition bits_of_float32 (x : float) : Z :=
  let sign (s : bool) := if s then 2 ^ 31 else 0 in
  match x with
  | S754_zero s => sign s
  | S754_infinity s => sign s + 255 * 2 ^ 23
  | S754_nan => 2 ^ 31 - 2 ^ 22
  | S754_finite s m e =>
      if Zpos m <? 2 ^ 23 then sign s + Zpos m
      else sign s + (e + 150) * 2 ^ 23 + (Zpos m - 2 ^ 23)
  end.

Definition byte_of_Z (n : Z) : byte :=
  match Byte.of_N (Z.to_N (n mod 256)) with
  | Some b => b
  | None => x00
  end.

Definition Z_of_byte (b : byte) : Z := Z.of_N (Byte.to_N b).

(** Four bytes, little-endian (the byte order of the machines the program
    runs on, and of the format). *)
Definition le32 (w : Z) : bytes :=
  [byte_of_Z w; byte_of_Z (Z.shiftr w 8); byte_of_Z (Z.shiftr w 16); byte_of_Z (Z.shiftr w 24)].

Definition word_of_le (b0 b1 b2 b3 : byte) : Z :=
  Z_of_byte b0 + 256 * (Z_of_byte b1 + 256 * (Z_of_byte b2 + 256 * Z_of_byte b3)).

(** ** NumPy arrays *)

(** A two-dimensional array: dtype, shape and rows. *)
Record ndarray : Type := mkArray {
  dt : dtype;
  shape0 : nat;
  shape1 : nat;
  rows : list (list float)
}.

(** A one-dimensional array. *)
Record ndarray1 : Type := mkArray1 {
  dt1 : dtype;
  items : list float
}.

(** The items of a buffer read as float32. *)
Fixpoint float32_items (bs : bytes) : list float :=
  match bs with
  | b0 :: b1 :: b2 :: b3 :: rest =>
      float32_of_bits (word_of_le b0 b1 b2 b3) :: float32_items rest
  | _ => []
  end.

(** [np.frombuffer(bs, dtype=np.float32)] *)
Definition frombuffer (bs : bytes) : result (list float) :=
  if (Nat.modulo (length bs) 4 =? 0)%nat then Ok (float32_items bs)
  else Raise (ValueError BufferSizeNotMultiple).

(** [n] rows of [c] items each, in row-major order. *)
Fixpoint chunk (n c : nat) (flat : list float) : list (list float) :=
  match n with
  | O => []
  | S n' => firstn c flat :: chunk n' c (skipn c flat)
  end.

(** [a.reshape(r, c)] of a flat float32 array. The item count must be [r * c];
    of a negative dimension NumPy takes the value from the item count, and
    refuses two of them, or one when the other dimension is 0 or does not
    divide the count. *)
Definition reshape (flat : list float) (r c : Z) : result ndarray :=
  let size := Z.of_nat (length flat) in
  let build (r c : Z) := Ok (mkArray float32 (Z.to_nat r) (Z.to_nat c)
                                (chunk (Z.to_nat r) (Z.to_nat c) flat)) in
  if (r <? 0) && (c <? 0) then Raise (ValueError CannotReshape)
  else if r <? 0 then
    if (c =? 0) || negb (size mod c =? 0) then Raise (ValueError CannotReshape)
    else build (size / c) c
  else if c <? 0 then
    if (r =? 0) || negb (size mod r =? 0) then Raise (ValueError CannotReshape)
    else build r (size / r)
  else if r * c =? size then build r c
  else Raise (ValueError CannotReshape).

(** ** Reading the vertex data

<<
    try:
        vertex_data = np.frombuffer(f.read(vertex_count * 62 * 4),
                                    dtype=np.float32).reshape(vertex_count, 62)
    except ValueError:
        f.seek(len(header))
        remaining = f.read()
        floats_per_vertex = len(remaining) // (vertex_count * 4)
        f.seek(len(header))
        vertex_data = np.frombuffer(f.read(vertex_count * floats_per_vertex * 4),
                                    dtype=np.float32).reshape(vertex_count, floats_per_vertex)
>>
*)

(** The body of the [try]. *)
Definition read_standard (vertex_count : Z) (f : reader) : result ndarray :=
  '(bs, _) <- read (vertex_count * 62 * 4) f ;;
  flat <- frombuffer bs ;;
  reshape flat vertex_count 62.

(** [floats_per_vertex]; [//] is the floor division, as [Z.div] is.
    [vertex_count] is not 0 here. *)
Definition floats_per_vertex (vertex_count : Z) (header : bytes) (f : reader) : Z :=
  let '(rest, _) := read_all (seek (length header) f) in
  Z.of_nat (length rest) / (vertex_count * 4).

(** The body of the [except]. *)
Definition read_fallback (vertex_count : Z) (header : bytes) (f : reader) : result ndarray :=
  let fpv := floats_per_vertex vertex_count header f in
  '(bs, _) <- read (vertex_count * fpv * 4) (seek (length header) f) ;;
  flat <- frombuffer bs ;;
  reshape flat vertex_count fpv.

Definition read_vertex_data (vertex_count : Z) (header : bytes) (f : reader) : result ndarray :=
  match read_standard vertex_count f with
  | Raise (ValueError _) => read_fallback vertex_count header f
  | r => r
  end.

(** ** Decoding the fields

    The attributes the converter extracts from [vertex_data]. *)

Record splats : Type := mkSplats {
  positions : ndarray;
  colors : ndarray;
  opacity : ndarray1;
  scale : ndarray;
  rot : ndarray
}.

(** [a[:, lo:hi]]: a slice is clipped to the columns the array has. *)
Definition columns (lo hi : nat) (a : ndarray) : ndarray :=
  mkArray (dt a) (shape0 a) (Nat.min hi (shape1 a) - Nat.min lo (shape1 a))
          (map (fun row => firstn (hi - lo) (skipn lo row)) (rows a)).

(** [a[:, k]] for a column the array has. *)
Definition column (k : nat) (a : ndarray) : ndarray1 :=
  mkArray1 (dt a) (map (fun row => nth k row S754_nan) (rows a)).

(** [np.ones((n, c)) * v] and the like: a float64 array of equal rows. *)
Definition full2 (n : Z) (row : list float) : ndarray :=
  mkArray float64 (Z.to_nat n) (length row) (repeat row (Z.to_nat n)).

Definition full1 (n : Z) (v : float) : ndarray1 :=
  mkArray1 float64 (repeat v (Z.to_nat n)).

Definition map2 (f : float -> float) (a : ndarray) : ndarray :=
  mkArray (dt a) (shape0 a) (shape1 a) (map (map f) (rows a)).

(** [a.clip(0, 1)]: NaN stays; the bounds are compared in the array's dtype. *)
Definition clip01 (d : dtype) (x : float) : float :=
  if is_nan x then x
  else
    let y := if flt zero x then x else zero in
    if flt y (of_int d 1) then y else of_int d 1.

(** [(colors_sh * 0.28209479177387814 + 0.5).clip(0, 1)] on an item of a
    float32 array: the Python scalars take the array's dtype. *)
Definition sh_to_rgb (x : float) : float :=
  clip01 float32
    (fadd float32 (fmul float32 x (round_to float32 SH_C0)) (round_to float32 lit_0_5)).

Section Decode.

(** [np.exp] on an item of an array of the given dtype. *)
Variable np_exp : dtype -> float -> float.
(** [np.linalg.norm] of one row of a float32 array ([axis=1]). *)
Variable np_linalg_norm : list float -> float.

(** [1.0 / (1.0 + np.exp(-x))] in the precision of [d]. *)
Definition sigmoid (d : dtype) (x : float) : float :=
  fdiv d (of_int d 1) (fadd d (of_int d 1) (np_exp d (fneg x))).

(** [rot / (rot_norm + 1e-8)] on one row. *)
Definition normalize_row (row : list float) : list float :=
  let n := fadd float32 (np_linalg_norm row) (round_to float32 lit_1e_8) in
  map (fun x => fdiv float32 x n) row.

Definition decode_splats (vertex_count : Z) (vertex_data : ndarray) : splats :=
  let positions := columns 0 3 vertex_data in
  let colors :=
    if (8 <? shape1 vertex_data)%nat
    then map2 sh_to_rgb (columns 6 9 vertex_data)
    else full2 vertex_count [lit_0_5; lit_0_5; lit_0_5] in
  let opacity :=
    if (54 <? shape1 vertex_data)%nat
    then let opacity_raw := column 54 vertex_data in
         mkArray1 (dt1 opacity_raw) (map (sigmoid float32) (items opacity_raw))
    else full1 vertex_count lit_0_8 in
  let scale :=
    if (57 <? shape1 vertex_data)%nat
    then map2 (np_exp float32) (columns 55 58 vertex_data)
    else full2 vertex_count [lit_0_01; lit_0_01; lit_0_01] in
  let rot :=
    if (61 <? shape1 vertex_data)%nat
    then let r := columns 58 62 vertex_data in
         mkArray (dt r) (shape0 r) (shape1 r) (map normalize_row (rows r))
    else full2 vertex_count [one; zero; zero; zero] in
  mkSplats positions colors opacity scale rot.

End Decode.

(** ** Writing the .splat file *)

(** [struct.pack('f', x)]: the value as a binary32; a finite value that
    rounds to an infinity raises [OverflowError]. *)
Definition pack_f (x : float) : result bytes :=
  let y := round_to float32 x in
  if is_finite x && negb (is_finite y) then Raise OverflowError
  else Ok (le32 (bits_of_float32 y)).

(** [struct.pack('fff', *row)]: exactly three items. *)
Definition pack_fff (row : list float) : result bytes :=
  match row with
  | [a; b; c] =>
      pa <- pack_f a ;; pb <- pack_f b ;; pc <- pack_f c ;; Ok (pa ++ pb ++ pc)
  | _ => Raise StructError
  end.

(** [struct.pack('B', n)] and [struct.pack('b', n)] *)
Definition pack_B (n : Z) : result bytes :=
  if (0 <=? n) && (n <=? 255) then Ok [byte_of_Z n] else Raise StructError.

Definition pack_b (n : Z) : result bytes :=
  if (-128 <=? n) && (n <=? 127) then Ok [byte_of_Z n] else Raise StructError.

Definition pack_BBBB (r g b a : Z) : result bytes :=
  pr <- pack_B r ;; pg <- pack_B g ;; pb <- pack_B b ;; pa <- pack_B a ;;
  Ok (pr ++ pg ++ pb ++ pa).

Definition pack_bbbb (w x y z : Z) : result bytes :=
  pw <- pack_b w ;; px <- pack_b x ;; py <- pack_b y ;; pz <- pack_b z ;;
  Ok (pw ++ px ++ py ++ pz).

(** [a[i]] and [a[i, j]] *)
Definition row_at (a : ndarray) (i : nat) : result (list float) :=
  match nth_error (rows a) i with
  | Some r => Ok r
  | None => Raise IndexError
  end.

Definition item_at (a : ndarray) (i j : nat) : result float :=
  r <- row_at a i ;;
  match nth_error r j with
  | Some x => Ok x
  | None => Raise IndexError
  end.

Definition item1_at (a : ndarray1) (i : nat) : result float :=
  match nth_error (items a) i with
  | Some x => Ok x
  | None => Raise IndexError
  end.

Section Writer.

(** The promotion of [x * k] for a NumPy scalar [x] and a Python int [k]:
    binary64 with NumPy 1 ([true]); the precision of [x] with NumPy 2. *)
Variable legacy_promotion : bool.

Definition scalar_times_int (d : dtype) (x : float) (k : Z) : float :=
  let d' := if legacy_promotion then float64 else d in
  fmul d' (round_to d' x) (of_int d' k).

(** [int(x * k)] *)
Definition quantize (d : dtype) (x : float) (k : Z) : result Z :=
  int_of_float (scalar_times_int d x k).

(** The writes of one iteration of the loop, in order. Each [f.write]
    that is reached adds to [out]; an exception leaves the earlier ones. *)
Definition write_splat (s : splats) (i : nat) (out : bytes) : bytes * result unit :=
  match (p <- row_at (positions s) i ;; pack_fff p) with
  | Raise e => (out, Raise e)
  | Ok b_pos =>
      let out := out ++ b_pos in
      match (sc <- row_at (scale s) i ;; pack_fff sc) with
      | Raise e => (out, Raise e)
      | Ok b_scale =>
          let out := out ++ b_scale in
          match (c0 <- item_at (colors s) i 0 ;; r <- quantize (dt (colors s)) c0 255 ;;
                 c1 <- item_at (colors s) i 1 ;; g <- quantize (dt (colors s)) c1 255 ;;
                 c2 <- item_at (colors s) i 2 ;; b <- quantize (dt (colors s)) c2 255 ;;
                 o <- item1_at (opacity s) i ;; a <- quantize (dt1 (opacity s)) o 255 ;;
                 pack_BBBB r g b a) with
          | Raise e => (out, Raise e)
          | Ok b_color =>
              let out := out ++ b_color in
              match (q0 <- item_at (rot s) i 0 ;; qw <- quantize (dt (rot s)) q0 127 ;;
                     q1 <- item_at (rot s) i 1 ;; qx <- quantize (dt (rot s)) q1 127 ;;
                     q2 <- item_at (rot s) i 2 ;; qy <- quantize (dt (rot s)) q2 127 ;;
                     q3 <- item_at (rot s) i 3 ;; qz <- quantize (dt (rot s)) q3 127 ;;
                     pack_bbbb qw qx qy qz) with
              | Raise e => (out, Raise e)
              | Ok b_rot => (out ++ b_rot, Ok tt)
              end
          end
      end
  end.

(** [for i in range(vertex_count)]: the iterations, for a list of indices. *)
Fixpoint write_loop (s : splats) (indices : list nat) (out : bytes) : bytes * result unit :=
  match indices with
  | [] => (out, Ok tt)
  | i :: rest =>
      match write_splat s i out with
      | (out', Ok _) => write_loop s rest out'
      | (out', Raise e) => (out', Raise e)
      end
  end.

(** The [with open(output_path, 'wb')] block: the contents of the output
    file when the block is left, and how it is left. *)
Definition write_splats (s : splats) (vertex_count : Z) : bytes * result unit :=
  write_loop s (seq 0 (Z.to_nat vertex_count)) [].

End Writer.

(** ** The conversion

    [convert_ply_to_splat]: the header loop, the header parse, the vertex data,
    the fields, and the output file. [None]: the header loop has not ended
    within [fuel] iterations. *)

Record conversion : Type := mkConversion {
  output : option bytes;   (* the output file; [None]: it was never opened *)
  status : result unit     (* the function returns, or raises *)
}.

Section Convert.

Variable max_str_digits : nat.
Variable np_exp : dtype -> float -> float.
Variable np_linalg_norm : list float -> float.
Variable legacy_promotion : bool.

(** From the parsed header on: what is inside the first [with] block. *)
Definition load_splats (header : bytes) (f : reader) : result (Z * splats) :=
  vertex_count <- parse_vertex_count max_str_digits (decode header) ;;
  vertex_data <- read_vertex_data vertex_count header f ;;
  Ok (vertex_count, decode_splats np_exp np_linalg_norm vertex_count vertex_data).

Definition convert_ply_to_splat (fuel : nat) (contents : bytes) : option conversion :=
  match read_header fuel contents with
  | None => None
  | Some (header, f) =>
      Some
        match load_splats header f with
        | Raise e => mkConversion None (Raise e)
        | Ok (vertex_count, s) =>
            let '(out, st) := write_splats legacy_promotion s vertex_count in
            mkConversion (Some out) st
        end
  end.

End Convert.

(** ** Volume analysis ([backend/main.py]) *)

Abbreviation point := (float * float * float)%type.

(** Where [calculate_splat_volume] takes the opacities from: the property
    [opacity] of the vertex element, else the property [alpha], else none.
    The columns of one element have one length, that of [xyz]; the
    properties are of a float type. *)
Inductive opacity_source : Type :=
| OpacityProperty (a : ndarray1)
| AlphaProperty (a : ndarray1)
| NoOpacity.

(** What [PlyData.read] returns, as far as the function looks at it: the
    coordinates and the opacities of the element [vertex]; or a file
    without an element [vertex], for which [plydata['vertex']] raises
    [KeyError]; or an element [vertex] without one of the properties [x],
    [y], [z], for which indexing its structured array raises
    [ValueError]. *)
Inductive plydata : Type :=
| mkPly (xyz : list point) (opacity_of : opacity_source)
| NoVertexElement
| NoCoordinates.

Definition xyz (p : plydata) : list point :=
  match p with
  | mkPly points _ => points
  | _ => []
  end.

Definition opacity_of (p : plydata) : opacity_source :=
  match p with
  | mkPly _ source => source
  | _ => NoOpacity
  end.

Section Volume.

Variable np_exp : dtype -> float -> float.
(** [pcd.remove_statistical_outlier(nb_neighbors=20, std_ratio=2.0)] on the
    points, with the conversions around it; [None]: the [try] block raised. *)
Variable remove_statistical_outlier : list point -> option (list point).
(** [ConvexHull(points).volume]; [None]: the [try] block raised. *)
Variable convex_hull_volume : list point -> option float.

(** [(opacity < 0).any()] *)
Definition any_negative (a : ndarray1) : bool :=
  existsb (fun x => flt x zero) (items a).

(** The opacities the mask compares with the threshold. *)
Definition effective_opacity (p : plydata) : ndarray1 :=
  match opacity_of p with
  | OpacityProperty a =>
      if any_negative a
      then mkArray1 (dt1 a) (map (sigmoid np_exp (dt1 a)) (items a))
      else a
  | AlphaProperty a => a
  | NoOpacity => mkArray1 float64 (repeat one (length (xyz p)))
  end.

(** [xyz[opacity > opacity_threshold]]; the threshold, a Python float, is
    compared in the dtype of the array. *)
Definition solid_points (p : plydata) (opacity_threshold : float) : list point :=
  let o := effective_opacity p in
  let t := round_to (dt1 o) opacity_threshold in
  map fst (filter (fun xo => flt t (snd xo)) (combine (xyz p) (items o))).

(** Step 3: the cleaned points, the solid points when Open3D fails. *)
Definition clean_points (solid : list point) : list point :=
  match remove_statistical_outlier solid with
  | Some cl => cl
  | None => solid
  end.

(** Step 4 *)
Definition hull_volume (clean : list point) : float :=
  if (length clean <? 4)%nat then zero
  else
    match convex_hull_volume clean with
    | Some v => v
    | None => zero
    end.

(** [calculate_splat_volume]. [has_volume_deps] is [HAS_VOLUME_DEPS];
    [read_ply] is what [PlyData.read(ply_path)] gives, [None] when it
    raises. The coordinates are taken outside any [try]: what
    [plydata['vertex']['x']] raises leaves the function. *)
Definition calculate_splat_volume
    (has_volume_deps : bool) (read_ply : option plydata) (opacity_threshold : float)
  : result float :=
  if negb has_volume_deps then Raise ImportError
  else
    match read_ply with
    | None => Ok zero
    | Some NoVertexElement => Raise KeyError
    | Some NoCoordinates => Raise (ValueError NoSuchField)
    | Some p =>
        let solid := solid_points p opacity_threshold in
        if (length solid <? 4)%nat then Ok zero
        else Ok (hull_volume (clean_points solid))
    end.

End Volume.

(** The growth from two volumes, in [analyze_growth]:
<<
    growth = 0.0
    if vol1 > 0:
        growth = ((vol2 - vol1) / vol1) * 100
>>
*)
Definition growth_percentage (vol1 vol2 : float) : float :=
  if flt zero vol1
  then fmul float64 (fdiv float64 (fsub float64 vol2 vol1) vol1) (of_int float64 100)
  else zero.

(** What [analyze_growth] returns, without the file names. *)
Record growth_report : Type := mkReport {
  volume1 : float;
  volume2 : float;
  growth : float
}.

Section Growth.

Variable np_exp : dtype -> float -> float.
Variable remove_statistical_outlier : list point -> option (list point).
Variable convex_hull_volume : list point -> option float.

(** [analyze_growth] for two files that exist: [ply1] and [ply2] are what
    [PlyData.read] gives for them. The checks of the request that come
    first (missing names, missing files) are not modelled. *)
Definition analyze_growth
    (has_volume_deps : bool) (ply1 ply2 : option plydata) (threshold : float)
  : result growth_report :=
  if negb has_volume_deps then Raise (HTTPException 500)
  else
    vol1 <- calculate_splat_volume np_exp remove_statistical_outlier convex_hull_volume
              has_volume_deps ply1 threshold ;;
    vol2 <- calculate_splat_volume np_exp remove_statistical_outlier convex_hull_volume
              has_volume_deps ply2 threshold ;;
    Ok (mkReport vol1 vol2 (growth_percentage vol1 vol2)).

End Growth.

(** ** Waiting for ComfyUI ([backend/main.py])

    [find_latest_ply] and [get_prompt_result] poll, the one the output
    directory and the other the history of ComfyUI, until a deadline. What
    they see of the world is given as sequences: the successive readings of
    [time.time()], the successive results of [glob.glob] and of
    [requests.get], each numbered from the entry into the function.
    [time.sleep] only lets time pass. *)

(** A Python [str]: its code points. *)
Definition str : Type := list N.

Definition pystr (s : string) : str := map N_of_ascii (list_ascii_of_string s).

Fixpoint str_eqb (a b : str) : bool :=
  match a, b with
  | [], [] => true
  | x :: a', y :: b' => N.eqb x y && str_eqb a' b'
  | _, _ => false
  end.

(** [a in b] on two strings: [a] occurs in [b]. *)
Fixpoint str_starts_with (a b : str) : bool :=
  match a, b with
  | [], _ => true
  | _ :: _, [] => false
  | x :: a', y :: b' => N.eqb x y && str_starts_with a' b'
  end.

Fixpoint str_contains (a b : str) : bool :=
  str_starts_with a b ||
  match b with
  | [] => false
  | _ :: b' => str_contains a b'
  end.

(** *** JSON values

    What [r.json()] returns: [None], [True] and [False], an [int], a [float],
    a [str], a [list], or a [dict] whose keys are strings. A dict is the list
    of its items; a key is looked up from the front. *)
#[local] Unset Elimination Schemes.
Inductive json : Type :=
| JNull
| JBool (b : bool)
| JInt (n : Z)
| JFloat (x : float)
| JStr (s : str)
| JList (items : list json)
| JDict (entries : list (str * json)).
#[local] Set Elimination Schemes.

Fixpoint lookup (k : str) (entries : list (str * json)) : option json :=
  match entries with
  | [] => None
  | (k', v) :: rest => if str_eqb k' k then Some v else lookup k rest
  end.

(** The exceptions of this part. All are subclasses of [Exception]. *)
Module Caught.
Inductive t : Type :=
| TypeError
| KeyError
| AttributeError
| IndexError
| RequestException     (* [requests.get] raised *)
| JSONDecodeError.     (* [r.json()] raised *)
End Caught.

Inductive attempt (A : Type) : Type :=
| Got (a : A)
| Except (e : Caught.t).
Arguments Got {A} a.
Arguments Except {A} e.

Definition and_then {A B : Type} (c : attempt A) (k : A -> attempt B) : attempt B :=
  match c with
  | Got a => k a
  | Except e => Except e
  end.

Notation "x <~ c1 ;; c2" := (and_then c1 (fun x => c2))
  (at level 61, c1 at next level, right associativity).

(** [k in c], for a string [k]: the keys of a dict, the items of a list, the
    substrings of a string; the other values are not containers. *)
Definition py_in (k : str) (c : json) : attempt bool :=
  match c with
  | JDict entries => Got (existsb (fun kv => str_eqb (fst kv) k) entries)
  | JList items =>
      Got (existsb (fun v => match v with JStr s => str_eqb s k | _ => false end) items)
  | JStr s => Got (str_contains k s)
  | _ => Except Caught.TypeError
  end.

(** [c[k]], for a string [k]: a list and a string take integers only. *)
Definition py_getitem (c : json) (k : str) : attempt json :=
  match c with
  | JDict entries =>
      match lookup k entries with
      | Some v => Got v
      | None => Except Caught.KeyError
      end
  | _ => Except Caught.TypeError
  end.

(** [c.get(k, default)]: only a dict has the method. *)
Definition py_get (c : json) (k : str) (default : json) : attempt json :=
  match c with
  | JDict entries =>
      Got match lookup k entries with
          | Some v => v
          | None => default
          end
  | _ => Except Caught.AttributeError
  end.

(** [c[0]]: the first item of a list, the first character of a string; a
    dict has no key [0], its keys being strings. *)
Definition py_first (c : json) : attempt json :=
  match c with
  | JList (v :: _) => Got v
  | JList [] => Except Caught.IndexError
  | JStr (ch :: _) => Got (JStr [ch])
  | JStr [] => Except Caught.IndexError
  | JDict _ => Except Caught.KeyError
  | _ => Except Caught.TypeError
  end.

(** [c.keys()] *)
Definition py_keys (c : json) : attempt (list str) :=
  match c with
  | JDict entries => Got (map fst entries)
  | _ => Except Caught.AttributeError
  end.

(** The truth value of [if v:]. *)
Definition truthy (v : json) : bool :=
  match v with
  | JNull => false
  | JBool b => b
  | JInt n => negb (n =? 0)
  | JFloat x => match x with S754_zero _ => false | _ => true end
  | JStr s => match s with [] => false | _ => true end
  | JList items => match items with [] => false | _ => true end
  | JDict entries => match entries with [] => false | _ => true end
  end.

(** *** The deadline *)

(** [x < n] for a float and an int, which Python compares exactly. *)
Definition float_lt_int (x : float) (n : Z) : bool :=
  match x with
  | S754_nan => false
  | S754_infinity s => s
  | S754_zero _ => 0 <? n
  | S754_finite s m e =>
      let v := if s then Z.neg m else Z.pos m in
      if 0 <=? e then v * 2 ^ e <? n else v <? n * 2 ^ (- e)
  end.

(** [time.time() - start_time < timeout] *)
Definition before_deadline (now start_time : float) (timeout : Z) : bool :=
  float_lt_int (fsub float64 now start_time) timeout.

(** The loop of both functions:
<<
    start_time = time.time()
    while time.time() - start_time < timeout:
        ...                 # may return
        time.sleep(2)
    return None
>>
    [clock 0] is [start_time] and [clock (S k)] the reading at the head of
    iteration [k]; [body k] is [Some r] when iteration [k] returns [r].
    [None]: the loop is still running after [fuel] iterations. *)
Fixpoint poll_loop {R : Type} (clock : nat -> float) (timeout : Z)
    (body : nat -> option R) (fuel k : nat) : option (option R) :=
  match fuel with
  | O => None
  | S fuel' =>
      if before_deadline (clock (S k)) (clock 0%nat) timeout
      then match body k with
           | Some r => Some (Some r)
           | None => poll_loop clock timeout body fuel' (S k)
           end
      else Some None
  end.

(** *** [find_latest_ply]

<<
    initial_files = set(glob.glob(os.path.join(COMFYUI_OUTPUT, "*.ply")))
    while ...:
        current_files = set(glob.glob(os.path.join(COMFYUI_OUTPUT, "*.ply")))
        new_files = current_files - initial_files
        if new_files:
            return list(new_files)[0]
>>
    [listings 0] is the first result of [glob.glob] and [listings (S k)] that
    of iteration [k]. A set is a list, looked at through membership only. *)

Definition set_difference (a b : list str) : list str :=
  filter (fun x => negb (existsb (str_eqb x) b)) a.

Section FindLatestPly.

(** [list(s)[0]] for a set that is not empty: one of its members, which one
    is not specified. *)
Variable first_of_set : list str -> str.

Definition find_latest_ply (clock : nat -> float) (listings : nat -> list str)
    (timeout : Z) (fuel : nat) : option (option str) :=
  let initial_files := listings 0%nat in
  poll_loop clock timeout
    (fun k =>
       let current_files := listings (S k) in
       let new_files := set_difference current_files initial_files in
       match new_files with
       | [] => None
       | _ :: _ => Some (first_of_set new_files)
       end)
    fuel 0.

End FindLatestPly.

(** *** [get_prompt_result] *)

(** What [requests.get] gives: it raises, or returns a response with a
    status code and a body, of which [r.json()] is the value, or raises. *)
Record response : Type := mkResponse {
  status_code : Z;
  json_body : option json
}.

Inductive get_outcome : Type :=
| GetRaises
| GetReturns (r : response).

(** The dict the function returns. *)
Record prompt_result : Type := mkPromptResult {
  extrinsics : json;
  intrinsics : json;
  ply_file : json
}.

(** [preview_output.get(key, [None])[0]] *)
Definition first_of_field (preview_output : json) (key : str) : attempt json :=
  v <~ py_get preview_output key (JList [JNull]) ;;
  py_first v.

(** The body of the [try], for a response [r]:
<<
    if r.status_code == 200:
        history = r.json()
        if prompt_id in history:
            outputs = history[prompt_id].get("outputs", {})
            if "8" in outputs:
                preview_output = outputs["8"]
                extrinsics = preview_output.get("extrinsics", [None])[0]
                intrinsics = preview_output.get("intrinsics", [None])[0]
                ply_file = preview_output.get("ply_file", [None])[0]
                ...
                if intrinsics:
                    print(f"... fx={intrinsics[0][0] if intrinsics else 'N/A'}")
                return {"extrinsics": extrinsics, "intrinsics": intrinsics,
                        "ply_file": ply_file}
            else:
                status = history[prompt_id].get("status", {})
                if status.get("completed", False):
                    print(...)
                    print(f"... {list(outputs.keys())}")
                    return None
>>
    [Got (Some x)]: the function returns [x], a dict or [None]; [Got None]:
    the body ends without a [return]. Of the [print]s only the expressions
    that may raise are kept. *)
Definition check_history (prompt_id : str) (r : response)
  : attempt (option (option prompt_result)) :=
  if status_code r =? 200 then
    match json_body r with
    | None => Except Caught.JSONDecodeError
    | Some history =>
        found <~ py_in prompt_id history ;;
        if found : bool then
          entry <~ py_getitem history prompt_id ;;
          outputs <~ py_get entry (pystr "outputs") (JDict []) ;;
          has_preview <~ py_in (pystr "8") outputs ;;
          if has_preview : bool then
            preview_output <~ py_getitem outputs (pystr "8") ;;
            extrinsics <~ first_of_field preview_output (pystr "extrinsics") ;;
            intrinsics <~ first_of_field preview_output (pystr "intrinsics") ;;
            ply_file <~ first_of_field preview_output (pystr "ply_file") ;;
            fx <~ (if truthy intrinsics
                   then row <~ py_first intrinsics ;; py_first row
                   else Got JNull) ;;
            Got (Some (Some (mkPromptResult extrinsics intrinsics ply_file)))
          else
            entry' <~ py_getitem history prompt_id ;;
            status <~ py_get entry' (pystr "status") (JDict []) ;;
            completed <~ py_get status (pystr "completed") (JBool false) ;;
            if truthy completed then
              keys <~ py_keys outputs ;;
              Got (Some None)
            else Got None
        else Got None
    end
  else Got None.

(** One iteration: the [try] with its [except Exception], which goes on to
    the [sleep] as the end of the body does. *)
Definition poll_history (prompt_id : str) (o : get_outcome)
  : option (option prompt_result) :=
  match o with
  | GetRaises => None
  | GetReturns r =>
      match check_history prompt_id r with
      | Got (Some x) => Some x
      | Got None => None
      | Except _ => None
      end
  end.

(** [get_prompt_result]: [gets k] is what [requests.get] does in iteration
    [k]. The result, when the loop has ended: the dict, or [None]. *)
Definition get_prompt_result (clock : nat -> float) (gets : nat -> get_outcome)
    (prompt_id : str) (timeout : Z) (fuel : nat) : option (option prompt_result) :=
  match poll_loop clock timeout (fun k => poll_history prompt_id (gets k)) fuel 0 with
  | None => None
  | Some None => Some None
  | Some (Some x) => Some x
  end.

(** ** The files of the output directory ([backend/main.py])

<<
    if not os.path.exists(COMFYUI_OUTPUT):
        return []
    files = []
    for fp in glob.glob(os.path.join(COMFYUI_OUTPUT, "*.ply")):
        name = os.path.basename(fp)
        stat = os.stat(fp)
        files.append({"name": name, "path": f"/files/{name}", "size": stat.st_size,
                      "modified": stat.st_mtime, "type": "model"})
    files.sort(key=lambda x: x['modified'], reverse=True)
    return files
>>
*)

(** What [os.stat] tells of a file, as far as the function looks at it. *)
Record stat_result : Type := mkStat {
  st_size : Z;
  st_mtime : float
}.

(** An item of the list returned. *)
Record file_item : Type := mkFileItem {
  item_name : str;
  item_path : str;
  item_size : Z;
  item_modified : float;
  item_type : str
}.

(** [files.sort(key=lambda x: x['modified'], reverse=True)]. The sort of
    Python compares keys with [<] only and is stable, also in reverse: items
    of equal key keep their order. On keys none of which is a NaN, as the
    times of files are, this determines the result, which an insertion from
    the right gives. *)
Fixpoint insert_newest_first (x : file_item) (sorted : list file_item) : list file_item :=
  match sorted with
  | [] => [x]
  | y :: rest =>
      if flt (item_modified x) (item_modified y)
      then y :: insert_newest_first x rest
      else x :: y :: rest
  end.

Definition sort_newest_first (files : list file_item) : list file_item :=
  fold_right insert_newest_first [] files.

Section ListOutputFiles.

(** [os.path.basename] *)
Variable basename : str -> str.
(** [os.stat]; [None]: it raises [OSError], the file being gone since it
    was listed. *)
Variable stat : str -> option stat_result.

Definition file_item_of (fp : str) (st : stat_result) : file_item :=
  let name := basename fp in
  mkFileItem name (pystr "/files/" ++ name) (st_size st) (st_mtime st) (pystr "model").

(** The loop; [None]: [os.stat] raised. *)
Fixpoint collect_files (paths : list str) : option (list file_item) :=
  match paths with
  | [] => Some []
  | fp :: rest =>
      match stat fp with
      | None => None
      | Some st =>
          match collect_files rest with
          | None => None
          | Some files => Some (file_item_of fp st :: files)
          end
      end
  end.

(** [list_output_files]: [output_exists] is [os.path.exists(COMFYUI_OUTPUT)]
    and [paths] what [glob.glob] returns. [None]: the function raises. *)
Definition list_output_files (output_exists : bool) (paths : list str)
  : option (list file_item) :=
  if negb output_exists then Some []
  else
    match collect_files paths with
    | None => None
    | Some files => Some (sort_newest_first files)
    end.

End ListOutputFiles.

(** ** Definitions for the statements

    Notions the properties of Part II are stated with, and the instances
    they are checked on. *)

Definition no_marker (line : bytes) : Prop := contains end_header line = false.

Definition has_marker (line : bytes) : Prop := contains end_header line = true.

(** A header whose count is negative. *)
Definition header_negative_count : string :=
  "ply
format binary_little_endian 1.0
element vertex -5
property float x
end_header
".

(** A header whose count is not a number. *)
Definition header_bad_count : string :=
  "ply
element vertex many
end_header
".

(** The reader after the header loop: the payload is what is left. *)
Definition at_payload (header payload : bytes) : reader :=
  mkReader (header ++ payload) (length header).

(** [recordCount] rows of [width] float32 values, from the first
    [recordCount * width * 4] bytes of the payload. *)
Definition rows_of_payload (record_count width : Z) (payload : bytes) : ndarray :=
  mkArray float32 (Z.to_nat record_count) (Z.to_nat width)
    (chunk (Z.to_nat record_count) (Z.to_nat width)
       (float32_items (firstn (Z.to_nat (record_count * width * 4)) payload))).

(** The header of a file with one vertex. *)
Definition header_one_vertex : bytes :=
  list_byte_of_string "ply
format binary_little_endian 1.0
element vertex 1
end_header
".

(** 1.0 as a float32, little-endian. *)
Definition f32_one : bytes := [x00; x00; x80; x3f].


Definition payload_3_floats : bytes := f32_one ++ f32_one ++ f32_one.


(** Arbitrary functions in the place of [np.exp] and [np.linalg.norm], for
    the closed instances; the theorems hold for all functions. *)
Definition sample_exp : dtype -> float -> float := fun _ _ => one.

Definition sample_norm : list float -> float := fun _ => one.


(** One record of 9 columns, all 1.0. *)
Definition nine_columns : ndarray :=
  mkArray float32 1 9 [repeat (of_int float32 1) 9].

(** One splat whose stored opacity is 5.0. *)
Definition ply_opacity_5 : plydata :=
  mkPly [(zero, zero, zero)] (OpacityProperty (mkArray1 float32 [of_int float32 5])).

(** Four points without an opacity property, an outlier removal that raises
    and a hull of volume 1.0. *)
Definition ply_four_points : plydata :=
  mkPly [(zero, zero, zero); (one, zero, zero); (zero, one, zero); (zero, zero, one)]
        NoOpacity.

(** Six points. *)
Definition ply_six_points : plydata :=
  mkPly [(zero, zero, zero); (one, zero, zero); (zero, one, zero); (zero, zero, one);
         (one, one, zero); (one, one, one)]
        NoOpacity.

(** An arbitrary function in the place of the convex hull, for the closed
    instances: the number of points as the volume. *)
Definition sample_hull (points : list point) : option float :=
  Some (of_int float64 (Z.of_nat (length points))).

(** Two volumes: 2^-1000 and 2^30. *)
Definition tiny_volume : float := S754_finite false (2 ^ 52) (-1052).

Definition large_volume : float := S754_finite false (2 ^ 52) (-22).

(** [m * 2^e <= B] *)
Definition scaled_le (m e B : Z) : Prop :=
  m * 2 ^ Z.max 0 e <= B * 2 ^ Z.max 0 (- e).

(** A zero, or a finite value of sign [s] and magnitude at most [B]. *)
Definition within (s : bool) (B : Z) (x : float) : Prop :=
  match x with
  | S754_zero _ => True
  | S754_finite s' m e => s' = s /\ scaled_le (Zpos m) e B
  | _ => False
  end.

Definition sign_of (x : float) : bool :=
  match x with
  | S754_finite s _ _ => s
  | _ => false
  end.

Definition exact_record (r : shr_record) : bool := negb (shr_r r) && negb (shr_s r).

(** [X] is the record's mantissa shifted back by [k] bits, plus the bits
    dropped, which are all zero exactly when the record is exact. *)
Definition shr_inv (X k : Z) (r : shr_record) : Prop :=
  0 <= shr_m r /\
  exists rem, X = shr_m r * 2 ^ k + rem /\ 0 <= rem < 2 ^ k /\
              (rem = 0 <-> exact_record r = true).

(** [X] shifted right by [k] bits is the record's mantissa. *)
Definition shr_floor (X k : Z) (r : shr_record) : Prop :=
  0 <= shr_m r /\ exists rem, X = shr_m r * 2 ^ k + rem /\ 0 <= rem < 2 ^ k.

(** A mantissa and exponent in canonical form, or a zero mantissa at an
    exponent that is at most the least one. *)
Definition canonical_or_zero (p em m e : Z) : Prop :=
  (m = 0 /\ e <= emin p em) \/ (0 < m /\ fexp p em (Zdigits2 m + e) = e).

(** [clamp(v, 0, 1)], as the words have it: [c] is 0 for a value of at most
    0, the value itself for one between 0 and 1, and 1 for a value of 1 or
    more; a NaN, which has no order, stays a NaN. The bound 1 is that of
    the dtype. *)
Definition clamped (d : dtype) (v c : float) : Prop :=
  (is_nan v = true -> is_nan c = true)
  /\ (fle v zero = true -> c = zero)
  /\ (flt zero v = true -> flt v (of_int d 1) = true -> c = v)
  /\ (fle (of_int d 1) v = true -> c = of_int d 1).

(** The color of a coefficient before the clamp:
    [c * 0.28209479177387814 + 0.5] in binary32, where the two constants are
    0x3e906ebb and 0x3f000000. *)
Definition color_value (c : float) : float :=
  fadd float32 (fmul float32 c (S754_finite false 9465531 (-25)))
       (S754_finite false 8388608 (-24)).

(** The value truncated toward zero, as a quotient of integers. *)
Definition truncate_toward_zero (x : float) : Z :=
  match x with
  | S754_finite s m e =>
      Z.quot ((if s then - Zpos m else Zpos m) * 2 ^ Z.max 0 e) (2 ^ Z.max 0 (- e))
  | _ => 0
  end.

(** A value of the dtype, of magnitude at most 1. *)
Definition unit_magnitude (d : dtype) (x : float) : bool :=
  valid_binary (prec d) (emax d) x && fle (SFabs x) (of_int d 1).

(** A value of the dtype, between 0 and 1. *)
Definition unit_interval (d : dtype) (x : float) : bool :=
  unit_magnitude d x && fle zero x.

(** A value [struct.pack('f', x)] accepts. *)
Definition fits_float32 (x : float) : bool :=
  negb (is_finite x) || is_finite (round_to float32 x).

(** The four bytes of a value written as a float32. *)
Definition f32_bytes (x : float) : bytes := le32 (bits_of_float32 (round_to float32 x)).

(** The byte of [value * k] truncated toward zero: the value itself for a
    uint8, its two's complement for an int8. *)
Definition quantized (legacy_promotion : bool) (d : dtype) (k : Z) (x : float) : byte :=
  byte_of_Z (truncate_toward_zero (scalar_times_int legacy_promotion d x k)).

(** The value of a byte read as an int8. *)
Definition int8_of_byte (b : byte) : Z :=
  if Z_of_byte b <? 128 then Z_of_byte b else Z_of_byte b - 256.

(** [value * k] truncated toward zero, as the words have it. The product is
    that of floats: of a float64 where NumPy promotes a scalar and a Python
    int as it did before NEP 50, of the dtype of the value otherwise. *)
Definition truncated_product (legacy_promotion : bool) (d : dtype) (x : float) (k : Z) : Z :=
  let promoted := if legacy_promotion then float64 else d in
  truncate_toward_zero (fmul promoted (round_to promoted x) (of_int promoted k)).

(** The 32-byte record of splat [i]: position, scale, color and opacity,
    rotation. *)
Definition compact_record (legacy_promotion : bool) (s : splats) (i : nat) : bytes :=
  flat_map f32_bytes (nth i (rows (positions s)) [])
  ++ flat_map f32_bytes (nth i (rows (scale s)) [])
  ++ map (quantized legacy_promotion (dt (colors s)) 255) (nth i (rows (colors s)) [])
  ++ [quantized legacy_promotion (dt1 (opacity s)) 255 (nth i (items (opacity s)) S754_nan)]
  ++ map (quantized legacy_promotion (dt (rot s)) 127) (nth i (rows (rot s)) []).

(** [n] rows of [c] items that satisfy [ok]. *)
Definition rows_ok (n c : nat) (ok : float -> bool) (a : list (list float)) : Prop :=
  length a = n /\
  Forall (fun row => length row = c /\ Forall (fun x => ok x = true) row) a.

(** [n] decoded splats: positions and scales that a float32 can hold, colors
    and opacities between 0 and 1, rotation components of magnitude at most
    1 (as those of a unit quaternion are). *)
Record decoded_splats (n : nat) (s : splats) : Prop := mkDecoded {
  positions_ok : rows_ok n 3 fits_float32 (rows (positions s));
  scale_ok : rows_ok n 3 fits_float32 (rows (scale s));
  colors_ok : rows_ok n 3 (unit_interval (dt (colors s))) (rows (colors s));
  opacity_ok : length (items (opacity s)) = n /\
               Forall (fun x => unit_interval (dt1 (opacity s)) x = true) (items (opacity s));
  rot_ok : rows_ok n 4 (unit_magnitude (dt (rot s))) (rows (rot s))
}.

(** The splats of the one record of nine columns. *)
Definition nine_column_splats : splats := decode_splats sample_exp sample_norm 1 nine_columns.

(** The 20 bytes of the defaults: the scale 0.01 three times, the color 0.5
    as 127 three times, the opacity 0.8 as 204, the rotation (1, 0, 0, 0) as
    (127, 0, 0, 0). *)
Definition default_fields : bytes :=
  [x0a; xd7; x23; x3c; x0a; xd7; x23; x3c; x0a; xd7; x23; x3c;
   x7f; x7f; x7f; xcc;
   x7f; x00; x00; x00].

(** Files of one vertex with 3 and with 9 floats, and one whose count is
    negative. *)
Definition file_3_floats : bytes := header_one_vertex ++ payload_3_floats.

Definition payload_9_floats : bytes := List.concat (repeat f32_one 9).

Definition file_9_floats : bytes := header_one_vertex ++ payload_9_floats.


(** The bytes written of a record the writer did not finish: none, the
    position, or the position and the scale, or these and the color. *)
Definition partial_record_sizes : list nat := [0; 12; 24; 28]%nat.

(** The bytes of record [i] in a payload of [width] float32 values per
    record. *)
Definition record_at (width : nat) (payload : bytes) (i : nat) : bytes :=
  firstn (4 * width) (skipn (4 * width * i) payload).

(** A file of one vertex with 9 floats, the first color coefficient a NaN. *)
Definition payload_nan_color : bytes :=
  List.concat (repeat f32_one 6) ++ [x00; x00; xc0; x7f] ++ f32_one ++ f32_one.

Definition file_nan_color : bytes := header_one_vertex ++ payload_nan_color.

(** The value of a field of the preview output, as the result has it:
    [None] for a missing key, else the first item of what the key holds. *)
Definition field_value (preview : list (str * json)) (key : str) (value : json) : Prop :=
  match lookup key preview with
  | None => value = JNull
  | Some v => py_first v = Got value
  end.

(** [history[prompt_id]] is a dict whose outputs, a dict, are [outputs]. *)
Definition history_outputs (prompt_id : str) (history : json)
    (entry outputs : list (str * json)) : Prop :=
  exists h,
    history = JDict h /\ lookup prompt_id h = Some (JDict entry)
    /\ match lookup (pystr "outputs") entry with
       | Some v => v
       | None => JDict []
       end = JDict outputs.

(** The workflow of [prompt_id] is completed and has no output of node 8. *)
Definition completed_without_preview (prompt_id : str) (r : response) : Prop :=
  status_code r = 200 /\
  exists history entry outputs status,
    json_body r = Some history
    /\ history_outputs prompt_id history entry outputs
    /\ lookup (pystr "8") outputs = None
    /\ match lookup (pystr "status") entry with
       | Some v => v
       | None => JDict []
       end = JDict status
    /\ truthy match lookup (pystr "completed") status with
              | Some v => v
              | None => JBool false
              end = true.

(** The response holds a preview output from which [result] is read. *)
Definition preview_available (prompt_id : str) (r : response) (result : prompt_result)
  : Prop :=
  status_code r = 200 /\
  exists history entry outputs preview,
    json_body r = Some history
    /\ history_outputs prompt_id history entry outputs
    /\ lookup (pystr "8") outputs = Some (JDict preview)
    /\ field_value preview (pystr "extrinsics") (extrinsics result)
    /\ field_value preview (pystr "intrinsics") (intrinsics result)
    /\ field_value preview (pystr "ply_file") (ply_file result)
    /\ (truthy (intrinsics result) = true ->
        exists row fx, py_first (intrinsics result) = Got row /\ py_first row = Got fx).

(** A clock read every 2 seconds, and a directory in which [b.ply] appears
    at the third listing, beside [a.ply]. *)
Definition sample_clock (k : nat) : float := of_int float64 (2 * Z.of_nat k).

Definition sample_listings (k : nat) : list str :=
  if (k <? 2)%nat then [pystr "a.ply"] else [pystr "a.ply"; pystr "b.ply"].

(** An order of iteration, for the closed instances: that of the list. *)
Definition sample_first (s : list str) : str := hd [] s.

(** A history with a preview output for the prompt [p1], and one that
    shows its workflow completed without it. *)
Definition sample_preview : json :=
  JDict [(pystr "extrinsics", JList [JList [JList [JInt 1; JInt 0]]]);
         (pystr "intrinsics", JList [JList [JList [JInt 500; JInt 0]]]);
         (pystr "ply_file", JList [JStr (pystr "b.ply")])].

Definition sample_history : json :=
  JDict [(pystr "p1", JDict [(pystr "outputs", JDict [(pystr "8", sample_preview)])])].

Definition sample_result : prompt_result :=
  mkPromptResult (JList [JList [JInt 1; JInt 0]]) (JList [JList [JInt 500; JInt 0]])
                 (JStr (pystr "b.ply")).

Definition sample_history_completed : json :=
  JDict [(pystr "p1", JDict [(pystr "outputs", JDict []);
                             (pystr "status", JDict [(pystr "completed", JBool true)])])].

(** A failed request, a response 404, then the history. *)
Definition sample_gets (history : json) (k : nat) : get_outcome :=
  match k with
  | O => GetRaises
  | S O => GetReturns (mkResponse 404 None)
  | _ => GetReturns (mkResponse 200 (Some history))
  end.

(** [a] is not older than [b]. *)
Definition not_older (a b : file_item) : Prop :=
  flt (item_modified a) (item_modified b) = false.

(** The items whose time equals [t]. *)
Definition modified_at (t : float) (files : list file_item) : list file_item :=
  filter (fun x => feq (item_modified x) t) files.

(** A directory of three files, the second the newest. *)
Definition sample_stat (fp : str) : option stat_result :=
  if str_eqb fp (pystr "a.ply") then Some (mkStat 64 (of_int float64 100))
  else if str_eqb fp (pystr "b.ply") then Some (mkStat 32 (of_int float64 300))
  else if str_eqb fp (pystr "c.ply") then Some (mkStat 96 (of_int float64 200))
  else None.

Definition sample_paths : list str := [pystr "a.ply"; pystr "b.ply"; pystr "c.ply"].

(** The list for that directory, the base name of a path being the path. *)
Definition sample_files : list file_item :=
  [mkFileItem (pystr "b.ply") (pystr "/files/b.ply") 32 (of_int float64 300) (pystr "model");
   mkFileItem (pystr "c.ply") (pystr "/files/c.ply") 96 (of_int float64 200) (pystr "model");
   mkFileItem (pystr "a.ply") (pystr "/files/a.ply") 64 (of_int float64 100) (pystr "model")].

(** The record counts for which [f.read(vertex_count * 62 * 4)] does not
    raise [OverflowError]: on a 64-bit build the length is at least [-2^63],
    the least C [ssize_t], and at most [2^63 - 34], the length of the
    largest [bytes] object. Below -1 it raises [ValueError], as [read]
    has it. *)
Definition readable_count (vertex_count : Z) : Prop :=
  - 2 ^ 63 <= vertex_count * 62 * 4 <= 2 ^ 63 - 34.

(** The number of columns the vertex data are read with: 62 when the
    payload holds 62 floats per record or more, else the number inferred. *)
Definition chosen_width (vertex_count : Z) (payload : bytes) : Z :=
  if vertex_count * 62 * 4 <=? Z.of_nat (length payload) then 62
  else Z.of_nat (length payload) / (vertex_count * 4).



(* ================================================================== *)
(** * Part II. Properties                                              *)
(* ================================================================== *)

(** ** The header loop *)

(** What one [readline] leaves to read. *)
Lemma remaining_readline (f : reader) :
  remaining (snd (readline f)) = skipn (length (take_line (remaining f))) (remaining f).
Proof.
  unfold readline, remaining; simpl.
  rewrite Nat.add_comm, <- skipn_skipn. reflexivity.
Qed.

Lemma lines_from_step (cur : bytes) (b : byte) (bs : bytes) :
  lines_from cur (b :: bs) =
  if Byte.eqb b newline then rev (b :: cur) :: lines_from [] bs
  else lines_from (b :: cur) bs.
Proof. reflexivity. Qed.

Lemma take_line_step (b : byte) (bs : bytes) :
  take_line (b :: bs) = if Byte.eqb b newline then [b] else b :: take_line bs.
Proof. reflexivity. Qed.

Lemma lines_from_cons (cur : bytes) (b : byte) (bs : bytes) :
  lines_from cur (b :: bs) =
  (rev cur ++ take_line (b :: bs))
    :: lines_from [] (skipn (length (take_line (b :: bs))) (b :: bs)).
Proof.
  revert cur b. induction bs as [|b' bs IH]; intros cur b.
  - simpl. destruct (Byte.eqb b newline); simpl; reflexivity.
  - rewrite lines_from_step, (take_line_step b). destruct (Byte.eqb b newline) eqn:Eb.
    + reflexivity.
    + rewrite IH. cbn [rev length skipn]. rewrite <- app_assoc. reflexivity.
Qed.

(** The first line of what is left is what [readline] returns. *)
Lemma file_lines_unfold (bs : bytes) :
  bs <> [] ->
  file_lines bs = take_line bs :: file_lines (skipn (length (take_line bs)) bs).
Proof.
  destruct bs as [|b bs]; [congruence|]. intros _.
  unfold file_lines. rewrite lines_from_cons. reflexivity.
Qed.

(** Without a marker line the loop is still running after any number of
    iterations: past the last line [readline] keeps returning [b'']. *)
Lemma header_loop_diverges (fuel : nat) :
  forall header f,
    Forall no_marker (file_lines (remaining f)) ->
    header_loop fuel (header, f) = None.
Proof.
  induction fuel as [|fuel IH]; intros header f Hno; [reflexivity|].
  cbn [header_loop header_step].
  destruct (readline f) as [line f'] eqn:Hrl.
  assert (Hline : line = take_line (remaining f)) by (unfold readline in Hrl; congruence).
  assert (Hrem : remaining f' = skipn (length line) (remaining f)).
  { rewrite Hline, <- remaining_readline, Hrl. reflexivity. }
  destruct (remaining f) as [|b bs] eqn:Hr.
  - subst line. simpl. apply IH. rewrite Hrem. simpl. constructor.
  - assert (Hne : b :: bs <> []) by discriminate.
    rewrite (file_lines_unfold _ Hne), <- Hline in Hno.
    pose proof (Forall_inv Hno) as Hhd. pose proof (Forall_inv_tail Hno) as Htl.
    unfold no_marker in Hhd. rewrite Hhd.
    apply IH. rewrite Hrem. exact Htl.
Qed.

(** With a marker line the loop ends. *)
Lemma header_loop_terminates :
  forall ls header f,
    ls = file_lines (remaining f) ->
    Exists has_marker ls ->
    exists fuel r, header_loop fuel (header, f) = Some r.
Proof.
  induction ls as [|l ls IH]; intros header f Hls Hex.
  - inversion Hex.
  - assert (Hne : remaining f <> []).
    { intro Hr. rewrite Hr in Hls. discriminate Hls. }
    rewrite (file_lines_unfold _ Hne) in Hls.
    injection Hls as Hl Hrest.
    destruct (contains end_header l) eqn:Hc.
    + exists 1%nat. cbn [header_loop header_step].
      unfold readline. rewrite <- Hl, Hc. eauto.
    + assert (Hex' : Exists has_marker ls).
      { inversion Hex as [? ? Hm|? ? Hm]; subst; [|exact Hm].
        unfold has_marker in Hm. congruence. }
      destruct (IH (header ++ l) (snd (readline f))) as (fuel & r & Hrun).
      * rewrite remaining_readline. exact Hrest.
      * exact Hex'.
      * exists (S fuel), r. cbn [header_loop header_step].
        destruct (readline f) as [line f'] eqn:Hrl.
        assert (line = l) by (unfold readline in Hrl; congruence).
        subst line. rewrite Hc. exact Hrun.
Qed.

(** More fuel does not change a result. *)
Lemma header_loop_mono (fuel : nat) :
  forall st r, header_loop fuel st = Some r -> header_loop (S fuel) st = Some r.
Proof.
  induction fuel as [|fuel IH]; intros st r H; [discriminate|].
  cbn [header_loop] in H |- *.
  destruct (header_step st) as [st'|r']; [|exact H].
  apply IH. exact H.
Qed.

Lemma take_line_prefix (bs : bytes) :
  take_line bs = firstn (length (take_line bs)) bs.
Proof.
  induction bs as [|b l IHl]; simpl; [reflexivity|].
  destruct (Byte.eqb b newline); simpl; [reflexivity|]. f_equal. exact IHl.
Qed.

Lemma take_line_length (bs : bytes) : (length (take_line bs) <= length bs)%nat.
Proof.
  induction bs as [|b l IHl]; simpl; [lia|].
  destruct (Byte.eqb b newline); simpl; lia.
Qed.

Lemma firstn_plus {A : Type} (p n : nat) :
  forall l : list A, firstn (p + n) l = firstn p l ++ firstn n (skipn p l).
Proof.
  induction p as [|p IH]; intros l; [reflexivity|].
  destruct l as [|a l]; simpl.
  - rewrite firstn_nil. reflexivity.
  - f_equal. apply IH.
Qed.

(** A prefix of the file followed by the next line is a prefix again. *)
Lemma firstn_take_line (bs : bytes) (p : nat) :
  firstn p bs ++ take_line (skipn p bs)
  = firstn (p + length (take_line (skipn p bs))) bs.
Proof.
  rewrite firstn_plus, <- take_line_prefix. reflexivity.
Qed.

(** When the loop ends, the header is a prefix of the file and the position
    is at its end. *)
Lemma header_loop_prefix (fuel : nat) :
  forall header f header' f',
    header = firstn (pos f) (data f) ->
    (pos f <= length (data f))%nat ->
    header_loop fuel (header, f) = Some (header', f') ->
    data f' = data f /\ header' = firstn (pos f') (data f) /\
    (pos f' <= length (data f))%nat.
Proof.
  induction fuel as [|fuel IH]; intros header f header' f' Hh Hp H; [discriminate|].
  cbn [header_loop header_step] in H. unfold readline, remaining in H.
  set (line := take_line (skipn (pos f) (data f))) in H.
  set (g := mkReader (data f) (pos f + length line)) in H.
  assert (Hpre : header ++ line = firstn (pos g) (data g)).
  { subst g line. cbn [pos data]. rewrite Hh. apply firstn_take_line. }
  assert (Hle : (pos g <= length (data g))%nat).
  { subst g. cbn [pos data].
    pose proof (take_line_length (skipn (pos f) (data f))) as Hl.
    rewrite length_skipn in Hl. fold line in Hl. lia. }
  destruct (contains end_header line).
  - injection H as <- <-. auto.
  - destruct (IH _ _ _ _ Hpre Hle H) as (H1 & H2 & H3). auto.
Qed.

Lemma read_header_prefix (fuel : nat) (contents header : bytes) (f : reader) :
  read_header fuel contents = Some (header, f) ->
  f = mkReader contents (length header) /\
  header = firstn (length header) contents /\
  (length header <= length contents)%nat.
Proof.
  intros H. unfold read_header in H.
  apply header_loop_prefix in H; [|reflexivity|simpl; lia].
  simpl in H. destruct H as (Hd & Hh & Hp).
  assert (Hlen : length header = pos f).
  { rewrite Hh, length_firstn. lia. }
  rewrite Hlen. destruct f as [d p]; simpl in *. subst d.
  auto.
Qed.

Lemma header_loop_more_fuel (fuel fuel' : nat) (st r : bytes * reader) :
  (fuel <= fuel')%nat -> header_loop fuel st = Some r -> header_loop fuel' st = Some r.
Proof.
  induction 1 as [|m _ IH]; [tauto|]. intros H. apply header_loop_mono, IH, H.
Qed.

Lemma marker_dec (ls : list bytes) :
  Forall no_marker ls \/ Exists has_marker ls.
Proof.
  induction ls as [|l ls [IH|IH]]; [left; constructor| |right; constructor 2; exact IH].
  destruct (contains end_header l) eqn:Hc.
  - right. constructor. exact Hc.
  - left. constructor; assumption.
Qed.

Section HeaderScan.

Variable max_str_digits : nat.
Variable np_exp : dtype -> float -> float.
Variable np_linalg_norm : list float -> float.
Variable legacy_promotion : bool.

Let convert := convert_ply_to_splat max_str_digits np_exp np_linalg_norm legacy_promotion.

(** C10. A file none of whose lines contains [end_header] keeps the
    conversion in the header loop for ever: whatever the number of
    iterations allowed, the function has not left the loop. When a line
    does contain the marker the loop ends: from some number of iterations
    on the conversion has its result. So the header scan terminates exactly
    when a marker line is present. *)
Theorem convert_diverges_without_end_header (contents : bytes) :
  (Forall (fun line => contains end_header line = false) (file_lines contents) ->
   forall fuel, convert fuel contents = None)
  /\
  (Exists (fun line => contains end_header line = true) (file_lines contents) ->
   exists fuel c, forall fuel', (fuel <= fuel')%nat -> convert fuel' contents = Some c)
  /\
  ((forall fuel, convert fuel contents = None) <->
   Forall (fun line => contains end_header line = false) (file_lines contents)).
Proof.
  assert (Hdiv : Forall no_marker (file_lines contents) ->
                 forall fuel, convert fuel contents = None).
  { intros Hno fuel.
    pose proof (header_loop_diverges fuel [] (open_rb contents) Hno) as Hrun.
    change (read_header fuel contents = None) in Hrun.
    unfold convert, convert_ply_to_splat. rewrite Hrun. reflexivity. }
  assert (Hterm : Exists has_marker (file_lines contents) ->
                  exists fuel c, forall fuel', (fuel <= fuel')%nat ->
                                               convert fuel' contents = Some c).
  { intros Hex.
    destruct (header_loop_terminates (file_lines contents) [] (open_rb contents)
                eq_refl Hex) as (fuel & [header f] & Hrun).
    exists fuel. eexists. intros fuel' Hle.
    pose proof (header_loop_more_fuel fuel fuel' _ _ Hle Hrun) as Hrun'.
    change (read_header fuel' contents = Some (header, f)) in Hrun'.
    unfold convert, convert_ply_to_splat. rewrite Hrun'. reflexivity. }
  split; [exact Hdiv|]. split; [exact Hterm|]. split; [|exact Hdiv].
  intros Hnone. destruct (marker_dec (file_lines contents)) as [Hno|Hex]; [exact Hno|].
  destruct (Hterm Hex) as (fuel & c & Hc).
  specialize (Hc fuel (Nat.le_refl _)). rewrite Hnone in Hc. discriminate Hc.
Qed.

End HeaderScan.

(** ** The header parse *)

Lemma last_item_nonempty {A : Type} (l : list A) :
  l <> [] -> exists a, last_item l = Ok a.
Proof.
  intros Hne. unfold last_item. destruct (rev l) as [|a r] eqn:Hr.
  - apply (f_equal (@rev A)) in Hr. rewrite rev_involutive in Hr. contradiction.
  - eauto.
Qed.

Lemma split_ws_nonempty (c : ascii) (s : string) :
  isspace c = false -> split_ws (String c s) <> [].
Proof.
  intros Hc. cbn [split_ws]. rewrite Hc.
  destruct s as [|c' s']; [discriminate|].
  destruct (isspace c'); [discriminate|].
  destruct (split_ws (String c' s')); discriminate.
Qed.

Lemma prefix_head (a b : ascii) (s1 s2 : string) :
  prefix (String a s1) (String b s2) = true -> a = b.
Proof.
  cbn [prefix]. destruct (ascii_dec a b); [trivial|discriminate].
Qed.

Lemma vertex_line_has_token (line : string) :
  prefix "element vertex" line = true ->
  exists tok, last_item (split_ws line) = Ok tok.
Proof.
  intros Hp. apply last_item_nonempty.
  destruct line as [|c s]; [discriminate Hp|].
  apply prefix_head in Hp. subst c.
  apply split_ws_nonempty. reflexivity.
Qed.

Section HeaderParse.

Variable max_str_digits : nat.

Lemma py_int_error (tok : string) (e : exn) :
  py_int max_str_digits tok = Raise e -> e = ValueError InvalidIntLiteral.
Proof.
  unfold py_int.
  destruct (match tok with
            | String "-" s => (true, s)
            | String "+" s => (false, s)
            | _ => (false, tok)
            end) as [neg body].
  destruct (int_digits 0 0 true body) as [[v digits]|]; [|congruence].
  destruct ((0 <? max_str_digits)%nat && (max_str_digits <? digits)%nat); congruence.
Qed.

(** The [for] loop is a search for the first line with the prefix. *)
Lemma find_vertex_count_find (lines : list string) :
  find_vertex_count max_str_digits lines =
  match find (prefix "element vertex") lines with
  | None => Ok 0
  | Some line => tok <- last_item (split_ws line) ;; py_int max_str_digits tok
  end.
Proof.
  induction lines as [|l lines IH]; [reflexivity|].
  cbn [find_vertex_count find]. destruct (prefix "element vertex" l); [reflexivity|exact IH].
Qed.

(** C8, as the code has it. The record count is the last token of the first
    header line that starts with [element vertex], read by [int]. The parse
    raises [ValueError] exactly when there is no such line, when that token
    is not an integer literal, or when the count read is zero; otherwise it
    returns the count, which is therefore not zero. *)
Theorem parse_vertex_count_spec (header_str : string) :
  match find (prefix "element vertex") (split_on "010" header_str) with
  | None =>
      parse_vertex_count max_str_digits header_str = Raise (ValueError NoVertexCount)
  | Some line =>
      exists tok,
        last_item (split_ws line) = Ok tok /\
        match py_int max_str_digits tok with
        | Raise _ =>
            parse_vertex_count max_str_digits header_str
            = Raise (ValueError InvalidIntLiteral)
        | Ok n =>
            (n = 0 /\ parse_vertex_count max_str_digits header_str
                      = Raise (ValueError NoVertexCount))
            \/
            (n <> 0 /\ parse_vertex_count max_str_digits header_str = Ok n)
        end
  end
  /\
  (forall n, parse_vertex_count max_str_digits header_str = Ok n -> n <> 0).
Proof.
  split.
  - unfold parse_vertex_count. rewrite find_vertex_count_find.
    destruct (find (prefix "element vertex") (split_on "010" header_str))
      as [line|] eqn:Hfind; [|reflexivity].
    apply find_some in Hfind. destruct Hfind as [_ Hp].
    destruct (vertex_line_has_token line Hp) as [tok Htok].
    exists tok. split; [exact Htok|]. rewrite Htok. cbn [bind].
    destruct (py_int max_str_digits tok) as [n|e] eqn:Hint; cbn [bind].
    + destruct (n =? 0) eqn:Hn.
      * left. apply Z.eqb_eq in Hn. auto.
      * right. apply Z.eqb_neq in Hn. auto.
    + apply py_int_error in Hint. subst e. reflexivity.
  - intros n H. unfold parse_vertex_count in H.
    destruct (find_vertex_count max_str_digits (split_on "010" header_str)) as [v|e];
      cbn [bind] in H; [|discriminate H].
    destruct (v =? 0) eqn:Hv; [discriminate H|].
    injection H as <-. apply Z.eqb_neq. exact Hv.
Qed.

End HeaderParse.

(** C8, as stated, fails: a negative count is accepted by the parse, and a
    count that is not an integer literal makes the parse fail although the
    line exists and no zero was read. *)
Lemma parse_vertex_count_counterexample :
  parse_vertex_count default_max_str_digits header_negative_count = Ok (-5)
  /\ (-5 > 0 -> False)
  /\ parse_vertex_count default_max_str_digits header_bad_count
     = Raise (ValueError InvalidIntLiteral).
Proof.
  split; [vm_compute; reflexivity|]. split; [lia|vm_compute; reflexivity].
Qed.

(** [int] on some tokens. *)
Example py_int_examples :
  py_int default_max_str_digits "12" = Ok 12
  /\ py_int default_max_str_digits "+7" = Ok 7
  /\ py_int default_max_str_digits "-5" = Ok (-5)
  /\ py_int default_max_str_digits "007" = Ok 7
  /\ py_int default_max_str_digits "1_000" = Ok 1000
  /\ py_int default_max_str_digits "1__0" = Raise (ValueError InvalidIntLiteral)
  /\ py_int default_max_str_digits "_1" = Raise (ValueError InvalidIntLiteral)
  /\ py_int default_max_str_digits "1_" = Raise (ValueError InvalidIntLiteral)
  /\ py_int default_max_str_digits "-" = Raise (ValueError InvalidIntLiteral)
  /\ py_int default_max_str_digits "0x10" = Raise (ValueError InvalidIntLiteral)
  /\ py_int default_max_str_digits "1.5" = Raise (ValueError InvalidIntLiteral).
Proof. repeat split. Qed.

(** ** The vertex data *)

Lemma float32_items_length (n : nat) :
  forall bs, length bs = (4 * n)%nat -> length (float32_items bs) = n.
Proof.
  induction n as [|n IH]; intros bs Hlen.
  - destruct bs; [reflexivity|discriminate Hlen].
  - destruct bs as [|b0 [|b1 [|b2 [|b3 rest]]]]; simpl in Hlen; try lia.
    cbn [float32_items length]. f_equal. apply IH. lia.
Qed.

Lemma frombuffer_ok (n : nat) (bs : bytes) :
  length bs = (4 * n)%nat -> frombuffer bs = Ok (float32_items bs).
Proof.
  intros Hlen. unfold frombuffer. rewrite Hlen, Nat.mul_comm, Nat.Div0.mod_mul. reflexivity.
Qed.

(** [frombuffer] raises nothing but [ValueError], and an array it returns has
    a quarter of the bytes as items. *)
Lemma frombuffer_cases (bs : bytes) :
  frombuffer bs = Raise (ValueError BufferSizeNotMultiple) \/
  exists n, length bs = (4 * n)%nat /\ frombuffer bs = Ok (float32_items bs).
Proof.
  unfold frombuffer. destruct (Nat.modulo (length bs) 4 =? 0)%nat eqn:Hm; [right|left; reflexivity].
  apply Nat.eqb_eq in Hm. exists (length bs / 4)%nat. split; [|reflexivity].
  pose proof (Nat.div_mod_eq (length bs) 4). lia.
Qed.

Lemma reshape_ok (flat : list float) (r c : Z) :
  0 <= r -> 0 <= c -> Z.of_nat (length flat) = r * c ->
  reshape flat r c =
  Ok (mkArray float32 (Z.to_nat r) (Z.to_nat c) (chunk (Z.to_nat r) (Z.to_nat c) flat)).
Proof.
  intros Hr Hc Hsize. unfold reshape.
  destruct (Z.ltb_spec r 0); [lia|]. destruct (Z.ltb_spec c 0); [lia|].
  cbn [andb]. rewrite Hsize, Z.eqb_refl. reflexivity.
Qed.

Lemma reshape_mismatch (flat : list float) (r c : Z) :
  0 <= r -> 0 <= c -> Z.of_nat (length flat) <> r * c ->
  reshape flat r c = Raise (ValueError CannotReshape).
Proof.
  intros Hr Hc Hsize. unfold reshape.
  destruct (Z.ltb_spec r 0); [lia|]. destruct (Z.ltb_spec c 0); [lia|].
  cbn [andb]. destruct (Z.eqb_spec (r * c) (Z.of_nat (length flat))); [lia|reflexivity].
Qed.

(** [chunk] cuts a list of [n * c] items into [n] rows of [c] items. *)
Lemma chunk_spec (c n : nat) :
  forall flat, length flat = (n * c)%nat ->
    length (chunk n c flat) = n /\
    Forall (fun row => length row = c) (chunk n c flat) /\
    List.concat (chunk n c flat) = flat.
Proof.
  induction n as [|n IH]; intros flat Hlen.
  - destruct flat; [|discriminate Hlen]. repeat split. constructor.
  - cbn [chunk]. destruct (IH (skipn c flat)) as (H1 & H2 & H3).
    { rewrite length_skipn. lia. }
    cbn [length List.concat]. rewrite H1, H3, firstn_skipn. repeat split.
    constructor; [|exact H2]. rewrite length_firstn. lia.
Qed.

Lemma remaining_at_payload (header payload : bytes) :
  remaining (at_payload header payload) = payload.
Proof.
  unfold remaining, at_payload; simpl.
  rewrite skipn_app, Nat.sub_diag, skipn_all. reflexivity.
Qed.

Lemma seek_at_payload (header payload : bytes) :
  seek (length header) (at_payload header payload) = at_payload header payload.
Proof. reflexivity. Qed.

Lemma read_at_payload (n : Z) (header payload : bytes) :
  0 <= n ->
  exists f', read n (at_payload header payload) = Ok (firstn (Z.to_nat n) payload, f').
Proof.
  intros Hn. unfold read. destruct (Z.ltb_spec n (-1)); [lia|].
  destruct (Z.eqb_spec n (-1)); [lia|].
  rewrite remaining_at_payload. eauto.
Qed.

Lemma rows_of_payload_shape (record_count width : Z) (payload : bytes) :
  0 <= record_count -> 0 <= width ->
  record_count * width * 4 <= Z.of_nat (length payload) ->
  let a := rows_of_payload record_count width payload in
  length (rows a) = Z.to_nat record_count /\
  Forall (fun row => length row = Z.to_nat width) (rows a) /\
  List.concat (rows a) = float32_items (firstn (Z.to_nat (record_count * width * 4)) payload).
Proof.
  intros Hr Hw Hlen a. subst a. unfold rows_of_payload; cbn [rows].
  apply chunk_spec. apply float32_items_length.
  rewrite length_firstn. nia.
Qed.

(** Reading [r * c * 4] bytes that the payload has gives [r] rows of [c]. *)
Lemma read_rows (r c : Z) (header payload : bytes) :
  0 <= r -> 0 <= c -> r * c * 4 <= Z.of_nat (length payload) ->
  ('(bs, _) <- read (r * c * 4) (at_payload header payload) ;;
   flat <- frombuffer bs ;; reshape flat r c)
  = Ok (rows_of_payload r c payload).
Proof.
  intros Hr Hc Hlen.
  destruct (read_at_payload (r * c * 4) header payload) as [f' Hread]; [nia|].
  rewrite Hread. cbn [bind].
  assert (Hl : length (firstn (Z.to_nat (r * c * 4)) payload) = (4 * Z.to_nat (r * c))%nat).
  { rewrite length_firstn. nia. }
  rewrite (frombuffer_ok _ _ Hl). cbn [bind].
  rewrite reshape_ok; [reflexivity|exact Hr|exact Hc|].
  rewrite (float32_items_length _ _ Hl). nia.
Qed.

(** A payload shorter than [vertex_count * 62 * 4] bytes makes the [try] body
    raise [ValueError]. *)
Lemma read_standard_short (vertex_count : Z) (header payload : bytes) :
  0 < vertex_count ->
  Z.of_nat (length payload) < vertex_count * 62 * 4 ->
  is_value_error (read_standard vertex_count (at_payload header payload)) = true.
Proof.
  intros Hvc Hlen. unfold read_standard.
  destruct (read_at_payload (vertex_count * 62 * 4) header payload) as [f' Hread]; [lia|].
  rewrite Hread. cbn [bind]. rewrite firstn_all2 by lia.
  destruct (frombuffer_cases payload) as [Hfb|(n & Hn & Hfb)]; rewrite Hfb; [reflexivity|].
  cbn [bind]. rewrite reshape_mismatch; [reflexivity|lia|lia|].
  rewrite (float32_items_length _ _ Hn). lia.
Qed.

Lemma floats_per_vertex_at_payload (vertex_count : Z) (header payload : bytes) :
  floats_per_vertex vertex_count header (at_payload header payload)
  = Z.of_nat (length payload) / (vertex_count * 4).
Proof.
  unfold floats_per_vertex, read_all. rewrite seek_at_payload, remaining_at_payload.
  reflexivity.
Qed.

(** The inferred width and the bytes it needs. *)
Lemma inferred_width_bounds (vertex_count len : Z) :
  0 < vertex_count -> 0 <= len ->
  0 <= len / (vertex_count * 4) /\
  vertex_count * (len / (vertex_count * 4)) * 4 <= len /\
  (len < vertex_count * 62 * 4 -> len / (vertex_count * 4) < 62).
Proof.
  intros Hvc Hlen. split; [apply Z.div_pos; lia|]. split.
  - pose proof (Z.mul_div_le len (vertex_count * 4)). lia.
  - intros Hshort. apply Z.div_lt_upper_bound; lia.
Qed.

(** The [except] branch: a payload shorter than 62 floats per record. *)
Lemma read_vertex_data_short (vertex_count : Z) (header payload : bytes) :
  0 < vertex_count ->
  Z.of_nat (length payload) < vertex_count * 62 * 4 ->
  read_vertex_data vertex_count header (at_payload header payload)
  = Ok (rows_of_payload vertex_count
          (Z.of_nat (length payload) / (vertex_count * 4)) payload).
Proof.
  intros Hvc Hlen.
  destruct (inferred_width_bounds vertex_count (Z.of_nat (length payload)) Hvc ltac:(lia))
    as (Hw & Hneed & _).
  unfold read_vertex_data.
  pose proof (read_standard_short vertex_count header payload Hvc Hlen) as Hstd.
  destruct (read_standard vertex_count (at_payload header payload)) as [a|[w| | | | | |]];
    try discriminate Hstd.
  unfold read_fallback. rewrite floats_per_vertex_at_payload, seek_at_payload.
  apply read_rows; lia.
Qed.

(** The [try] branch: a payload of 62 floats per record, or more. *)
Lemma read_vertex_data_long (vertex_count : Z) (header payload : bytes) :
  0 < vertex_count ->
  vertex_count * 62 * 4 <= Z.of_nat (length payload) ->
  read_vertex_data vertex_count header (at_payload header payload)
  = Ok (rows_of_payload vertex_count 62 payload).
Proof.
  intros Hvc Hlen. unfold read_vertex_data, read_standard.
  rewrite (read_rows vertex_count 62 header payload) by lia. reflexivity.
Qed.

(** A negative count, which the header parse lets through, is refused here:
    the first [f.read] raises [ValueError], and the [reshape] of the
    [except] branch raises it again. *)
Lemma read_vertex_data_negative_count (vertex_count : Z) (header : bytes) (f : reader) :
  vertex_count < 0 ->
  is_value_error (read_vertex_data vertex_count header f) = true.
Proof.
  intros Hvc. unfold read_vertex_data, read_standard, read.
  destruct (Z.ltb_spec (vertex_count * 62 * 4) (-1)) as [_|H]; [|lia]. cbn [bind].
  unfold read_fallback.
  set (fpv := floats_per_vertex vertex_count header f).
  assert (Hfpv : fpv <= 0).
  { subst fpv. unfold floats_per_vertex.
    destruct (read_all (seek (length header) f)) as [rest g].
    pose proof (Z.div_mod (Z.of_nat (length rest)) (vertex_count * 4) ltac:(lia)) as Hdm.
    pose proof (Z.mod_neg_bound (Z.of_nat (length rest)) (vertex_count * 4) ltac:(lia)) as Hm.
    nia. }
  unfold read. destruct (Z.ltb_spec (vertex_count * fpv * 4) (-1)) as [H|_]; [nia|].
  cbn [bind].
  match goal with |- context [frombuffer ?bs] => destruct (frombuffer bs) as [flat|e] eqn:Hfb end.
  - cbn [bind]. unfold reshape.
    destruct (Z.ltb_spec vertex_count 0) as [_|H]; [|lia].
    destruct (Z.ltb_spec fpv 0) as [_|H0]; [reflexivity|].
    cbn [andb]. replace fpv with 0 by lia. reflexivity.
  - unfold frombuffer in Hfb.
    destruct (Nat.modulo _ 4 =? 0)%nat; [discriminate Hfb|]. injection Hfb as <-. reflexivity.
Qed.


(** *** Instances *)



(** ** Fewer than three columns *)


(** What the header loop returns splits the file into header and payload. *)
Lemma read_header_at_payload (fuel : nat) (contents header : bytes) (f : reader) :
  read_header fuel contents = Some (header, f) ->
  f = at_payload header (remaining f) /\ contents = header ++ remaining f.
Proof.
  intros H. apply read_header_prefix in H. destruct H as (Hf & Hh & Hle).
  assert (Hc : contents = header ++ skipn (length header) contents).
  { rewrite Hh at 1. symmetry. apply firstn_skipn. }
  assert (Hr : remaining f = skipn (length header) contents).
  { rewrite Hf. reflexivity. }
  rewrite Hr. split; [|exact Hc].
  unfold at_payload. rewrite <- Hc. exact Hf.
Qed.

Section FewColumns.

Variable max_str_digits : nat.
Variable np_exp : dtype -> float -> float.
Variable np_linalg_norm : list float -> float.
Variable legacy_promotion : bool.



End FewColumns.



(** ** The fields of a record *)

Lemma flt_fle (x y : float) : flt x y = true -> fle x y = true.
Proof.
  unfold flt, fle, SFltb, SFleb. destruct (SFcompare x y) as [[| |]|]; congruence.
Qed.

(** The clamp gives a value between 0 and 1, or the NaN it was given. *)
Lemma clip01_range (d : dtype) (x : float) :
  is_nan x = false ->
  fle zero (clip01 d x) = true /\ fle (clip01 d x) (of_int d 1) = true.
Proof.
  intros Hnan. unfold clip01. rewrite Hnan.
  destruct (flt zero x) eqn:H0.
  - destruct (flt x (of_int d 1)) eqn:H1.
    + split; apply flt_fle; assumption.
    + destruct d; split; reflexivity.
  - assert (H1 : flt zero (of_int d 1) = true) by (destruct d; reflexivity).
    rewrite H1. split; [reflexivity|apply flt_fle; exact H1].
Qed.

Lemma nth_error_repeat_lt {A : Type} (x : A) (n i : nat) :
  (i < n)%nat -> nth_error (repeat x n) i = Some x.
Proof.
  revert i. induction n as [|n IH]; intros i Hi; [lia|].
  destruct i as [|i]; [reflexivity|]. simpl. apply IH. lia.
Qed.

(** The order on floats: [x <= y] excludes [y < x]. *)
Lemma fle_not_flt (x y : float) : fle x y = true -> flt y x = false.
Proof.
  unfold fle, flt, SFleb, SFltb.
  destruct x as [sx|sx| |sx mx ex], y as [sy|sy| |sy my ey];
    cbn [SFcompare]; try reflexivity; try discriminate;
    destruct sx, sy; try reflexivity; try discriminate;
    change (Pos.compare_cont Eq mx my) with (Pos.compare mx my);
    change (Pos.compare_cont Eq my mx) with (Pos.compare my mx);
    destruct (Z.compare_spec ex ey), (Z.compare_spec ey ex);
    try lia; try reflexivity; try discriminate;
    destruct (Pos.compare_spec mx my), (Pos.compare_spec my mx);
    cbn [CompOpp]; try lia; try reflexivity; try discriminate.
Qed.

(** The clamp of the array is the clamp of the words. *)
Lemma clip01_clamped (d : dtype) (v : float) : clamped d v (clip01 d v).
Proof.
  assert (H01 : flt zero (of_int d 1) = true) by (destruct d; reflexivity).
  unfold clamped, clip01. destruct (is_nan v) eqn:Hnan.
  - split; [intros _; exact Hnan|].
    destruct v; try discriminate Hnan. repeat split; intros H; try discriminate H.
    destruct d; discriminate H.
  - split; [discriminate|]. split; [|split].
    + intros H. rewrite (fle_not_flt _ _ H), H01. reflexivity.
    + intros H0 H1. rewrite H0, H1. reflexivity.
    + intros H. destruct (flt zero v) eqn:H0.
      * rewrite (fle_not_flt _ _ H). reflexivity.
      * rewrite H01.
        destruct v as [s|[|]| |[|] m e]; try discriminate H0; try discriminate Hnan;
          destruct d; discriminate H.
Qed.


(** A slice of [n] columns from column [k] on, in a row that has them. *)
Lemma firstn_skipn_nth (n k : nat) (row : list float) (d : float) :
  (k + n <= length row)%nat ->
  firstn n (skipn k row) = map (fun j => nth j row d) (seq k n).
Proof.
  revert k row. induction n as [|n IH]; intros k row Hk; [reflexivity|].
  cbn [seq map]. rewrite <- IH by lia.
  clear IH. revert row Hk. induction k as [|k IHk]; intros row Hk.
  - destruct row as [|x row]; [simpl in Hk; lia|]. reflexivity.
  - destruct row as [|x row]; [simpl in Hk; lia|].
    cbn [skipn nth]. apply IHk. simpl in Hk. lia.
Qed.

Lemma sh_to_rgb_clamped (x : float) : clamped float32 (color_value x) (sh_to_rgb x).
Proof. apply clip01_clamped. Qed.

Section Fields.

Variable np_exp : dtype -> float -> float.
Variable np_linalg_norm : list float -> float.

Let decode := decode_splats np_exp np_linalg_norm.

(** C7. Record by record: the positions are the first three columns. The
    color is the clamp to [0, 1] of [column * 0.28209479177387814 + 0.5] for
    the columns 6, 7 and 8 when the array has 9 columns or more, and
    (0.5, 0.5, 0.5) otherwise; the opacity is the logistic function of
    column 54 from 55 columns on, and 0.8 otherwise; the scale is the
    exponential of the columns 55, 56 and 57 from 58 columns on, and
    (0.01, 0.01, 0.01) otherwise; the rotation is the columns 58 to 61
    divided by their norm plus 1e-8 from 62 columns on, and (1, 0, 0, 0)
    otherwise. In an array of 9 columns every record so gets the clamped
    color of its columns 6, 7 and 8 and the three defaults. *)
Theorem decode_splats_fields
    (vertex_count : Z) (a : ndarray) (i : nat) (row : list float) :
  length (rows a) = Z.to_nat vertex_count ->
  nth_error (rows a) i = Some row ->
  length row = shape1 a ->
  row_at (positions (decode vertex_count a)) i = Ok (firstn 3 row)
  /\ ((shape1 a < 9)%nat ->
      row_at (colors (decode vertex_count a)) i = Ok [lit_0_5; lit_0_5; lit_0_5])
  /\ ((9 <= shape1 a)%nat ->
      exists r g b,
        row_at (colors (decode vertex_count a)) i = Ok [r; g; b]
        /\ clamped float32 (color_value (nth 6 row S754_nan)) r
        /\ clamped float32 (color_value (nth 7 row S754_nan)) g
        /\ clamped float32 (color_value (nth 8 row S754_nan)) b)
  /\ ((shape1 a < 55)%nat ->
      item1_at (opacity (decode vertex_count a)) i = Ok lit_0_8)
  /\ ((55 <= shape1 a)%nat ->
      item1_at (opacity (decode vertex_count a)) i
      = Ok (fdiv float32 (of_int float32 1)
              (fadd float32 (of_int float32 1)
                 (np_exp float32 (fneg (nth 54 row S754_nan))))))
  /\ ((shape1 a < 58)%nat ->
      row_at (scale (decode vertex_count a)) i = Ok [lit_0_01; lit_0_01; lit_0_01])
  /\ ((58 <= shape1 a)%nat ->
      row_at (scale (decode vertex_count a)) i
      = Ok [np_exp float32 (nth 55 row S754_nan); np_exp float32 (nth 56 row S754_nan);
            np_exp float32 (nth 57 row S754_nan)])
  /\ ((shape1 a < 62)%nat ->
      row_at (rot (decode vertex_count a)) i
      = Ok [of_int float64 1; zero; zero; zero])
  /\ ((62 <= shape1 a)%nat ->
      forall q norm,
        q = [nth 58 row S754_nan; nth 59 row S754_nan; nth 60 row S754_nan;
             nth 61 row S754_nan] ->
        norm = fadd float32 (np_linalg_norm q) (round_to float32 lit_1e_8) ->
        row_at (rot (decode vertex_count a)) i = Ok (map (fun x => fdiv float32 x norm) q))
  /\ (shape1 a = 9%nat ->
      exists r g b,
        row_at (colors (decode vertex_count a)) i = Ok [r; g; b]
        /\ clamped float32 (color_value (nth 6 row S754_nan)) r
        /\ clamped float32 (color_value (nth 7 row S754_nan)) g
        /\ clamped float32 (color_value (nth 8 row S754_nan)) b
        /\ item1_at (opacity (decode vertex_count a)) i = Ok lit_0_8
        /\ row_at (scale (decode vertex_count a)) i = Ok [lit_0_01; lit_0_01; lit_0_01]
        /\ row_at (rot (decode vertex_count a)) i = Ok [of_int float64 1; zero; zero; zero]).
Proof.
  intros Hrows Hrow Hlen.
  assert (Hi : (i < Z.to_nat vertex_count)%nat).
  { rewrite <- Hrows. apply nth_error_Some. congruence. }
  assert (Hcolor : (9 <= shape1 a)%nat ->
            exists r g b,
              row_at (colors (decode vertex_count a)) i = Ok [r; g; b]
              /\ clamped float32 (color_value (nth 6 row S754_nan)) r
              /\ clamped float32 (color_value (nth 7 row S754_nan)) g
              /\ clamped float32 (color_value (nth 8 row S754_nan)) b).
  { intros H. exists (sh_to_rgb (nth 6 row S754_nan)), (sh_to_rgb (nth 7 row S754_nan)),
                    (sh_to_rgb (nth 8 row S754_nan)).
    split; [|repeat split; apply sh_to_rgb_clamped].
    unfold decode, decode_splats, row_at. cbn [colors].
    destruct (Nat.ltb_spec 8 (shape1 a)) as [_|H8]; [|lia].
    unfold map2, columns. cbn [rows]. rewrite !nth_error_map, Hrow. cbn [option_map].
    change (9 - 6)%nat with 3%nat.
    rewrite (firstn_skipn_nth 3 6 row S754_nan) by lia. reflexivity. }
  assert (Hopacity : (shape1 a < 55)%nat ->
            item1_at (opacity (decode vertex_count a)) i = Ok lit_0_8).
  { intros H. unfold decode, decode_splats, item1_at. cbn [opacity].
    destruct (Nat.ltb_spec 54 (shape1 a)) as [H54|_]; [lia|].
    unfold full1. cbn [items]. rewrite (nth_error_repeat_lt _ _ _ Hi). reflexivity. }
  assert (Hscale : (shape1 a < 58)%nat ->
            row_at (scale (decode vertex_count a)) i = Ok [lit_0_01; lit_0_01; lit_0_01]).
  { intros H. unfold decode, decode_splats, row_at. cbn [scale].
    destruct (Nat.ltb_spec 57 (shape1 a)) as [H57|_]; [lia|].
    unfold full2. cbn [rows]. rewrite (nth_error_repeat_lt _ _ _ Hi). reflexivity. }
  assert (Hrot : (shape1 a < 62)%nat ->
            row_at (rot (decode vertex_count a)) i = Ok [of_int float64 1; zero; zero; zero]).
  { intros H. unfold decode, decode_splats, row_at. cbn [rot].
    destruct (Nat.ltb_spec 61 (shape1 a)) as [H61|_]; [lia|].
    unfold full2. cbn [rows]. rewrite (nth_error_repeat_lt _ _ _ Hi). reflexivity. }
  split.
  { unfold decode, decode_splats, row_at, columns. cbn [positions rows].
    rewrite nth_error_map, Hrow. reflexivity. }
  split.
  { intros H. unfold decode, decode_splats, row_at. cbn [colors].
    destruct (Nat.ltb_spec 8 (shape1 a)) as [H8|_]; [lia|].
    unfold full2. cbn [rows]. rewrite (nth_error_repeat_lt _ _ _ Hi). reflexivity. }
  split; [exact Hcolor|]. split; [exact Hopacity|].
  split.
  { intros H. unfold decode, decode_splats, item1_at. cbn [opacity].
    destruct (Nat.ltb_spec 54 (shape1 a)) as [_|H54]; [|lia].
    unfold column, sigmoid. cbn [items dt1]. rewrite !nth_error_map, Hrow. reflexivity. }
  split; [exact Hscale|].
  split.
  { intros H. unfold decode, decode_splats, row_at. cbn [scale].
    destruct (Nat.ltb_spec 57 (shape1 a)) as [_|H57]; [|lia].
    unfold map2, columns. cbn [rows]. rewrite !nth_error_map, Hrow. cbn [option_map].
    change (58 - 55)%nat with 3%nat.
    rewrite (firstn_skipn_nth 3 55 row S754_nan) by lia. reflexivity. }
  split; [exact Hrot|].
  split.
  { intros H q norm -> ->. unfold decode, decode_splats, row_at. cbn [rot].
    destruct (Nat.ltb_spec 61 (shape1 a)) as [_|H61]; [|lia].
    unfold columns, normalize_row. cbn [rows]. rewrite !nth_error_map, Hrow.
    cbn [option_map]. change (62 - 58)%nat with 4%nat.
    rewrite (firstn_skipn_nth 4 58 row S754_nan) by lia. reflexivity. }
  intros H9. destruct (Hcolor ltac:(lia)) as (r & g & b & Hc & Hr & Hg & Hb).
  exists r, g, b.
  split; [exact Hc|]. split; [exact Hr|]. split; [exact Hg|]. split; [exact Hb|].
  split; [apply Hopacity; lia|]. split; [apply Hscale; lia|apply Hrot; lia].
Qed.

End Fields.

Lemma decode_splats_fields_witness :
  exists r g b,
    row_at (colors (decode_splats sample_exp sample_norm 1 nine_columns)) 0 = Ok [r; g; b]
    /\ clamped float32 (color_value (of_int float32 1)) r
    /\ clamped float32 (color_value (of_int float32 1)) g
    /\ clamped float32 (color_value (of_int float32 1)) b
    /\ item1_at (opacity (decode_splats sample_exp sample_norm 1 nine_columns)) 0
       = Ok lit_0_8
    /\ row_at (scale (decode_splats sample_exp sample_norm 1 nine_columns)) 0
       = Ok [lit_0_01; lit_0_01; lit_0_01]
    /\ row_at (rot (decode_splats sample_exp sample_norm 1 nine_columns)) 0
       = Ok [of_int float64 1; zero; zero; zero].
Proof.
  exact (proj2 (proj2 (proj2 (proj2 (proj2 (proj2 (proj2 (proj2 (proj2
           (decode_splats_fields sample_exp sample_norm 1 nine_columns 0
              (repeat (of_int float32 1) 9) eq_refl eq_refl eq_refl)))))))))
           eq_refl).
Defined.

(** The color of the example: 1.0 * 0.28209479 + 0.5 in binary32, that is
    0x3f48375e = 0.7820948. *)
Example sh_to_rgb_one :
  sh_to_rgb (of_int float32 1) = S754_finite false 13121374 (-24)
  /\ sh_to_rgb (fneg (of_int float32 2)) = zero
  /\ sh_to_rgb (of_int float32 2) = of_int float32 1
  /\ color_value (of_int float32 1) = S754_finite false 13121374 (-24)
  /\ round_to float32 SH_C0 = S754_finite false 9465531 (-25)
  /\ round_to float32 lit_0_5 = S754_finite false 8388608 (-24).
Proof. repeat split; vm_compute; reflexivity. Qed.

(** ** The volume of a scene *)

Section VolumeProperties.

Variable np_exp : dtype -> float -> float.
Variable remove_statistical_outlier : list point -> option (list point).
Variable convex_hull_volume : list point -> option float.

Let volume := calculate_splat_volume np_exp remove_statistical_outlier convex_hull_volume.
Let solid := solid_points np_exp.
Let clean := clean_points remove_statistical_outlier.

(** C5, as the code has it. The opacities of the property [opacity] are
    passed through the logistic function, all of them, exactly when one of
    them is negative; when none is, the stored values are compared with the
    threshold as they are. Without that property the values of the property
    [alpha] are compared as they are, negative or not; and without either
    every point has the opacity 1.0. *)
Theorem effective_opacity_cases (points : list point) (a : ndarray1) :
  (any_negative a = true <-> exists x, In x (items a) /\ flt x zero = true)
  /\ (any_negative a = true ->
      effective_opacity np_exp (mkPly points (OpacityProperty a))
      = mkArray1 (dt1 a) (map (sigmoid np_exp (dt1 a)) (items a))
      /\ forall i raw,
          nth_error (items a) i = Some raw ->
          nth_error (items (effective_opacity np_exp (mkPly points (OpacityProperty a)))) i
          = Some (fdiv (dt1 a) (of_int (dt1 a) 1)
                    (fadd (dt1 a) (of_int (dt1 a) 1) (np_exp (dt1 a) (fneg raw)))))
  /\ (any_negative a = false ->
      effective_opacity np_exp (mkPly points (OpacityProperty a)) = a)
  /\ effective_opacity np_exp (mkPly points (AlphaProperty a)) = a
  /\ effective_opacity np_exp (mkPly points NoOpacity)
     = mkArray1 float64 (repeat (of_int float64 1) (length points)).
Proof.
  split; [apply existsb_exists|]. unfold effective_opacity. cbn [opacity_of xyz].
  split; [|split; [|split; reflexivity]]; intros Hneg; rewrite Hneg; [|reflexivity].
  split; [reflexivity|]. intros i raw Hraw. cbn [items].
  rewrite nth_error_map, Hraw. reflexivity.
Qed.

(** C3, as the code has it. With its dependencies present, and for a file
    that cannot be read or one with the coordinates of its vertices, the
    function returns a number: 0.0 when the file cannot be read, when fewer
    than 4 points pass the density filter, when fewer than 4 are left after
    the outlier removal, and when the convex hull fails; the volume of the
    hull otherwise. *)
Theorem calculate_splat_volume_total
    (points : list point) (source : opacity_source) (threshold : float) :
  volume true None threshold = Ok zero
  /\ (exists v, volume true (Some (mkPly points source)) threshold = Ok v)
  /\ ((length (solid (mkPly points source) threshold) < 4)%nat ->
      volume true (Some (mkPly points source)) threshold = Ok zero)
  /\ ((length (clean (solid (mkPly points source) threshold)) < 4)%nat ->
      volume true (Some (mkPly points source)) threshold = Ok zero)
  /\ (convex_hull_volume (clean (solid (mkPly points source) threshold)) = None ->
      volume true (Some (mkPly points source)) threshold = Ok zero)
  /\ (forall v,
        (4 <= length (solid (mkPly points source) threshold))%nat ->
        (4 <= length (clean (solid (mkPly points source) threshold)))%nat ->
        convex_hull_volume (clean (solid (mkPly points source) threshold)) = Some v ->
        volume true (Some (mkPly points source)) threshold = Ok v).
Proof.
  unfold volume, calculate_splat_volume, solid, clean. cbn [negb].
  set (p := mkPly points source).
  split; [reflexivity|]. split.
  { destruct (length (solid_points np_exp p threshold) <? 4)%nat; eauto. }
  unfold hull_volume.
  destruct (Nat.ltb_spec (length (solid_points np_exp p threshold)) 4) as [Hs|Hs].
  - repeat split; try reflexivity. intros v Hfour. lia.
  - split; [lia|]. split; [|split].
    + intros Hc. apply Nat.ltb_lt in Hc. rewrite Hc. reflexivity.
    + intros Hh. rewrite Hh. destruct (length _ <? 4)%nat; reflexivity.
    + intros v _ Hc Hh. rewrite Hh.
      destruct (Nat.ltb_spec (length (clean_points remove_statistical_outlier
                                        (solid_points np_exp p threshold))) 4) as [Hlt|_];
        [lia|reflexivity].
Qed.

(** C9, as the code has it. When the outlier removal raises, the cleaned
    points are the solid points, unchanged, and the volume is computed from
    them. When it returns, the cleaned points are the points it returns,
    however many solid points there are: the number of points is not
    compared with the number of neighbours. *)
Theorem outlier_removal_fails_open
    (points : list point) (source : opacity_source) (threshold : float) :
  (remove_statistical_outlier (solid (mkPly points source) threshold) = None ->
   clean (solid (mkPly points source) threshold) = solid (mkPly points source) threshold
   /\ volume true (Some (mkPly points source)) threshold
      = Ok (if (length (solid (mkPly points source) threshold) <? 4)%nat then zero
            else hull_volume convex_hull_volume (solid (mkPly points source) threshold)))
  /\ (forall cl,
        remove_statistical_outlier (solid (mkPly points source) threshold) = Some cl ->
        clean (solid (mkPly points source) threshold) = cl
        /\ volume true (Some (mkPly points source)) threshold
           = Ok (if (length (solid (mkPly points source) threshold) <? 4)%nat then zero
                 else hull_volume convex_hull_volume cl)).
Proof.
  unfold volume, calculate_splat_volume, clean, clean_points, solid. cbn [negb].
  split; [intros Hfail|intros cl Hfail]; rewrite Hfail; (split; [reflexivity|]);
    destruct (length _ <? 4)%nat; reflexivity.
Qed.

End VolumeProperties.

(** C5, as stated, fails: no stored opacity is negative, so the value compared
    with the threshold is the stored 5.0 itself, whatever [np.exp] is, and
    5.0 is not in the range of the logistic function. *)
Lemma effective_opacity_counterexample :
  (fun np_exp => effective_opacity np_exp ply_opacity_5)
  = (fun _ => mkArray1 float32 [of_int float32 5])
  /\ fle (of_int float32 5) (of_int float32 1) = false.
Proof. split; reflexivity. Qed.

Lemma outlier_removal_fails_open_witness :
  calculate_splat_volume sample_exp (fun _ => None) (fun _ => Some one)
    true (Some ply_four_points) lit_0_5
  = Ok one.
Proof.
  exact (proj2 (proj1 (outlier_removal_fails_open sample_exp (fun _ => None)
                         (fun _ => Some one) (xyz ply_four_points) NoOpacity lit_0_5)
                  eq_refl)).
Defined.

(** C3, as stated, fails: a file that [PlyData.read] reads and that has no
    element [vertex] makes the function raise, with the dependencies
    present and whatever the threshold, Open3D and SciPy are. *)
Lemma calculate_splat_volume_counterexample :
  (fun np_exp remove_statistical_outlier convex_hull_volume threshold =>
     calculate_splat_volume np_exp remove_statistical_outlier convex_hull_volume
       true (Some NoVertexElement) threshold)
  = (fun _ _ _ _ => Raise KeyError)
  /\ calculate_splat_volume sample_exp (fun _ => None) sample_hull
       true (Some NoVertexElement) lit_0_5
     = Raise KeyError.
Proof. split; reflexivity. Qed.

(** C9, as stated, fails: four solid points are fewer than the 20
    neighbours, and an outlier removal that returns without raising, here
    with no point left, is not replaced by its input: the cleaned points are
    the points it returned and the volume is 0.0. *)
Lemma outlier_removal_counterexample :
  solid_points sample_exp ply_four_points lit_0_5 = xyz ply_four_points
  /\ (length (solid_points sample_exp ply_four_points lit_0_5) < 20)%nat
  /\ clean_points (fun _ => Some []) (solid_points sample_exp ply_four_points lit_0_5) = []
  /\ calculate_splat_volume sample_exp (fun _ => Some []) sample_hull
       true (Some ply_four_points) lit_0_5
     = Ok zero.
Proof. repeat split; vm_compute; try reflexivity; lia. Qed.

(** ** The growth between two volumes *)

Lemma shr_1_nonneg (r : shr_record) : 0 <= shr_m r -> 0 <= shr_m (shr_1 r).
Proof.
  destruct r as [m b s]. cbn [shr_m]. intros Hm.
  destruct m as [|p|p]; [reflexivity| |lia].
  destruct p; cbn; lia.
Qed.

Lemma iter_shr_1_nonneg (n : positive) :
  forall r, 0 <= shr_m r -> 0 <= shr_m (iter_pos shr_1 n r).
Proof.
  induction n as [n IH|n IH|]; intros r Hr; cbn [iter_pos].
  - apply IH, IH, shr_1_nonneg, Hr.
  - apply IH, IH, Hr.
  - apply shr_1_nonneg, Hr.
Qed.

Lemma shr_record_of_loc_m (m : Z) (l : location) : shr_m (shr_record_of_loc m l) = m.
Proof. destruct l as [|[| |]]; reflexivity. Qed.

Lemma shr_fexp_nonneg (p em m e : Z) (l : location) :
  0 <= m -> 0 <= shr_m (fst (shr_fexp p em m e l)).
Proof.
  intros Hm. unfold shr_fexp, shr.
  destruct (fexp p em (Zdigits2 m + e) - e) as [|n|n]; cbn [fst];
    rewrite ?shr_record_of_loc_m; try exact Hm.
  apply iter_shr_1_nonneg. rewrite shr_record_of_loc_m. exact Hm.
Qed.

Lemma round_nearest_even_nonneg (m : Z) (l : location) :
  0 <= m -> 0 <= round_nearest_even m l.
Proof.
  intros Hm. destruct l as [|[| |]]; cbn; try lia. destruct (Z.even m); lia.
Qed.

(** Rounding a non-negative mantissa never gives a NaN. *)
Lemma binary_round_aux_not_nan (p em : Z) (s : bool) (m e : Z) (l : location) :
  0 <= m -> is_nan (binary_round_aux p em s m e l) = false.
Proof.
  intros Hm. unfold binary_round_aux.
  pose proof (shr_fexp_nonneg p em m e l Hm) as H1.
  destruct (shr_fexp p em m e l) as [mrs' e']. cbn [fst] in H1.
  pose proof (shr_fexp_nonneg p em _ e' loc_Exact
                (round_nearest_even_nonneg _ (loc_of_shr_record mrs') H1)) as H2.
  destruct (shr_fexp p em (round_nearest_even (shr_m mrs') (loc_of_shr_record mrs')) e'
              loc_Exact) as [mrs'' e'']. cbn [fst] in H2.
  destruct (shr_m mrs'') as [|q|q]; [reflexivity| |lia].
  destruct (e'' <=? em - p); reflexivity.
Qed.

Lemma binary_round_not_nan (p em : Z) (s : bool) (m : positive) (e : Z) :
  is_nan (binary_round p em s m e) = false.
Proof.
  unfold binary_round. destruct (shl_align m e _) as [mz ez].
  apply binary_round_aux_not_nan. lia.
Qed.

Lemma binary_normalize_not_nan (p em m e : Z) (s : bool) :
  is_nan (binary_normalize p em m e s) = false.
Proof.
  destruct m; cbn [binary_normalize]; [reflexivity| |]; apply binary_round_not_nan.
Qed.

Lemma fsub_not_nan (d : dtype) (x y : float) :
  is_finite x = true -> is_finite y = true -> is_nan (fsub d x y) = false.
Proof.
  destruct x as [sx|sx| |sx mx ex], y as [sy|sy| |sy my ey]; try discriminate; intros _ _;
    unfold fsub; cbn [SFsub is_nan]; try reflexivity.
  - destruct sx, sy; reflexivity.
  - apply binary_normalize_not_nan.
Qed.

Lemma div_core_nonneg (p em : Z) (m1 m2 : positive) (e1 e2 : Z) :
  0 <= fst (fst (SFdiv_core_binary p em (Zpos m1) e1 (Zpos m2) e2)).
Proof.
  unfold SFdiv_core_binary.
  set (s := e1 - e2 - _).
  set (m' := match s with Z0 => Zpos m1 | Zpos _ => Z.shiftl (Zpos m1) s | Zneg _ => 0 end).
  assert (Hm' : 0 <= m').
  { subst m'. destruct s; [lia| |lia]. apply Z.shiftl_nonneg. lia. }
  pose proof (Z_div_mod m' (Zpos m2) eq_refl) as Hdm.
  destruct (Z.div_eucl m' (Zpos m2)) as [q r]. cbn [fst]. nia.
Qed.

Lemma fdiv_not_nan (d : dtype) (x y : float) :
  is_nan x = false -> is_finite y = true -> flt zero y = true ->
  is_nan (fdiv d x y) = false.
Proof.
  destruct y as [sy|sy| |sy my ey]; try discriminate; intros Hx _ _.
  destruct x as [sx|sx| |sx mx ex]; try discriminate; unfold fdiv; cbn [SFdiv is_nan];
    try reflexivity.
  pose proof (div_core_nonneg (prec d) (emax d) mx my ex ey) as Hq.
  destruct (SFdiv_core_binary (prec d) (emax d) (Zpos mx) ex (Zpos my) ey) as [[q e'] l].
  apply binary_round_aux_not_nan. exact Hq.
Qed.

Lemma fmul_finite_not_nan (d : dtype) (x : float) (s : bool) (m : positive) (e : Z) :
  is_nan x = false -> is_nan (fmul d x (S754_finite s m e)) = false.
Proof.
  destruct x as [sx|sx| |sx mx ex]; try discriminate; intros _; unfold fmul;
    cbn [SFmul is_nan]; try reflexivity.
  apply binary_round_aux_not_nan. lia.
Qed.

(** The cases of the growth. *)
Lemma growth_percentage_cases (vol1 vol2 : float) :
  (feq vol1 zero = true -> growth_percentage vol1 vol2 = zero)
  /\ (flt zero vol1 = true ->
      growth_percentage vol1 vol2
      = fmul float64 (fdiv float64 (fsub float64 vol2 vol1) vol1) (of_int float64 100))
  /\ (flt zero vol1 = false -> growth_percentage vol1 vol2 = zero)
  /\ (is_finite vol1 = true -> is_finite vol2 = true ->
      is_nan (growth_percentage vol1 vol2) = false).
Proof.
  unfold growth_percentage. repeat split.
  - intros H0. destruct vol1 as [s|s| |s m e]; try reflexivity; try discriminate H0.
    + destruct s; discriminate H0.
    + destruct s; discriminate H0.
  - intros ->. reflexivity.
  - intros ->. reflexivity.
  - intros H1 H2. destruct (flt zero vol1) eqn:Hpos; [|reflexivity].
    apply fmul_finite_not_nan, fdiv_not_nan; [|exact H1|exact Hpos].
    apply fsub_not_nan; assumption.
Qed.

Section GrowthProperties.

Variable np_exp : dtype -> float -> float.
Variable remove_statistical_outlier : list point -> option (list point).
Variable convex_hull_volume : list point -> option float.

Let volume := calculate_splat_volume np_exp remove_statistical_outlier convex_hull_volume true.
Let analyze := analyze_growth np_exp remove_statistical_outlier convex_hull_volume true.

(** C4, as the code has it. The growth is a function of the two volumes
    alone, whatever they are: 0.0 when the first volume is zero (and
    whenever it is not positive), the float64 value of
    [(vol2 - vol1) / vol1 * 100] when it is positive; with finite volumes it
    is never a NaN. The comparison reports the two volumes it computed and
    that growth. *)
Theorem analyze_growth_spec (vol1 vol2 : float) :
  (feq vol1 zero = true -> growth_percentage vol1 vol2 = zero)
  /\ (flt zero vol1 = true ->
      growth_percentage vol1 vol2
      = fmul float64 (fdiv float64 (fsub float64 vol2 vol1) vol1) (of_int float64 100))
  /\ (flt zero vol1 = false -> growth_percentage vol1 vol2 = zero)
  /\ (is_finite vol1 = true -> is_finite vol2 = true ->
      is_nan (growth_percentage vol1 vol2) = false)
  /\ (forall ply1 ply2 threshold,
        volume ply1 threshold = Ok vol1 ->
        volume ply2 threshold = Ok vol2 ->
        analyze ply1 ply2 threshold
        = Ok (mkReport vol1 vol2 (growth_percentage vol1 vol2))).
Proof.
  destruct (growth_percentage_cases vol1 vol2) as (Hzero & Hpos & Hneg & Hnan).
  repeat split; try assumption.
  intros ply1 ply2 threshold H1 H2.
  unfold analyze, analyze_growth. cbn [negb]. fold volume. rewrite H1, H2. reflexivity.
Qed.

End GrowthProperties.

(** Two scenes, of volumes 4.0 and 6.0: a growth of 50 percent. *)
Lemma analyze_growth_spec_witness :
  growth_percentage (of_int float64 4) (of_int float64 6) = of_int float64 50
  /\ analyze_growth sample_exp (fun _ => None) sample_hull true
       (Some ply_four_points) (Some ply_six_points) lit_0_5
     = Ok (mkReport (of_int float64 4) (of_int float64 6)
             (growth_percentage (of_int float64 4) (of_int float64 6))).
Proof.
  split.
  - refine (eq_trans
              (proj1 (proj2 (analyze_growth_spec sample_exp (fun _ => None) sample_hull
                               (of_int float64 4) (of_int float64 6))) _) _);
      vm_compute; reflexivity.
  - apply (proj2 (proj2 (proj2 (proj2
             (analyze_growth_spec sample_exp (fun _ => None) sample_hull
                (of_int float64 4) (of_int float64 6))))));
      vm_compute; reflexivity.
Defined.

(** C4, as stated, fails: for the finite positive volumes 2^-1000 and 2^30 the
    quotient exceeds the range of a float64 and the growth is +Infinity. *)
Lemma growth_percentage_counterexample :
  valid_binary 53 1024 tiny_volume = true
  /\ valid_binary 53 1024 large_volume = true
  /\ flt zero tiny_volume = true
  /\ growth_percentage tiny_volume large_volume = S754_infinity false.
Proof. repeat split. Qed.

(** ** Bounds through rounding

    What the writer needs of the arithmetic: a value of magnitude at most 1,
    multiplied by 255 or 127 and truncated, stays within the byte. The
    bounds are stated on the mantissa and exponent, in integers. *)

Lemma scaled_le_pos_exp (m e B : Z) : 0 <= e -> (scaled_le m e B <-> m * 2 ^ e <= B).
Proof.
  intros He. unfold scaled_le.
  rewrite (Z.max_r 0 e), (Z.max_l 0 (- e)) by lia. rewrite Z.pow_0_r, Z.mul_1_r. tauto.
Qed.

Lemma scaled_le_neg_exp (m e B : Z) : e <= 0 -> (scaled_le m e B <-> m <= B * 2 ^ (- e)).
Proof.
  intros He. unfold scaled_le.
  rewrite (Z.max_l 0 e), (Z.max_r 0 (- e)) by lia. rewrite Z.pow_0_r, Z.mul_1_r. tauto.
Qed.

Lemma pow2_pos (k : Z) : 0 <= k -> 0 < 2 ^ k.
Proof. intros Hk. apply Z.pow_pos_nonneg; lia. Qed.

Lemma pow2_split (a b : Z) : 0 <= a -> 0 <= b -> 2 ^ (a + b) = 2 ^ a * 2 ^ b.
Proof. intros Ha Hb. apply Z.pow_add_r; assumption. Qed.

(** Dropping [n] low bits, rounding down, keeps the bound. *)
Lemma scaled_le_shr (m m' e n B : Z) :
  0 <= n -> 0 <= m' -> m' * 2 ^ n <= m -> scaled_le m e B -> scaled_le m' (e + n) B.
Proof.
  intros Hn Hm' Hfloor H.
  pose proof (pow2_pos n Hn) as Hn2.
  destruct (Z.le_gt_cases 0 e) as [He|He].
  - apply (scaled_le_pos_exp m e B He) in H.
    apply (scaled_le_pos_exp m' (e + n) B); [lia|].
    rewrite Z.add_comm, pow2_split by lia.
    pose proof (pow2_pos e He). nia.
  - assert (He' : e <= 0) by lia. apply (scaled_le_neg_exp m e B He') in H.
    destruct (Z.le_gt_cases 0 (e + n)) as [Hen|Hen].
    + apply (scaled_le_pos_exp m' (e + n) B Hen).
      assert (Hs : 2 ^ n = 2 ^ (e + n) * 2 ^ (- e)).
      { rewrite <- pow2_split by lia. f_equal. lia. }
      pose proof (pow2_pos (- e) ltac:(lia)). pose proof (pow2_pos (e + n) Hen).
      rewrite Hs in Hfloor. nia.
    + assert (Hen' : e + n <= 0) by lia. apply (scaled_le_neg_exp m' (e + n) B Hen').
      assert (Hs : 2 ^ (- e) = 2 ^ (- (e + n)) * 2 ^ n).
      { rewrite <- pow2_split by lia. f_equal. lia. }
      rewrite Hs in H. pose proof (pow2_pos (- (e + n)) ltac:(lia)). nia.
Qed.

(** Moving [d] bits from the exponent into the mantissa changes nothing. *)
Lemma scaled_le_shl (m e d B : Z) :
  0 <= d -> 0 <= m -> scaled_le m e B -> scaled_le (m * 2 ^ d) (e - d) B.
Proof.
  intros Hd Hm H. pose proof (pow2_pos d Hd) as Hd2.
  destruct (Z.le_gt_cases 0 (e - d)) as [Hed|Hed].
  - assert (He : 0 <= e) by lia. apply (scaled_le_pos_exp m e B He) in H.
    apply (scaled_le_pos_exp (m * 2 ^ d) (e - d) B Hed).
    replace e with ((e - d) + d) in H by lia. rewrite pow2_split in H by lia. lia.
  - assert (Hed' : e - d <= 0) by lia.
    apply (scaled_le_neg_exp (m * 2 ^ d) (e - d) B Hed').
    destruct (Z.le_gt_cases 0 e) as [He|He].
    + apply (scaled_le_pos_exp m e B He) in H.
      assert (Hs : 2 ^ d = 2 ^ e * 2 ^ (- (e - d))).
      { rewrite <- pow2_split by lia. f_equal. lia. }
      rewrite Hs. pose proof (pow2_pos (- (e - d)) ltac:(lia)). pose proof (pow2_pos e He). nia.
    + assert (He' : e <= 0) by lia. apply (scaled_le_neg_exp m e B He') in H.
      assert (Hs : 2 ^ (- (e - d)) = 2 ^ (- e) * 2 ^ d).
      { rewrite <- pow2_split by lia. f_equal. lia. }
      rewrite Hs. nia.
Qed.

(** The bound of a product. *)
Lemma scaled_le_mul (m1 e1 B1 m2 e2 B2 : Z) :
  0 <= m1 -> 0 <= m2 -> 0 <= B1 -> 0 <= B2 ->
  scaled_le m1 e1 B1 -> scaled_le m2 e2 B2 ->
  scaled_le (m1 * m2) (e1 + e2) (B1 * B2).
Proof.
  intros Hm1 Hm2 HB1 HB2 H1 H2. unfold scaled_le in *.
  set (a1 := Z.max 0 e1) in *. set (b1 := Z.max 0 (- e1)) in *.
  set (a2 := Z.max 0 e2) in *. set (b2 := Z.max 0 (- e2)) in *.
  assert (Ha1 : 0 <= a1) by (subst a1; lia). assert (Hb1 : 0 <= b1) by (subst b1; lia).
  assert (Ha2 : 0 <= a2) by (subst a2; lia). assert (Hb2 : 0 <= b2) by (subst b2; lia).
  assert (He : e1 + e2 = (a1 + a2) - (b1 + b2)) by (subst a1 a2 b1 b2; lia).
  (* the product, with both sides scaled by 2^(b1+b2) *)
  assert (Hprod : (m1 * m2) * 2 ^ (a1 + a2) <= (B1 * B2) * 2 ^ (b1 + b2)).
  { rewrite !pow2_split by assumption.
    pose proof (pow2_pos a1 Ha1). pose proof (pow2_pos a2 Ha2).
    pose proof (pow2_pos b1 Hb1). pose proof (pow2_pos b2 Hb2).
    assert (0 <= m1 * 2 ^ a1) by nia. assert (0 <= m2 * 2 ^ a2) by nia.
    transitivity ((m1 * 2 ^ a1) * (m2 * 2 ^ a2)); [lia|].
    transitivity ((B1 * 2 ^ b1) * (B2 * 2 ^ b2)); [|lia].
    apply Z.mul_le_mono_nonneg; assumption. }
  set (a := a1 + a2) in *. set (b := b1 + b2) in *.
  assert (Ha : 0 <= a) by (subst a; lia). assert (Hb : 0 <= b) by (subst b; lia).
  assert (Hm : 0 <= m1 * m2) by nia. assert (HB : 0 <= B1 * B2) by nia.
  clearbody a b. clear H1 H2.
  rewrite He. set (m := m1 * m2) in *. set (B := B1 * B2) in *. clearbody m B.
  destruct (Z.le_gt_cases b a) as [Hab|Hab].
  - rewrite (Z.max_r 0 (a - b)), (Z.max_l 0 (- (a - b))) by lia.
    rewrite Z.pow_0_r, Z.mul_1_r.
    replace a with ((a - b) + b) in Hprod by lia. rewrite pow2_split in Hprod by lia.
    pose proof (pow2_pos b Hb). pose proof (pow2_pos (a - b) ltac:(lia)). nia.
  - rewrite (Z.max_l 0 (a - b)), (Z.max_r 0 (- (a - b))) by lia.
    rewrite Z.pow_0_r, Z.mul_1_r.
    replace b with ((- (a - b)) + a) in Hprod by lia. rewrite pow2_split in Hprod by lia.
    pose proof (pow2_pos a Ha). pose proof (pow2_pos (- (a - b)) ltac:(lia)). nia.
Qed.

(** The digits of a mantissa. *)
Lemma digits2_pos_bounds (m : positive) :
  2 ^ (Zpos (digits2_pos m) - 1) <= Zpos m < 2 ^ Zpos (digits2_pos m).
Proof.
  induction m as [m IH|m IH|]; cbn [digits2_pos]; [| |cbn; lia];
    rewrite Pos2Z.inj_succ;
    replace (Z.succ (Zpos (digits2_pos m)) - 1) with (Z.succ (Zpos (digits2_pos m) - 1)) by lia;
    rewrite !Z.pow_succ_r by lia; lia.
Qed.

(** *** Shifting right *)

Lemma loc_exact_record (r : shr_record) :
  loc_of_shr_record r = loc_Exact <-> exact_record r = true.
Proof. destruct r as [m [|] [|]]; cbn; split; congruence. Qed.

Lemma shr_1_inv (X k : Z) (r : shr_record) :
  0 <= k -> shr_inv X k r -> shr_inv X (k + 1) (shr_1 r).
Proof.
  intros Hk (Hm & rem & HX & Hrem & Hex).
  pose proof (pow2_pos k Hk) as Hk2.
  assert (Hpow : 2 ^ (k + 1) = 2 * 2 ^ k) by (rewrite Z.pow_add_r by lia; lia).
  destruct r as [m b s]. cbn [shr_m] in *. unfold exact_record in *. cbn [shr_r shr_s] in *.
  destruct m as [|[q|q|]|q]; cbn; unfold shr_inv, exact_record; cbn [shr_m shr_r shr_s];
    try lia.
  - split; [lia|]. exists rem. rewrite Hpow. repeat split; try lia.
    + intros H0. apply Hex in H0. destruct b, s; cbn in *; congruence.
    + intros H0. apply Hex. destruct b, s; cbn in *; congruence.
  - split; [lia|]. exists (2 ^ k + rem). rewrite Hpow. repeat split; try lia; cbn; discriminate.
  - split; [lia|]. exists rem. rewrite Hpow. repeat split; try lia.
    + intros H0. apply Hex in H0. destruct b, s; cbn in *; congruence.
    + intros H0. apply Hex. destruct b, s; cbn in *; congruence.
  - split; [lia|]. exists (2 ^ k + rem). rewrite Hpow. repeat split; try lia; cbn; discriminate.
Qed.

Lemma iter_shr_1_inv (X : Z) (n : positive) :
  forall k r, 0 <= k -> shr_inv X k r -> shr_inv X (k + Zpos n) (iter_pos shr_1 n r).
Proof.
  induction n as [n IH|n IH|]; intros k r Hk H; cbn [iter_pos].
  - replace (k + Zpos n~1) with (((k + 1) + Zpos n) + Zpos n) by lia.
    apply IH; [lia|]. apply IH; [lia|]. apply shr_1_inv; assumption.
  - replace (k + Zpos n~0) with ((k + Zpos n) + Zpos n) by lia.
    apply IH; [lia|]. apply IH; assumption.
  - apply shr_1_inv; assumption.
Qed.

Lemma shr_inv_start (m : Z) : 0 <= m -> shr_inv m 0 (shr_record_of_loc m loc_Exact).
Proof.
  intros Hm. split; [exact Hm|]. exists 0. cbn. repeat split; trivial; lia.
Qed.

Lemma round_nearest_even_bounds (m : Z) (l : location) :
  m <= round_nearest_even m l <= m + 1 /\ (l = loc_Exact -> round_nearest_even m l = m).
Proof.
  destruct l as [|[| |]]; cbn; try destruct (Z.even m); split; try lia; congruence.
Qed.

Section RoundBound.

(** The precision and the exponent bound of a format; the two conditions
    hold of binary32 and binary64. *)
Variables p em : Z.
Hypothesis Hp : 1 < p.
Hypothesis Hem : p <= em - p.

Lemma fexp_le_0 (z : Z) : z <= p -> fexp p em z <= 0.
Proof. intros Hz. unfold fexp, emin. lia. Qed.

(** What [shr_fexp] returns: the mantissa shifted by the difference of the
    exponents, which is that of the format when a shift takes place. *)
Lemma shr_fexp_inv (m e : Z) :
  0 <= m ->
  exists k, 0 <= k /\
    snd (shr_fexp p em m e loc_Exact) = e + k /\
    shr_inv m k (fst (shr_fexp p em m e loc_Exact)) /\
    (0 < k -> e + k = fexp p em (Zdigits2 m + e)).
Proof.
  intros Hm. unfold shr_fexp, shr.
  destruct (fexp p em (Zdigits2 m + e) - e) as [|q|q] eqn:Hn.
  - exists 0. cbn [fst snd]. split; [lia|]. split; [lia|].
    split; [apply shr_inv_start; exact Hm|lia].
  - exists (Zpos q). cbn [fst snd]. split; [lia|]. split; [reflexivity|]. split; [|lia].
    apply (iter_shr_1_inv m q 0); [lia|apply shr_inv_start; exact Hm].
  - exists 0. cbn [fst snd]. split; [lia|]. split; [lia|].
    split; [apply shr_inv_start; exact Hm|lia].
Qed.

(** The first shift and the rounding keep a bound below [2^p]. *)
Lemma round_step_bound (M E B : Z) :
  0 <= M -> 0 < B < 2 ^ p -> scaled_le M E B ->
  let mrs := fst (shr_fexp p em M E loc_Exact) in
  let e' := snd (shr_fexp p em M E loc_Exact) in
  let m1 := round_nearest_even (shr_m mrs) (loc_of_shr_record mrs) in
  0 <= m1 /\ scaled_le m1 e' B.
Proof.
  intros HM HB Hle mrs e' m1.
  destruct (shr_fexp_inv M E HM) as (k & Hk & He' & (Hms & rem & HX & Hrem & Hex) & Hfexp).
  fold mrs in Hms, HX, Hex. fold e' in He'.
  destruct (round_nearest_even_bounds (shr_m mrs) (loc_of_shr_record mrs)) as [Hr Hexact].
  fold m1 in Hr, Hexact.
  split; [lia|].
  pose proof (pow2_pos k Hk) as Hk2.
  assert (Hrem0 : rem = 0 -> m1 = shr_m mrs).
  { intros H0. apply Hexact, loc_exact_record, Hex, H0. }
  destruct (Z.eq_dec k 0) as [->|Hk0].
  { (* no shift *)
    rewrite Z.pow_0_r in *. rewrite He', Z.add_0_r.
    rewrite (Hrem0 ltac:(lia)). replace (shr_m mrs) with M by lia. exact Hle. }
  destruct (Z.eq_dec M 0) as [->|HM0].
  { (* a zero mantissa *)
    assert (shr_m mrs = 0 /\ rem = 0) as [Hz Hz'] by nia.
    rewrite (Hrem0 Hz'), Hz. unfold scaled_le.
    pose proof (pow2_pos (Z.max 0 (- e')) ltac:(lia)). nia. }
  (* a shift by k > 0 of a positive mantissa *)
  destruct M as [|mm|mm]; [lia| |lia].
  pose proof (digits2_pos_bounds mm) as Hd. cbn [Zdigits2] in Hfexp.
  set (d := Zpos (digits2_pos mm)) in *.
  assert (Hdp : d + E <= p).
  { destruct (Z.le_gt_cases 0 E) as [HE|HE].
    - apply (scaled_le_pos_exp (Zpos mm) E B HE) in Hle.
      assert (H1 : 2 ^ (d - 1 + E) < 2 ^ p).
      { rewrite pow2_split by lia. pose proof (pow2_pos E HE). nia. }
      apply Z.pow_lt_mono_r_iff in H1; lia.
    - assert (HE' : E <= 0) by lia.
      apply (scaled_le_neg_exp (Zpos mm) E B HE') in Hle.
      assert (H1 : 2 ^ (d - 1) < 2 ^ (p - E)).
      { replace (p - E) with (p + - E) by lia. rewrite pow2_split by lia.
        pose proof (pow2_pos (- E) ltac:(lia)). nia. }
      apply Z.pow_lt_mono_r_iff in H1; lia. }
  assert (He0 : e' <= 0).
  { rewrite He', (Hfexp ltac:(lia)). apply fexp_le_0. exact Hdp. }
  assert (HE : E <= 0) by lia.
  apply (scaled_le_neg_exp (Zpos mm) E B HE) in Hle.
  apply (scaled_le_neg_exp m1 e' B He0).
  assert (Hs : 2 ^ (- E) = 2 ^ (- e') * 2 ^ k).
  { rewrite <- pow2_split by lia. f_equal. lia. }
  rewrite Hs in Hle. pose proof (pow2_pos (- e') ltac:(lia)) as He2.
  destruct (Z.eq_dec rem 0) as [H0|H0].
  - rewrite (Hrem0 H0). nia.
  - assert (shr_m mrs < B * 2 ^ (- e')) by nia. lia.
Qed.

(** The second shift rounds down. *)
Lemma renormalize_bound (m1 e' B : Z) :
  0 <= m1 -> 0 <= B -> scaled_le m1 e' B ->
  0 <= shr_m (fst (shr_fexp p em m1 e' loc_Exact)) /\
  scaled_le (shr_m (fst (shr_fexp p em m1 e' loc_Exact)))
            (snd (shr_fexp p em m1 e' loc_Exact)) B.
Proof.
  intros Hm HB Hle.
  destruct (shr_fexp_inv m1 e' Hm) as (k & Hk & He'' & (Hms & rem & HX & Hrem & _) & _).
  split; [exact Hms|]. rewrite He''.
  apply (scaled_le_shr m1); [exact Hk|exact Hms|lia|exact Hle].
Qed.

(** Rounding a mantissa and exponent of magnitude at most [B < 2^p] gives
    a zero or a finite value of magnitude at most [B]: no overflow, and no
    rounding above the bound. *)
Lemma binary_round_aux_within (s : bool) (M E B : Z) :
  0 <= M -> 0 < B < 2 ^ p -> scaled_le M E B ->
  within s B (binary_round_aux p em s M E loc_Exact).
Proof.
  intros HM HB Hle. unfold binary_round_aux.
  pose proof (round_step_bound M E B HM HB Hle) as HA. cbv zeta in HA.
  destruct (shr_fexp p em M E loc_Exact) as [mrs' e']. cbn [fst snd] in HA.
  destruct HA as [Hm1 Hle1].
  pose proof (renormalize_bound _ e' B Hm1 ltac:(lia) Hle1) as HB2.
  destruct (shr_fexp p em (round_nearest_even (shr_m mrs') (loc_of_shr_record mrs')) e'
              loc_Exact) as [mrs'' e'']. cbn [fst snd] in HB2.
  destruct HB2 as [Hm2 Hle2].
  destruct (shr_m mrs'') as [|m|m]; [exact I| |lia].
  destruct (Z.leb_spec e'' (em - p)) as [He|He]; [split; [reflexivity|exact Hle2]|].
  exfalso. assert (He0 : 0 <= e'') by lia.
  apply (scaled_le_pos_exp (Zpos m) e'' B He0) in Hle2.
  assert (H1 : 2 ^ e'' < 2 ^ p) by (pose proof (pow2_pos e'' He0); nia).
  apply Z.pow_lt_mono_r_iff in H1; lia.
Qed.

Lemma iter_xO_pow2 (d m : positive) : Zpos (Pos.iter xO m d) = Zpos m * 2 ^ Zpos d.
Proof.
  induction d as [|d IH] using Pos.peano_ind.
  - cbn. lia.
  - rewrite Pos.iter_succ, Pos2Z.inj_xO, IH, Pos2Z.inj_succ, Z.pow_succ_r by lia. lia.
Qed.

Lemma binary_round_within (s : bool) (m : positive) (e B : Z) :
  0 < B < 2 ^ p -> scaled_le (Zpos m) e B -> within s B (binary_round p em s m e).
Proof.
  intros HB Hle. unfold binary_round, shl_align.
  set (ex' := fexp p em (Zpos (digits2_pos m) + e)).
  destruct (ex' - e) as [|q|q] eqn:Hd;
    try (apply binary_round_aux_within; [lia|exact HB|exact Hle]).
  apply binary_round_aux_within; [lia|exact HB|].
  rewrite iter_xO_pow2. replace ex' with (e - Zpos q) by lia.
  apply scaled_le_shl; [lia|lia|exact Hle].
Qed.

(** A value of the format rounds to itself. *)
Lemma binary_round_valid (s : bool) (m : positive) (e : Z) :
  bounded p em m e = true -> binary_round p em s m e = S754_finite s m e.
Proof.
  unfold bounded, canonical_mantissa. intros Hb.
  apply andb_prop in Hb. destruct Hb as [Hc He]. apply Z.eqb_eq in Hc.
  unfold binary_round, shl_align. rewrite Hc, Z.sub_diag.
  unfold binary_round_aux, shr_fexp. cbn [Zdigits2 shr_record_of_loc].
  rewrite Hc, Z.sub_diag. cbn [shr shr_m loc_of_shr_record round_nearest_even Zdigits2].
  rewrite Hc, Z.sub_diag. cbn [shr shr_m]. rewrite He. reflexivity.
Qed.

(** A value of the format has at most [p] digits. *)
Lemma bounded_mantissa (m : positive) (e : Z) :
  bounded p em m e = true -> Zpos m < 2 ^ p.
Proof.
  unfold bounded, canonical_mantissa. intros Hb.
  apply andb_prop in Hb. destruct Hb as [Hc _]. apply Z.eqb_eq in Hc.
  pose proof (digits2_pos_bounds m) as [_ Hd].
  assert (Hdig : Zpos (digits2_pos m) <= p) by (unfold fexp in Hc; lia).
  eapply Z.lt_le_trans; [exact Hd|]. apply Z.pow_le_mono_r; lia.
Qed.

End RoundBound.

(** *** The formats *)

Lemma prec_gt_1 (d : dtype) : 1 < prec d.
Proof. destruct d; cbn; lia. Qed.

Lemma emax_room (d : dtype) : prec d <= emax d - prec d.
Proof. destruct d; cbn; lia. Qed.

Lemma within_finite (s : bool) (B : Z) (x : float) : within s B x -> is_finite x = true.
Proof. destruct x; cbn; tauto. Qed.

Lemma round_to_within (d : dtype) (s : bool) (B : Z) (x : float) :
  0 < B < 2 ^ prec d -> within s B x -> within s B (round_to d x).
Proof.
  intros HB Hx. destruct x as [sx|sx| |sx m e]; cbn [round_to]; try exact Hx.
  destruct Hx as [-> Hle].
  apply binary_round_within; [apply prec_gt_1|apply emax_room|exact HB|exact Hle].
Qed.

Lemma fmul_within (d : dtype) (x y : float) (sx sy : bool) (Bx By : Z) :
  0 <= Bx -> 0 <= By -> 0 < Bx * By < 2 ^ prec d ->
  within sx Bx x -> within sy By y ->
  within (xorb sx sy) (Bx * By) (fmul d x y).
Proof.
  intros HBx HBy HB Hx Hy.
  destruct x as [s1|s1| |s1 m1 e1]; try contradiction;
    destruct y as [s2|s2| |s2 m2 e2]; try contradiction; unfold fmul; cbn [SFmul within];
    try exact I.
  destruct Hx as [-> Hx], Hy as [-> Hy].
  apply binary_round_aux_within; [apply prec_gt_1|apply emax_room|lia|exact HB|].
  rewrite Pos2Z.inj_mul. apply scaled_le_mul; try lia; assumption.
Qed.

(** *** Truncation *)

(** [int] of a finite float truncates toward zero. *)
Lemma int_of_float_truncates (x : float) :
  is_finite x = true -> int_of_float x = Ok (truncate_toward_zero x).
Proof.
  destruct x as [s|s| |s m e]; try discriminate; intros _; [reflexivity|].
  cbn [int_of_float truncate_toward_zero]. f_equal.
  destruct (Z.le_gt_cases 0 e) as [He|He].
  - rewrite (Z.max_r 0 e), (Z.max_l 0 (- e)) by lia.
    rewrite Z.pow_0_r, Z.quot_1_r, Z.shiftl_mul_pow2 by lia.
    destruct s; lia.
  - rewrite (Z.max_l 0 e), (Z.max_r 0 (- e)) by lia.
    rewrite Z.pow_0_r, Z.mul_1_r.
    rewrite Z.shiftl_div_pow2 by lia.
    pose proof (pow2_pos (- e) ltac:(lia)).
    destruct s.
    + rewrite Z.quot_opp_l by lia. rewrite Z.quot_div_nonneg by lia. reflexivity.
    + rewrite Z.quot_div_nonneg by lia. reflexivity.
Qed.

Lemma truncate_within (s : bool) (B : Z) (x : float) :
  0 <= B -> within s B x ->
  - B <= truncate_toward_zero x <= B /\ (s = false -> 0 <= truncate_toward_zero x).
Proof.
  intros HB Hx.
  pose proof (int_of_float_truncates x (within_finite _ _ _ Hx)) as Hint.
  destruct x as [sx|sx| |sx m e]; try contradiction; [cbn; lia|].
  destruct Hx as [-> Hle].
  cbn [int_of_float] in Hint. injection Hint as Hint.
  cbn [truncate_toward_zero Z.opp] in Hint |- *. rewrite <- Hint. clear Hint.
  assert (Ha : 0 <= Z.shiftl (Zpos m) e <= B).
  { split; [apply Z.shiftl_nonneg; lia|].
    destruct (Z.le_gt_cases 0 e) as [He|He].
    - apply (scaled_le_pos_exp (Zpos m) e B He) in Hle.
      rewrite Z.shiftl_mul_pow2 by lia. exact Hle.
    - assert (He' : e <= 0) by lia. apply (scaled_le_neg_exp (Zpos m) e B He') in Hle.
      rewrite Z.shiftl_div_pow2 by lia.
      pose proof (pow2_pos (- e) ltac:(lia)).
      apply Z.div_le_upper_bound; lia. }
  destruct s; split; try lia; discriminate.
Qed.

(** *** Values of magnitude at most 1 *)

Lemma of_int_1 (d : dtype) : of_int d 1 = S754_finite false (2 ^ Z.to_pos (prec d - 1)) (1 - prec d).
Proof. destruct d; reflexivity. Qed.

Lemma unit_magnitude_within (d : dtype) (x : float) :
  unit_magnitude d x = true -> within (sign_of x) 1 x.
Proof.
  unfold unit_magnitude. intros H. apply andb_prop in H. destruct H as [Hv Hle].
  rewrite of_int_1 in Hle. unfold fle, SFleb in Hle.
  destruct x as [s|s| |s m e]; [exact I|discriminate Hle|discriminate Hle|].
  cbn [within sign_of]. split; [reflexivity|].
  cbn [valid_binary] in Hv.
  pose proof (bounded_mantissa _ _ m e Hv) as Hm.
  cbn [SFabs SFcompare] in Hle.
  assert (Hpow : Zpos (2 ^ Z.to_pos (prec d - 1)) = 2 ^ (prec d - 1)) by (destruct d; reflexivity).
  pose proof (prec_gt_1 d) as Hp.
  destruct (Z.compare_spec e (1 - prec d)) as [He|He|He]; [| |discriminate Hle].
  - assert (Hc : (m <= 2 ^ Z.to_pos (prec d - 1))%positive).
    { change (Pos.compare_cont Eq m (2 ^ Z.to_pos (prec d - 1)))
        with (Pos.compare m (2 ^ Z.to_pos (prec d - 1))) in Hle.
      unfold Pos.le. destruct (Pos.compare m (2 ^ Z.to_pos (prec d - 1))); congruence. }
    apply Pos2Z.pos_le_pos in Hc. rewrite Hpow in Hc.
    apply (scaled_le_neg_exp (Zpos m) e 1); [lia|].
    replace (- e) with (prec d - 1) by lia. lia.
  - apply (scaled_le_neg_exp (Zpos m) e 1); [lia|].
    assert (2 ^ prec d <= 2 ^ (- e)) by (apply Z.pow_le_mono_r; lia). lia.
Qed.

Lemma unit_interval_sign (d : dtype) (x : float) :
  unit_interval d x = true -> unit_magnitude d x = true /\ sign_of x = false.
Proof.
  unfold unit_interval. intros H. apply andb_prop in H. destruct H as [Hu H0].
  split; [exact Hu|]. destruct x as [s|s| |[|] m e]; try reflexivity. discriminate H0.
Qed.

Lemma of_int_within (d : dtype) :
  within false 255 (of_int d 255) /\ within false 127 (of_int d 127).
Proof.
  destruct d; (split; (split; [reflexivity|unfold scaled_le; cbn; lia])).
Qed.

Section Quantize.

Variable legacy_promotion : bool.

(** [int(x * k)] for [x] of magnitude at most 1 and [k] 255 or 127: it is
    the product truncated toward zero, and lies between [-k] and [k]; for
    [x] not negative, between 0 and [k]. *)
Lemma quantize_unit (d : dtype) (x : float) (k : Z) :
  k = 255 \/ k = 127 ->
  unit_magnitude d x = true ->
  let n := truncate_toward_zero (scalar_times_int legacy_promotion d x k) in
  quantize legacy_promotion d x k = Ok n /\ - k <= n <= k /\ (sign_of x = false -> 0 <= n).
Proof.
  intros Hk Hx n. subst n. unfold quantize, scalar_times_int.
  set (d' := if legacy_promotion then float64 else d).
  pose proof (unit_magnitude_within d x Hx) as Hw.
  assert (H1 : 0 < 1 < 2 ^ prec d') by (destruct d'; cbn; lia).
  pose proof (round_to_within d' _ 1 x H1 Hw) as Hr.
  assert (Hkw : within false k (of_int d' k)).
  { destruct Hk as [-> | ->]; apply of_int_within. }
  assert (HB : 0 < 1 * k < 2 ^ prec d') by (destruct Hk as [-> | ->]; destruct d'; cbn; lia).
  pose proof (fmul_within d' _ _ _ _ 1 k ltac:(lia) ltac:(lia) HB Hr Hkw) as Hp.
  rewrite xorb_false_r, Z.mul_1_l in Hp.
  split; [apply int_of_float_truncates, (within_finite _ _ _ Hp)|].
  apply truncate_within; [lia|exact Hp].
Qed.

End Quantize.

(** A float32 is accepted by [struct.pack('f', x)]. *)
Lemma valid_fits_float32 (x : float) : valid_binary 24 128 x = true -> fits_float32 x = true.
Proof.
  destruct x as [s|s| |s m e]; try reflexivity. cbn [valid_binary]. intros Hb.
  unfold fits_float32. cbn [round_to prec emax].
  rewrite (binary_round_valid 24 128 s m e Hb). reflexivity.
Qed.

(** ** The writer *)

Lemma rows_ok_nth (n c : nat) (ok : float -> bool) (a : list (list float)) (i : nat) :
  rows_ok n c ok a -> (i < n)%nat ->
  exists row, nth_error a i = Some row /\ nth i a [] = row /\
              length row = c /\ Forall (fun x => ok x = true) row.
Proof.
  intros [Hlen Hall] Hi.
  destruct (nth_error a i) as [row|] eqn:Hnth.
  - exists row. split; [reflexivity|]. split; [apply nth_error_nth; exact Hnth|].
    apply nth_error_In in Hnth. rewrite Forall_forall in Hall. apply Hall, Hnth.
  - apply nth_error_None in Hnth. lia.
Qed.

Lemma pack_f_fits (x : float) : fits_float32 x = true -> pack_f x = Ok (f32_bytes x).
Proof.
  unfold fits_float32, pack_f, f32_bytes. intros H.
  destruct (is_finite x), (is_finite (round_to float32 x)); try discriminate H; reflexivity.
Qed.

Lemma pack_fff_fits (a b c : float) :
  Forall (fun x => fits_float32 x = true) [a; b; c] ->
  pack_fff [a; b; c] = Ok (flat_map f32_bytes [a; b; c]).
Proof.
  intros H. inversion H as [|? ? Ha H1]; subst. inversion H1 as [|? ? Hb H2]; subst.
  inversion H2 as [|? ? Hc _]; subst.
  cbn [pack_fff flat_map]. rewrite !pack_f_fits by assumption. cbn [bind].
  rewrite app_nil_r. reflexivity.
Qed.

Lemma pack_B_range (n : Z) : 0 <= n <= 255 -> pack_B n = Ok [byte_of_Z n].
Proof.
  intros Hn. unfold pack_B.
  destruct (Z.leb_spec 0 n); [|lia]. destruct (Z.leb_spec n 255); [reflexivity|lia].
Qed.

Lemma pack_b_range (n : Z) : -128 <= n <= 127 -> pack_b n = Ok [byte_of_Z n].
Proof.
  intros Hn. unfold pack_b.
  destruct (Z.leb_spec (-128) n); [|lia]. destruct (Z.leb_spec n 127); [reflexivity|lia].
Qed.

Section WriterProperties.

Variable legacy_promotion : bool.

Let u8 := quantized legacy_promotion.

(** [int(c * 255)] of a color or an opacity fits a uint8. *)
Lemma quantize_color (d : dtype) (x : float) :
  unit_interval d x = true ->
  quantize legacy_promotion d x 255
  = Ok (truncate_toward_zero (scalar_times_int legacy_promotion d x 255))
  /\ 0 <= truncate_toward_zero (scalar_times_int legacy_promotion d x 255) <= 255.
Proof.
  intros H. apply unit_interval_sign in H. destruct H as [Hu Hs].
  destruct (quantize_unit legacy_promotion d x 255 (or_introl eq_refl) Hu)
    as (Hq & Hr & Hn).
  split; [exact Hq|]. specialize (Hn Hs). lia.
Qed.

(** [int(q * 127)] of a rotation component fits an int8. *)
Lemma quantize_rotation (d : dtype) (x : float) :
  unit_magnitude d x = true ->
  quantize legacy_promotion d x 127
  = Ok (truncate_toward_zero (scalar_times_int legacy_promotion d x 127))
  /\ -127 <= truncate_toward_zero (scalar_times_int legacy_promotion d x 127) <= 127.
Proof.
  intros Hu.
  destruct (quantize_unit legacy_promotion d x 127 (or_intror eq_refl) Hu)
    as (Hq & Hr & _).
  split; [exact Hq|lia].
Qed.

(** One iteration of the loop appends the record of its splat. *)
Lemma write_splat_record (n : nat) (s : splats) (i : nat) (out : bytes) :
  decoded_splats n s -> (i < n)%nat ->
  write_splat legacy_promotion s i out = (out ++ compact_record legacy_promotion s i, Ok tt)
  /\ length (compact_record legacy_promotion s i) = 32%nat.
Proof.
  intros [Hpos Hscale Hcol [Hol Hop] Hrot] Hi.
  destruct (rows_ok_nth _ _ _ _ i Hpos Hi) as (p & Hp & Hp' & Hpl & Hpf).
  destruct (rows_ok_nth _ _ _ _ i Hscale Hi) as (sc & Hsc & Hsc' & Hscl & Hscf).
  destruct (rows_ok_nth _ _ _ _ i Hcol Hi) as (c & Hc & Hc' & Hcl & Hcf).
  destruct (rows_ok_nth _ _ _ _ i Hrot Hi) as (q & Hq & Hq' & Hql & Hqf).
  destruct (nth_error (items (opacity s)) i) as [o|] eqn:Ho;
    [|apply nth_error_None in Ho; lia].
  assert (Hof : unit_interval (dt1 (opacity s)) o = true).
  { rewrite Forall_forall in Hop. apply Hop. eapply nth_error_In. exact Ho. }
  pose proof (nth_error_nth _ _ S754_nan Ho) as Ho'.
  destruct p as [|p0 [|p1 [|p2 [|]]]]; try discriminate Hpl.
  destruct sc as [|s0 [|s1 [|s2 [|]]]]; try discriminate Hscl.
  destruct c as [|c0 [|c1 [|c2 [|]]]]; try discriminate Hcl.
  destruct q as [|q0 [|q1 [|q2 [|q3 [|]]]]]; try discriminate Hql.
  unfold compact_record. rewrite Hp', Hsc', Hc', Hq', Ho'.
  split; [|reflexivity].
  unfold write_splat, row_at, item_at, item1_at, row_at.
  rewrite Hp, Hsc, Hc, Hq, Ho. cbn [bind nth_error].
  rewrite (pack_fff_fits _ _ _ Hpf), (pack_fff_fits _ _ _ Hscf).
  inversion Hcf as [|? ? Hc0 Hcf1]; subst. inversion Hcf1 as [|? ? Hc1 Hcf2]; subst.
  inversion Hcf2 as [|? ? Hc2 _]; subst.
  destruct (quantize_color _ _ Hc0) as [E0 R0]. destruct (quantize_color _ _ Hc1) as [E1 R1].
  destruct (quantize_color _ _ Hc2) as [E2 R2]. destruct (quantize_color _ _ Hof) as [Ea Ra].
  rewrite E0, E1, E2, Ea. cbn [bind]. unfold pack_BBBB.
  rewrite !pack_B_range by assumption. cbn [bind].
  inversion Hqf as [|? ? Hq0 Hqf1]; subst. inversion Hqf1 as [|? ? Hq1 Hqf2]; subst.
  inversion Hqf2 as [|? ? Hq2 Hqf3]; subst. inversion Hqf3 as [|? ? Hq3 _]; subst.
  destruct (quantize_rotation _ _ Hq0) as [F0 S0]. destruct (quantize_rotation _ _ Hq1) as [F1 S1].
  destruct (quantize_rotation _ _ Hq2) as [F2 S2]. destruct (quantize_rotation _ _ Hq3) as [F3 S3].
  rewrite F0, F1, F2, F3. cbn [bind]. unfold pack_bbbb.
  rewrite !pack_b_range by lia. cbn [bind].
  f_equal. rewrite <- !app_assoc. reflexivity.
Qed.

Lemma write_loop_records (n : nat) (s : splats) (indices : list nat) :
  decoded_splats n s -> Forall (fun i => (i < n)%nat) indices ->
  forall out,
    write_loop legacy_promotion s indices out
    = (out ++ List.concat (map (compact_record legacy_promotion s) indices), Ok tt)
    /\ length (List.concat (map (compact_record legacy_promotion s) indices))
       = (32 * length indices)%nat.
Proof.
  intros Hs Hall. induction Hall as [|i rest Hi _ IH]; intros out.
  - cbn. rewrite app_nil_r. split; reflexivity.
  - destruct (write_splat_record n s i out Hs Hi) as [Hw Hl].
    cbn [write_loop map List.concat]. rewrite Hw.
    destruct (IH (out ++ compact_record legacy_promotion s i)) as [Hrest Hlen].
    rewrite Hrest, <- app_assoc. split; [reflexivity|].
    rewrite length_app, Hl, Hlen. cbn [length]. lia.
Qed.

End WriterProperties.

(** The bytes of that record: 1.0 three times, 0.01 three times,
    (199, 199, 199, 204) and (127, 0, 0, 0). The color 0.7820948 gives
    199.43 and the byte 199. *)
Example nine_column_record :
  compact_record true nine_column_splats 0
  = [x00; x00; x80; x3f; x00; x00; x80; x3f; x00; x00; x80; x3f;
     x0a; xd7; x23; x3c; x0a; xd7; x23; x3c; x0a; xd7; x23; x3c;
     xc7; xc7; xc7; xcc;
     x7f; x00; x00; x00]
  /\ compact_record false nine_column_splats 0 = compact_record true nine_column_splats 0.
Proof. split; vm_compute; reflexivity. Qed.

(** Truncation is toward zero: 254.99 gives 254 and -63.5 gives -63. *)
Example int_of_float_toward_zero :
  int_of_float (py_float 25499 2) = Ok 254
  /\ int_of_float (fneg (py_float 635 1)) = Ok (-63)
  /\ int_of_float (fneg (py_float 5 1)) = Ok 0
  /\ int_of_float S754_nan = Raise (ValueError FloatNaNToInt)
  /\ int_of_float (S754_infinity false) = Raise OverflowError.
Proof. repeat split; vm_compute; reflexivity. Qed.

(** ** binary32 words and bytes *)

Lemma byte_of_Z_of_byte (b : byte) : byte_of_Z (Z_of_byte b) = b.
Proof.
  unfold byte_of_Z, Z_of_byte.
  pose proof (Byte.to_N_bounded b) as Hb.
  rewrite Z.mod_small by lia. rewrite N2Z.id, Byte.of_to_N. reflexivity.
Qed.

Lemma Z_of_byte_range (b : byte) : 0 <= Z_of_byte b < 256.
Proof. unfold Z_of_byte. pose proof (Byte.to_N_bounded b). lia. Qed.

Lemma byte_of_Z_low (x r : Z) : 0 <= x < 256 -> byte_of_Z (x + 256 * r) = byte_of_Z x.
Proof.
  intros Hx. unfold byte_of_Z.
  replace ((x + 256 * r) mod 256) with (x mod 256); [reflexivity|].
  rewrite (Z.mul_comm 256 r), Z.mod_add by lia. reflexivity.
Qed.

(** The four bytes of a word are the bytes it was read from. *)
Lemma le32_word_of_le (b0 b1 b2 b3 : byte) : le32 (word_of_le b0 b1 b2 b3) = [b0; b1; b2; b3].
Proof.
  unfold le32, word_of_le.
  pose proof (Z_of_byte_range b0). pose proof (Z_of_byte_range b1).
  pose proof (Z_of_byte_range b2). pose proof (Z_of_byte_range b3).
  rewrite !Z.shiftr_div_pow2 by lia.
  change (2 ^ 8) with 256. change (2 ^ 16) with (256 * 256).
  change (2 ^ 24) with (256 * 256 * 256).
  set (x0 := Z_of_byte b0) in *. set (x1 := Z_of_byte b1) in *.
  set (x2 := Z_of_byte b2) in *. set (x3 := Z_of_byte b3) in *.
  assert (E1 : (x0 + 256 * (x1 + 256 * (x2 + 256 * x3))) / 256 = x1 + 256 * (x2 + 256 * x3)).
  { symmetry. apply (Z.div_unique _ _ _ x0); lia. }
  assert (E2 : (x0 + 256 * (x1 + 256 * (x2 + 256 * x3))) / (256 * 256) = x2 + 256 * x3).
  { symmetry. apply (Z.div_unique _ _ _ (x0 + 256 * x1)); lia. }
  assert (E3 : (x0 + 256 * (x1 + 256 * (x2 + 256 * x3))) / (256 * 256 * 256) = x3).
  { symmetry. apply (Z.div_unique _ _ _ (x0 + 256 * (x1 + 256 * x2))); lia. }
  rewrite E1, E2, E3, !byte_of_Z_low by assumption.
  subst x0 x1 x2 x3. rewrite !byte_of_Z_of_byte. reflexivity.
Qed.

Lemma word_of_le_range (b0 b1 b2 b3 : byte) : 0 <= word_of_le b0 b1 b2 b3 < 2 ^ 32.
Proof.
  unfold word_of_le.
  pose proof (Z_of_byte_range b0). pose proof (Z_of_byte_range b1).
  pose proof (Z_of_byte_range b2). pose proof (Z_of_byte_range b3).
  change (2 ^ 32) with 4294967296. lia.
Qed.

(** The fields of a word: sign, biased exponent and fraction. *)
Lemma word_fields (w : Z) :
  0 <= w < 2 ^ 32 ->
  let s := Z.testbit w 31 in
  let e := Z.land (Z.shiftr w 23) 255 in
  let m := Z.land w (2 ^ 23 - 1) in
  w = (if s then 2 ^ 31 else 0) + e * 2 ^ 23 + m /\ 0 <= e < 256 /\ 0 <= m < 2 ^ 23.
Proof.
  intros Hw s e m.
  assert (Hm : m = w mod 2 ^ 23).
  { subst m. change (2 ^ 23 - 1) with (Z.ones 23). apply Z.land_ones. lia. }
  assert (He : e = (w / 2 ^ 23) mod 2 ^ 8).
  { subst e. change 255 with (Z.ones 8). rewrite Z.land_ones by lia.
    rewrite Z.shiftr_div_pow2 by lia. reflexivity. }
  assert (Hs : (if s then 1 else 0) = w / 2 ^ 31).
  { subst s. rewrite Z.testbit_odd, Z.shiftr_div_pow2 by lia.
    assert (Hq : 0 <= w / 2 ^ 31 < 2).
    { split; [apply Z.div_pos; lia|apply Z.div_lt_upper_bound; lia]. }
    assert (Hc : w / 2 ^ 31 = 0 \/ w / 2 ^ 31 = 1) by lia.
    destruct Hc as [-> | ->]; reflexivity. }
  change (2 ^ 32) with 4294967296 in Hw. change (2 ^ 31) with 2147483648 in *.
  change (2 ^ 23) with 8388608 in *. change (2 ^ 8) with 256 in *.
  rewrite Hm, He. destruct s; Z.div_mod_to_equations; lia.
Qed.

(** Every binary32 word is a value of the format. *)
Lemma float32_of_bits_valid (w : Z) :
  0 <= w < 2 ^ 32 -> valid_binary 24 128 (float32_of_bits w) = true.
Proof.
  intros Hw. destruct (word_fields w Hw) as (_ & He & Hm). cbv zeta in He, Hm.
  unfold float32_of_bits.
  set (e := Z.land (Z.shiftr w 23) 255) in *. set (m := Z.land w (2 ^ 23 - 1)) in *.
  destruct (Z.eqb_spec e 255); [destruct (m =? 0); reflexivity|].
  destruct (Z.eqb_spec e 0) as [He0|He0].
  - destruct m as [|q|q]; try reflexivity. cbn [valid_binary].
    pose proof (digits2_pos_bounds q) as [Hd _].
    assert (Hdig : Zpos (digits2_pos q) <= 23).
    { assert (H1 : 2 ^ (Zpos (digits2_pos q) - 1) < 2 ^ 23) by lia.
      apply Z.pow_lt_mono_r_iff in H1; lia. }
    unfold bounded, canonical_mantissa, fexp, emin.
    apply andb_true_intro. split; [apply Z.eqb_eq; lia|apply Z.leb_le; lia].
  - destruct (m + 2 ^ 23) as [|q|q] eqn:Hq; try lia. cbn [valid_binary].
    pose proof (digits2_pos_bounds q) as [Hd1 Hd2].
    assert (Hdig : Zpos (digits2_pos q) = 24).
    { assert (H1 : 2 ^ (Zpos (digits2_pos q) - 1) < 2 ^ 24).
      { change (2 ^ 24) with (2 ^ 23 + 2 ^ 23). lia. }
      assert (H2 : 2 ^ 23 < 2 ^ Zpos (digits2_pos q)) by lia.
      apply Z.pow_lt_mono_r_iff in H1; [|lia|lia].
      apply Z.pow_lt_mono_r_iff in H2; lia. }
    unfold bounded, canonical_mantissa, fexp, emin. rewrite Hdig.
    apply andb_true_intro. split; [apply Z.eqb_eq; lia|apply Z.leb_le; lia].
Qed.

(** The word of the value of a word is the word, NaN payloads apart. *)
Lemma bits_of_float32_of_bits (w : Z) :
  0 <= w < 2 ^ 32 -> is_nan (float32_of_bits w) = false ->
  bits_of_float32 (float32_of_bits w) = w.
Proof.
  intros Hw. destruct (word_fields w Hw) as (Hsum & He & Hm). cbv zeta in Hsum, He, Hm.
  unfold float32_of_bits.
  set (s := Z.testbit w 31) in *.
  set (e := Z.land (Z.shiftr w 23) 255) in *. set (m := Z.land w (2 ^ 23 - 1)) in *.
  destruct (Z.eqb_spec e 255) as [He255|He255].
  - destruct (Z.eqb_spec m 0) as [Hm0|Hm0]; [|discriminate]. intros _.
    cbn [bits_of_float32]. lia.
  - intros _. destruct (Z.eqb_spec e 0) as [He0|He0].
    + destruct m as [|q|q] eqn:Hq; cbn [bits_of_float32]; try lia.
      destruct (Z.ltb_spec (Zpos q) (2 ^ 23)); lia.
    + destruct (m + 2 ^ 23) as [|q|q] eqn:Hq; try lia. cbn [bits_of_float32].
      destruct (Z.ltb_spec (Zpos q) (2 ^ 23)); lia.
Qed.

(** A float32 read from four bytes is written as these four bytes: the
    positions pass through the conversion unchanged (NaN payloads apart). *)
Lemma f32_bytes_raw (b0 b1 b2 b3 : byte) :
  is_nan (float32_of_bits (word_of_le b0 b1 b2 b3)) = false ->
  f32_bytes (float32_of_bits (word_of_le b0 b1 b2 b3)) = [b0; b1; b2; b3]
  /\ fits_float32 (float32_of_bits (word_of_le b0 b1 b2 b3)) = true.
Proof.
  intros Hnan. pose proof (word_of_le_range b0 b1 b2 b3) as Hw.
  pose proof (float32_of_bits_valid _ Hw) as Hv.
  split; [|apply valid_fits_float32; exact Hv].
  unfold f32_bytes.
  assert (Hr : round_to float32 (float32_of_bits (word_of_le b0 b1 b2 b3))
               = float32_of_bits (word_of_le b0 b1 b2 b3)).
  { destruct (float32_of_bits (word_of_le b0 b1 b2 b3)) as [s|s| |s m e]; try reflexivity.
    apply (binary_round_valid 24 128 s m e Hv). }
  rewrite Hr, (bits_of_float32_of_bits _ Hw Hnan). apply le32_word_of_le.
Qed.

(** ** Rounding gives values of the format *)

Lemma Zdigits2_bounds (x : Z) :
  0 < x -> 0 < Zdigits2 x /\ 2 ^ (Zdigits2 x - 1) <= x < 2 ^ Zdigits2 x.
Proof.
  destruct x as [|q|q]; try lia. intros _. cbn [Zdigits2].
  split; [lia|apply digits2_pos_bounds].
Qed.

Lemma Zdigits2_unique (x k : Z) : 0 < x -> 2 ^ (k - 1) <= x < 2 ^ k -> Zdigits2 x = k.
Proof.
  intros Hx [Hlo Hhi]. destruct (Zdigits2_bounds x Hx) as (Hd & Hdlo & Hdhi).
  assert (Hk : 0 < k).
  { destruct (Z.lt_ge_cases 0 k) as [|Hk]; [assumption|].
    assert (2 ^ k <= 1); [|lia].
    destruct (Z.eq_dec k 0) as [->|]; [cbn; lia|]. rewrite Z.pow_neg_r by lia. lia. }
  assert (H1 : 2 ^ (k - 1) < 2 ^ Zdigits2 x) by lia.
  assert (H2 : 2 ^ (Zdigits2 x - 1) < 2 ^ k) by lia.
  apply Z.pow_lt_mono_r_iff in H1; [|lia|lia].
  apply Z.pow_lt_mono_r_iff in H2; lia.
Qed.

Lemma Zdigits2_mono (x y : Z) : 0 < x -> x <= y -> Zdigits2 x <= Zdigits2 y.
Proof.
  intros Hx Hxy.
  destruct (Zdigits2_bounds x Hx) as (Hdx & Hxlo & _).
  destruct (Zdigits2_bounds y ltac:(lia)) as (Hdy & _ & Hyhi).
  assert (H : 2 ^ (Zdigits2 x - 1) < 2 ^ Zdigits2 y) by lia.
  apply Z.pow_lt_mono_r_iff in H; lia.
Qed.

Lemma shr_1_floor (X k : Z) (r : shr_record) :
  0 <= k -> shr_floor X k r -> shr_floor X (k + 1) (shr_1 r).
Proof.
  intros Hk (Hm & rem & HX & Hrem).
  pose proof (pow2_pos k Hk) as Hk2.
  assert (Hpow : 2 ^ (k + 1) = 2 * 2 ^ k) by (rewrite Z.pow_add_r by lia; lia).
  destruct r as [m b s]. cbn [shr_m] in *.
  destruct m as [|[q|q|]|q]; cbn; unfold shr_floor; cbn [shr_m]; try lia.
  - split; [lia|]. exists rem. lia.
  - split; [lia|]. exists (2 ^ k + rem). lia.
  - split; [lia|]. exists rem. lia.
  - split; [lia|]. exists (2 ^ k + rem). lia.
Qed.

Lemma iter_shr_1_floor (X : Z) (n : positive) :
  forall k r, 0 <= k -> shr_floor X k r -> shr_floor X (k + Zpos n) (iter_pos shr_1 n r).
Proof.
  induction n as [n IH|n IH|]; intros k r Hk H; cbn [iter_pos].
  - replace (k + Zpos n~1) with (((k + 1) + Zpos n) + Zpos n) by lia.
    apply IH; [lia|]. apply IH; [lia|]. apply shr_1_floor; assumption.
  - replace (k + Zpos n~0) with ((k + Zpos n) + Zpos n) by lia.
    apply IH; [lia|]. apply IH; assumption.
  - apply shr_1_floor; assumption.
Qed.

(** The digits of a mantissa shifted right by [k] bits. *)
Lemma Zdigits2_shr (x k q rem : Z) :
  0 < x -> 0 <= k -> x = q * 2 ^ k + rem -> 0 <= rem < 2 ^ k -> 0 <= q ->
  (q = 0 /\ Zdigits2 x <= k) \/ (0 < q /\ Zdigits2 q = Zdigits2 x - k).
Proof.
  intros Hx Hk HX Hrem Hq.
  destruct (Zdigits2_bounds x Hx) as (Hd & Hlo & Hhi).
  pose proof (pow2_pos k Hk) as Hk2.
  destruct (Z.eq_dec q 0) as [->|Hq0].
  - left. split; [reflexivity|].
    assert (H : 2 ^ (Zdigits2 x - 1) < 2 ^ k) by lia.
    apply Z.pow_lt_mono_r_iff in H; lia.
  - right. split; [lia|].
    assert (Hkd : k < Zdigits2 x).
    { assert (H : 2 ^ k < 2 ^ Zdigits2 x) by nia.
      apply Z.pow_lt_mono_r_iff in H; lia. }
    apply Zdigits2_unique; [lia|].
    assert (Hs1 : 2 ^ Zdigits2 x = 2 ^ (Zdigits2 x - k) * 2 ^ k).
    { rewrite <- pow2_split by lia. f_equal. lia. }
    assert (Hs2 : 2 ^ (Zdigits2 x - 1) = 2 ^ (Zdigits2 x - k - 1) * 2 ^ k).
    { rewrite <- pow2_split by lia. f_equal. lia. }
    pose proof (pow2_pos (Zdigits2 x - k) ltac:(lia)).
    pose proof (pow2_pos (Zdigits2 x - k - 1) ltac:(lia)).
    split; nia.
Qed.

Section RoundValid.

Variables p em : Z.
Hypothesis Hp : 0 < p.

Let canonical_or_zero := canonical_or_zero p em.

Lemma fexp_mono (a b : Z) : a <= b -> fexp p em a <= fexp p em b.
Proof. unfold fexp. lia. Qed.

Lemma fexp_ge_emin (a : Z) : emin p em <= fexp p em a.
Proof. unfold fexp. lia. Qed.

(** [shr_fexp] on a mantissa that needs no shift to the left. *)
Lemma shr_fexp_canonical (m e : Z) (l : location) :
  0 <= m -> e <= fexp p em (Zdigits2 m + e) ->
  (m = 0 -> e <= emin p em) ->
  canonical_or_zero (shr_m (fst (shr_fexp p em m e l))) (snd (shr_fexp p em m e l)).
Proof.
  intros Hm Hle H0. unfold shr_fexp, shr.
  destruct (fexp p em (Zdigits2 m + e) - e) as [|n|n] eqn:Hn; [|clear H0|lia];
    cbn [fst snd]; rewrite ?shr_record_of_loc_m.
  - destruct (Z.eq_dec m 0) as [->|]; [left; split; [reflexivity|auto]|].
    right. split; lia.
  - destruct (iter_shr_1_floor m n 0 (shr_record_of_loc m l) ltac:(lia))
      as (Hq & rem & HX & Hrem).
    { split; [rewrite shr_record_of_loc_m; exact Hm|]. exists 0.
      rewrite shr_record_of_loc_m. cbn. lia. }
    cbn [Z.add] in HX, Hrem.
    set (q := shr_m (iter_pos shr_1 n (shr_record_of_loc m l))) in *.
    destruct (Z.eq_dec m 0) as [Hm0|Hm0].
    + left. pose proof (pow2_pos (Zpos n) ltac:(lia)).
      assert (q = 0) by nia. split; [assumption|].
      rewrite Hm0 in Hn. cbn [Zdigits2] in Hn. unfold fexp in Hn. lia.
    + destruct (Zdigits2_shr m (Zpos n) q rem ltac:(lia) ltac:(lia) HX Hrem Hq)
        as [[-> Hd]|[Hq0 Hd]].
      * left. split; [reflexivity|]. unfold fexp in *. lia.
      * right. split; [exact Hq0|]. rewrite Hd.
        replace (Zdigits2 m - Zpos n + (e + Zpos n)) with (Zdigits2 m + e) by lia. lia.
Qed.

Lemma binary_round_aux_in_format (s : bool) (m e : Z) (l : location) :
  0 <= m -> e <= fexp p em (Zdigits2 m + e) ->
  valid_binary p em (binary_round_aux p em s m e l) = true.
Proof.
  intros Hm Hle. unfold binary_round_aux.
  assert (H0 : m = 0 -> e <= emin p em).
  { intros ->. cbn [Zdigits2] in Hle. unfold fexp in Hle. lia. }
  pose proof (shr_fexp_canonical m e l Hm Hle H0) as H1.
  destruct (shr_fexp p em m e l) as [r1 e1]. cbn [fst snd] in H1.
  set (m1 := round_nearest_even (shr_m r1) (loc_of_shr_record r1)).
  pose proof (round_nearest_even_bounds (shr_m r1) (loc_of_shr_record r1)) as [Hb _].
  fold m1 in Hb.
  assert (H2 : canonical_or_zero (shr_m (fst (shr_fexp p em m1 e1 loc_Exact)))
                                 (snd (shr_fexp p em m1 e1 loc_Exact))).
  { destruct H1 as [[Hz He1]|[Hpos Hc]].
    - apply shr_fexp_canonical; [lia| |intros _; exact He1].
      pose proof (fexp_ge_emin (Zdigits2 m1 + e1)). lia.
    - apply shr_fexp_canonical; [lia| |lia].
      rewrite <- Hc at 1. apply fexp_mono.
      pose proof (Zdigits2_mono (shr_m r1) m1 Hpos ltac:(lia)). lia. }
  destruct (shr_fexp p em m1 e1 loc_Exact) as [r2 e2]. cbn [fst snd] in H2.
  destruct (shr_m r2) as [|q|q] eqn:Hq; [reflexivity| |reflexivity].
  destruct (e2 <=? em - p) eqn:He2; [|reflexivity].
  cbn [valid_binary]. unfold bounded, canonical_mantissa. rewrite He2, andb_true_r.
  destruct H2 as [[Hz _]|[_ Hc]]; [discriminate Hz|].
  cbn [Zdigits2] in Hc. apply Z.eqb_eq. exact Hc.
Qed.

(** Rounding a mantissa and an exponent gives a value of the format. *)
Lemma binary_round_in_format (s : bool) (m : positive) (e : Z) :
  valid_binary p em (binary_round p em s m e) = true.
Proof.
  unfold binary_round, shl_align.
  destruct (fexp p em (Zpos (digits2_pos m) + e) - e) as [|n|n] eqn:Hn.
  - apply binary_round_aux_in_format; [lia|]. cbn [Zdigits2]. lia.
  - apply binary_round_aux_in_format; [lia|]. cbn [Zdigits2]. lia.
  - apply binary_round_aux_in_format; [lia|].
    rewrite iter_xO_pow2.
    assert (Hd : Zdigits2 (Zpos m * 2 ^ Zpos n) = Zpos (digits2_pos m) + Zpos n).
    { pose proof (digits2_pos_bounds m) as [Hlo Hhi].
      pose proof (pow2_pos (Zpos n) ltac:(lia)).
      apply Zdigits2_unique; [lia|].
      replace (Zpos (digits2_pos m) + Zpos n - 1) with ((Zpos (digits2_pos m) - 1) + Zpos n)
        by lia.
      rewrite !pow2_split by lia. split; nia. }
    rewrite Hd.
    replace (Zpos (digits2_pos m) + Zpos n + fexp p em (Zpos (digits2_pos m) + e))
      with (Zpos (digits2_pos m) + e) by lia.
    lia.
Qed.

Lemma binary_normalize_in_format (m e : Z) (s : bool) :
  valid_binary p em (binary_normalize p em m e s) = true.
Proof.
  destruct m; cbn [binary_normalize]; [reflexivity| |]; apply binary_round_in_format.
Qed.

End RoundValid.

Lemma prec_pos (d : dtype) : 0 < prec d.
Proof. destruct d; reflexivity. Qed.

Lemma round_to_in_format (d : dtype) (x : float) :
  valid_binary (prec d) (emax d) (round_to d x) = true.
Proof.
  destruct x as [s|s| |s m e]; try reflexivity.
  apply binary_round_in_format, prec_pos.
Qed.

(** A sum with a finite term of the format is in the format, whatever the
    other term is. *)
Lemma fadd_in_format (d : dtype) (x : float) (s : bool) (m : positive) (e : Z) :
  valid_binary (prec d) (emax d) (S754_finite s m e) = true ->
  valid_binary (prec d) (emax d) (fadd d x (S754_finite s m e)) = true.
Proof.
  intros Hy. destruct x as [sx|sx| |sx mx ex]; unfold fadd; cbn [SFadd];
    try reflexivity; [exact Hy|].
  apply binary_normalize_in_format, prec_pos.
Qed.

Lemma fadd_finite_not_nan (d : dtype) (x : float) (s : bool) (m : positive) (e : Z) :
  is_nan x = false -> is_nan (fadd d x (S754_finite s m e)) = false.
Proof.
  destruct x as [sx|sx| |sx mx ex]; try discriminate; intros _; unfold fadd;
    cbn [SFadd is_nan]; try reflexivity.
  apply binary_normalize_not_nan.
Qed.

(** A colour read from the harmonics is a float32 between 0 and 1, unless
    the coefficient is NaN. *)
Lemma sh_to_rgb_unit_interval (x : float) :
  is_nan x = false -> unit_interval float32 (sh_to_rgb x) = true.
Proof.
  intros Hx. unfold sh_to_rgb.
  set (k := round_to float32 SH_C0). set (h := round_to float32 lit_0_5).
  assert (Hk : k = S754_finite false 9465531 (-25)) by reflexivity.
  assert (Hh : h = S754_finite false 8388608 (-24)) by reflexivity.
  set (y := fadd float32 (fmul float32 x k) h).
  assert (Hy : is_nan y = false).
  { unfold y. rewrite Hh. apply fadd_finite_not_nan. rewrite Hk.
    apply fmul_finite_not_nan. exact Hx. }
  assert (Hv : valid_binary 24 128 y = true).
  { unfold y. rewrite Hh. apply (fadd_in_format float32). reflexivity. }
  destruct (clip01_range float32 y Hy) as [H0 H1].
  assert (Hvc : valid_binary 24 128 (clip01 float32 y) = true).
  { unfold clip01. rewrite Hy. destruct (flt zero y); destruct (flt _ _); trivial. }
  unfold unit_interval, unit_magnitude. rewrite H0, andb_true_r.
  change (prec float32) with 24. change (emax float32) with 128. rewrite Hvc.
  cbn [andb]. rewrite of_int_1 in *. unfold fle, zero in *.
  destruct (clip01 float32 y) as [[|]|[|]| |[|] m e]; cbn [SFabs] in *;
    solve [reflexivity | assumption | discriminate H0 | discriminate H1].
Qed.

(** ** The layout of the output *)

(** A byte holds its value modulo 256. *)
Lemma Z_of_byte_of_Z (n : Z) : Z_of_byte (byte_of_Z n) = n mod 256.
Proof.
  unfold Z_of_byte, byte_of_Z.
  pose proof (Z.mod_pos_bound n 256 ltac:(lia)) as Hm.
  destruct (Byte.of_N (Z.to_N (n mod 256))) as [b|] eqn:Hb.
  - apply Byte.to_of_N in Hb. rewrite Hb. lia.
  - apply Byte.of_N_None_iff in Hb. lia.
Qed.

(** The word read from the four bytes of a word is the word. *)
Lemma word_of_le_le32 (w : Z) :
  0 <= w < 2 ^ 32 ->
  word_of_le (byte_of_Z w) (byte_of_Z (Z.shiftr w 8)) (byte_of_Z (Z.shiftr w 16))
             (byte_of_Z (Z.shiftr w 24)) = w.
Proof.
  intros Hw. unfold word_of_le. rewrite !Z_of_byte_of_Z.
  rewrite !Z.shiftr_div_pow2 by lia.
  change (2 ^ 32) with 4294967296 in Hw.
  change (2 ^ 8) with 256. change (2 ^ 16) with 65536. change (2 ^ 24) with 16777216.
  Z.div_mod_to_equations. lia.
Qed.

Lemma bits_of_float32_range (y : float) :
  valid_binary 24 128 y = true -> 0 <= bits_of_float32 y < 2 ^ 32.
Proof.
  change (2 ^ 32) with 4294967296.
  destruct y as [s|s| |s m e]; cbn [bits_of_float32];
    [destruct s; cbn; lia|destruct s; cbn; lia|cbn; lia|].
  cbn [valid_binary]. intros Hb.
  pose proof (bounded_mantissa 24 128 m e Hb) as Hm.
  unfold bounded, canonical_mantissa, fexp, emin in Hb.
  apply andb_prop in Hb. destruct Hb as [Hc He]. apply Z.eqb_eq in Hc. apply Z.leb_le in He.
  change (2 ^ 24) with 16777216 in Hm. change (2 ^ 23) with 8388608.
  change (2 ^ 31) with 2147483648.
  destruct (Z.ltb_spec (Zpos m) 8388608); destruct s; lia.
Qed.

(** The value of the word of a binary32 value is the value. *)
Lemma float32_of_bits_of_float32 (y : float) :
  valid_binary 24 128 y = true -> float32_of_bits (bits_of_float32 y) = y.
Proof.
  intros Hv. pose proof (bits_of_float32_range y Hv) as Hw.
  destruct y as [s|s| |s m e]; [destruct s; reflexivity|destruct s; reflexivity|reflexivity|].
  destruct (word_fields _ Hw) as (Hsum & He & Hm). cbv zeta in Hsum, He, Hm.
  unfold float32_of_bits.
  set (w := bits_of_float32 (S754_finite s m e)) in *.
  set (s' := Z.testbit w 31) in *.
  set (e' := Z.land (Z.shiftr w 23) 255) in *. set (m' := Z.land w (2 ^ 23 - 1)) in *.
  cbn [valid_binary] in Hv.
  pose proof (bounded_mantissa 24 128 m e Hv) as Hmant.
  unfold bounded, canonical_mantissa, fexp, emin in Hv.
  apply andb_prop in Hv. destruct Hv as [Hc Hexp]. apply Z.eqb_eq in Hc.
  apply Z.leb_le in Hexp.
  pose proof (digits2_pos_bounds m) as [Hd1 Hd2].
  change (2 ^ 24) with 16777216 in *. change (2 ^ 23) with 8388608 in *.
  change (2 ^ 31) with 2147483648 in *.
  subst w. cbn [bits_of_float32] in Hsum. change (2 ^ 23) with 8388608 in Hsum.
  change (2 ^ 31) with 2147483648 in Hsum.
  destruct (Z.ltb_spec (Zpos m) 8388608) as [Hsub|Hnorm].
  - assert (Hdig : Zpos (digits2_pos m) <= 23).
    { assert (H1 : 2 ^ (Zpos (digits2_pos m) - 1) < 2 ^ 23)
        by (change (2 ^ 23) with 8388608; lia).
      apply Z.pow_lt_mono_r_iff in H1; lia. }
    assert (Hee : e = -149) by lia.
    assert (Hf : s' = s /\ e' = 0 /\ m' = Zpos m) by (destruct s, s'; lia).
    destruct Hf as (-> & -> & ->). subst e. reflexivity.
  - assert (Hdig : Zpos (digits2_pos m) = 24).
    { assert (H1 : 2 ^ (Zpos (digits2_pos m) - 1) < 2 ^ 24)
        by (change (2 ^ 24) with 16777216; lia).
      assert (H2 : 2 ^ 23 < 2 ^ Zpos (digits2_pos m))
        by (change (2 ^ 23) with 8388608; lia).
      apply Z.pow_lt_mono_r_iff in H1; [|lia|lia].
      apply Z.pow_lt_mono_r_iff in H2; lia. }
    assert (Hf : s' = s /\ e' = e + 150 /\ m' = Zpos m - 8388608) by (destruct s, s'; lia).
    destruct Hf as (-> & -> & ->).
    destruct (Z.eqb_spec (e + 150) 255); [lia|].
    destruct (Z.eqb_spec (e + 150) 0); [lia|].
    replace (Zpos m - 8388608 + 8388608) with (Zpos m) by lia.
    replace (e + 150 - 150) with e by lia. reflexivity.
Qed.

(** The bytes written for a value read back as a float32 give the value
    rounded to a float32. *)
Lemma float32_items_f32_bytes (x : float) (rest : bytes) :
  float32_items (f32_bytes x ++ rest) = round_to float32 x :: float32_items rest.
Proof.
  unfold f32_bytes, le32. cbn [app float32_items].
  pose proof (round_to_in_format float32 x) as Hv. cbn [prec emax] in Hv.
  rewrite word_of_le_le32 by (apply bits_of_float32_range, Hv).
  rewrite float32_of_bits_of_float32 by exact Hv. reflexivity.
Qed.

Lemma Z_of_byte_uint8 (n : Z) : 0 <= n <= 255 -> Z_of_byte (byte_of_Z n) = n.
Proof. intros Hn. rewrite Z_of_byte_of_Z. apply Z.mod_small. lia. Qed.

Lemma int8_of_byte_int8 (n : Z) : -128 <= n <= 127 -> int8_of_byte (byte_of_Z n) = n.
Proof.
  intros Hn. unfold int8_of_byte. rewrite Z_of_byte_of_Z.
  destruct (Z.ltb_spec (n mod 256) 128); Z.div_mod_to_equations; lia.
Qed.

(** Record [i] of the records written one after the other. *)
Lemma concat_record (l : list bytes) (i : nat) :
  Forall (fun r => length r = 32%nat) l ->
  firstn 32 (skipn (32 * i) (List.concat l)) = nth i l [].
Proof.
  intros Hall. revert i. induction Hall as [|r l Hr _ IH]; intros i.
  - rewrite skipn_nil, firstn_nil. destruct i; reflexivity.
  - cbn [List.concat]. destruct i as [|i].
    + rewrite Nat.mul_0_r. cbn [skipn nth]. rewrite <- Hr.
      rewrite firstn_app, Nat.sub_diag, firstn_O, app_nil_r. apply firstn_all.
    + replace (32 * S i)%nat with (length r + 32 * i)%nat by lia.
      rewrite skipn_app, Nat.add_comm, Nat.add_sub.
      rewrite skipn_all2 by lia. cbn [app nth]. apply IH.
Qed.


Section WriterLayout.

Variable legacy_promotion : bool.

(** C6. For [n] decoded splats the writer returns, and the output has
    [32 * n] bytes. The 32 bytes of splat [i] are, in this order: 12 bytes
    that read as 3 float32 are the position, 12 bytes that read as 3 float32
    are the scale, 4 bytes that are as uint8 the color and the opacity times
    255, each product truncated toward zero, and 4 bytes that are as int8
    the rotation components times 127, each truncated on its own. *)
Theorem write_splats_layout (n : nat) (s : splats) :
  decoded_splats n s ->
  exists out,
    write_splats legacy_promotion s (Z.of_nat n) = (out, Ok tt)
    /\ length out = (32 * n)%nat
    /\ forall i, (i < n)%nat ->
       exists p0 p1 p2 s0 s1 s2 c0 c1 c2 o q0 q1 q2 q3,
         row_at (positions s) i = Ok [p0; p1; p2]
         /\ row_at (scale s) i = Ok [s0; s1; s2]
         /\ row_at (colors s) i = Ok [c0; c1; c2]
         /\ item1_at (opacity s) i = Ok o
         /\ row_at (rot s) i = Ok [q0; q1; q2; q3]
         /\ exists pb sb r g b a qw qx qy qz,
              firstn 32 (skipn (32 * i) out)
              = pb ++ sb ++ [r; g; b; a] ++ [qw; qx; qy; qz]
              /\ length pb = 12%nat
              /\ length sb = 12%nat
              /\ float32_items pb
                 = [round_to float32 p0; round_to float32 p1; round_to float32 p2]
              /\ float32_items sb
                 = [round_to float32 s0; round_to float32 s1; round_to float32 s2]
              /\ Z_of_byte r = truncated_product legacy_promotion (dt (colors s)) c0 255
              /\ Z_of_byte g = truncated_product legacy_promotion (dt (colors s)) c1 255
              /\ Z_of_byte b = truncated_product legacy_promotion (dt (colors s)) c2 255
              /\ Z_of_byte a = truncated_product legacy_promotion (dt1 (opacity s)) o 255
              /\ int8_of_byte qw = truncated_product legacy_promotion (dt (rot s)) q0 127
              /\ int8_of_byte qx = truncated_product legacy_promotion (dt (rot s)) q1 127
              /\ int8_of_byte qy = truncated_product legacy_promotion (dt (rot s)) q2 127
              /\ int8_of_byte qz = truncated_product legacy_promotion (dt (rot s)) q3 127.
Proof.
  intros Hs.
  assert (Hidx : Forall (fun i => (i < n)%nat) (seq 0 n)).
  { apply Forall_forall. intros i Hi. apply in_seq in Hi. lia. }
  destruct (write_loop_records legacy_promotion n s (seq 0 n) Hs Hidx []) as [Hw Hl].
  exists (List.concat (map (compact_record legacy_promotion s) (seq 0 n))).
  unfold write_splats. rewrite Nat2Z.id, Hw. cbn [app].
  split; [reflexivity|]. split; [rewrite Hl, length_seq; reflexivity|].
  intros i Hi.
  assert (Hrec : firstn 32 (skipn (32 * i)
                   (List.concat (map (compact_record legacy_promotion s) (seq 0 n))))
                 = compact_record legacy_promotion s i).
  { rewrite concat_record.
    - rewrite (nth_indep _ [] (compact_record legacy_promotion s 0))
        by (rewrite length_map, length_seq; exact Hi).
      rewrite map_nth, seq_nth by exact Hi. reflexivity.
    - apply Forall_forall. intros r Hr. apply in_map_iff in Hr.
      destruct Hr as (j & <- & Hj). apply in_seq in Hj.
      apply (write_splat_record legacy_promotion n s j [] Hs). lia. }
  rewrite Hrec. clear Hrec Hw Hl.
  destruct Hs as [Hpos Hscale Hcol [Hol Hop] Hrot].
  destruct (rows_ok_nth _ _ _ _ i Hpos Hi) as (p & Hp & Hp' & Hpl & _).
  destruct (rows_ok_nth _ _ _ _ i Hscale Hi) as (sc & Hsc & Hsc' & Hscl & _).
  destruct (rows_ok_nth _ _ _ _ i Hcol Hi) as (c & Hc & Hc' & Hcl & Hcf).
  destruct (rows_ok_nth _ _ _ _ i Hrot Hi) as (q & Hq & Hq' & Hql & Hqf).
  destruct (nth_error (items (opacity s)) i) as [o|] eqn:Ho;
    [|apply nth_error_None in Ho; lia].
  assert (Hof : unit_interval (dt1 (opacity s)) o = true).
  { rewrite Forall_forall in Hop. apply Hop. eapply nth_error_In. exact Ho. }
  pose proof (nth_error_nth _ _ S754_nan Ho) as Ho'.
  destruct p as [|p0 [|p1 [|p2 [|]]]]; try discriminate Hpl.
  destruct sc as [|s0 [|s1 [|s2 [|]]]]; try discriminate Hscl.
  destruct c as [|c0 [|c1 [|c2 [|]]]]; try discriminate Hcl.
  destruct q as [|q0 [|q1 [|q2 [|q3 [|]]]]]; try discriminate Hql.
  exists p0, p1, p2, s0, s1, s2, c0, c1, c2, o, q0, q1, q2, q3.
  unfold row_at, item1_at. rewrite Hp, Hsc, Hc, Hq, Ho.
  repeat (split; [reflexivity|]).
  pose proof (Forall_inv Hcf) as Hc0.
  pose proof (Forall_inv (Forall_inv_tail Hcf)) as Hc1.
  pose proof (Forall_inv (Forall_inv_tail (Forall_inv_tail Hcf))) as Hc2.
  pose proof (Forall_inv Hqf) as Hq0.
  pose proof (Forall_inv (Forall_inv_tail Hqf)) as Hq1.
  pose proof (Forall_inv (Forall_inv_tail (Forall_inv_tail Hqf))) as Hq2.
  pose proof (Forall_inv (Forall_inv_tail (Forall_inv_tail (Forall_inv_tail Hqf)))) as Hq3.
  cbn beta in Hc0, Hc1, Hc2, Hq0, Hq1, Hq2, Hq3.
  exists (flat_map f32_bytes [p0; p1; p2]), (flat_map f32_bytes [s0; s1; s2]),
         (quantized legacy_promotion (dt (colors s)) 255 c0),
         (quantized legacy_promotion (dt (colors s)) 255 c1),
         (quantized legacy_promotion (dt (colors s)) 255 c2),
         (quantized legacy_promotion (dt1 (opacity s)) 255 o),
         (quantized legacy_promotion (dt (rot s)) 127 q0),
         (quantized legacy_promotion (dt (rot s)) 127 q1),
         (quantized legacy_promotion (dt (rot s)) 127 q2),
         (quantized legacy_promotion (dt (rot s)) 127 q3).
  split.
  { unfold compact_record. rewrite Hp', Hsc', Hc', Hq', Ho'.
    cbn [map app]. reflexivity. }
  split; [reflexivity|]. split; [reflexivity|].
  split; [cbn [flat_map]; rewrite !float32_items_f32_bytes; reflexivity|].
  split; [cbn [flat_map]; rewrite !float32_items_f32_bytes; reflexivity|].
  assert (Hcolor : forall d x,
            unit_interval d x = true ->
            Z_of_byte (quantized legacy_promotion d 255 x)
            = truncated_product legacy_promotion d x 255).
  { intros d x H. unfold quantized.
    rewrite Z_of_byte_uint8 by exact (proj2 (quantize_color legacy_promotion d x H)).
    reflexivity. }
  assert (Hrotation : forall d x,
            unit_magnitude d x = true ->
            int8_of_byte (quantized legacy_promotion d 127 x)
            = truncated_product legacy_promotion d x 127).
  { intros d x H. unfold quantized.
    pose proof (proj2 (quantize_rotation legacy_promotion d x H)) as Hr.
    rewrite int8_of_byte_int8 by lia. reflexivity. }
  repeat split; first [apply Hcolor|apply Hrotation]; assumption.
Qed.

End WriterLayout.

Lemma write_splats_layout_witness :
  decoded_splats 1 nine_column_splats
  /\ exists out,
       write_splats true nine_column_splats 1 = (out, Ok tt) /\ length out = 32%nat.
Proof.
  assert (H : decoded_splats 1 nine_column_splats)
    by (constructor; repeat split; repeat constructor).
  split; [exact H|].
  destruct (write_splats_layout true 1 nine_column_splats H) as (out & Hw & Hl & _).
  exists out. split; [exact Hw|exact Hl].
Defined.

(** ** Files of 3 to 54 columns, end to end

    A file of fewer than 55 floats per record has its positions, from 9
    floats on its colors, and the defaults for the rest: the conversion
    returns and every record of the output is known. *)

Lemma float32_items_valid (bs : bytes) :
  Forall (fun x => valid_binary 24 128 x = true) (float32_items bs).
Proof.
  assert (H : forall n bs', (length bs' < n)%nat ->
              Forall (fun x => valid_binary 24 128 x = true) (float32_items bs')).
  { induction n as [|n IH]; intros bs' Hlen; [lia|].
    destruct bs' as [|b0 [|b1 [|b2 [|b3 rest]]]]; try constructor.
    - apply float32_of_bits_valid, word_of_le_range.
    - apply IH. cbn [length] in Hlen. lia. }
  apply (H (S (length bs))). lia.
Qed.

Lemma In_firstn {A : Type} (n : nat) (l : list A) (x : A) : In x (firstn n l) -> In x l.
Proof.
  intros H. rewrite <- (firstn_skipn n l). apply in_or_app. left. exact H.
Qed.

Lemma In_skipn {A : Type} (n : nat) (l : list A) (x : A) : In x (skipn n l) -> In x l.
Proof.
  intros H. rewrite <- (firstn_skipn n l). apply in_or_app. right. exact H.
Qed.

Lemma chunk_items (c n : nat) :
  forall flat row x, In row (chunk n c flat) -> In x row -> In x flat.
Proof.
  induction n as [|n IH]; intros flat row x Hrow Hx; [contradiction|].
  cbn [chunk] in Hrow. destruct Hrow as [<-|Hrow].
  - eapply In_firstn. exact Hx.
  - eapply In_skipn. eapply IH; eassumption.
Qed.

Lemma rows_ok_repeat (n c : nat) (ok : float -> bool) (row : list float) :
  length row = c -> forallb ok row = true -> rows_ok n c ok (repeat row n).
Proof.
  intros Hlen Hok. split; [apply repeat_length|].
  apply Forall_forall. intros r Hr. apply repeat_spec in Hr. subst r.
  split; [exact Hlen|]. apply Forall_forall. intros x Hx.
  rewrite forallb_forall in Hok. apply Hok, Hx.
Qed.

Lemma map_seq_nth_error {A B : Type} (f : nat -> B) (g : A -> B) (l : list A) :
  forall k,
    (forall i x, nth_error l i = Some x -> f (k + i)%nat = g x) ->
    map f (seq k (length l)) = map g l.
Proof.
  induction l as [|a l IH]; intros k H; [reflexivity|].
  cbn [length seq map]. f_equal.
  - rewrite <- (H 0%nat a eq_refl). f_equal. lia.
  - apply IH. intros i x Hx. rewrite <- (H (S i) x Hx). f_equal. lia.
Qed.

Section DecodedFiles.

Variable max_str_digits : nat.
Variable np_exp : dtype -> float -> float.
Variable np_linalg_norm : list float -> float.
Variable legacy_promotion : bool.

Let decode_array := decode_splats np_exp np_linalg_norm.

(** The positions of the rows of a payload fit a float32. *)
Lemma payload_positions_ok (vertex_count width : Z) (payload : bytes) :
  0 < vertex_count -> 3 <= width ->
  vertex_count * width * 4 <= Z.of_nat (length payload) ->
  rows_ok (Z.to_nat vertex_count) 3 fits_float32
    (rows (columns 0 3 (rows_of_payload vertex_count width payload))).
Proof.
  intros Hvc Hw Hlen.
  destruct (rows_of_payload_shape vertex_count width payload) as (Hrows & Hall & Hcat);
    [lia|lia|lia|].
  split; [cbn [columns rows]; rewrite length_map; exact Hrows|].
  cbn [columns rows]. apply Forall_forall. intros r Hr.
  apply in_map_iff in Hr. destruct Hr as (row & <- & Hrow).
  rewrite Forall_forall in Hall. specialize (Hall row Hrow).
  split; [cbn [skipn]; rewrite length_firstn; lia|].
  apply Forall_forall. intros x Hx. apply valid_fits_float32.
  pose proof (float32_items_valid
                (firstn (Z.to_nat (vertex_count * width * 4)) payload)) as Hv.
  rewrite Forall_forall in Hv. apply Hv.
  eapply chunk_items; [exact Hrow|]. eapply In_firstn. exact Hx.
Qed.

Lemma decode_narrow_decoded (vertex_count width : Z) (payload : bytes) :
  0 < vertex_count -> 3 <= width <= 8 ->
  vertex_count * width * 4 <= Z.of_nat (length payload) ->
  decoded_splats (Z.to_nat vertex_count)
    (decode_array vertex_count (rows_of_payload vertex_count width payload)).
Proof.
  intros Hvc Hw Hlen.
  pose proof (payload_positions_ok vertex_count width payload Hvc ltac:(lia) Hlen) as Hpos.
  unfold decode_array, decode_splats.
  assert (Hs1 : shape1 (rows_of_payload vertex_count width payload) = Z.to_nat width)
    by reflexivity.
  rewrite Hs1.
  destruct (Nat.ltb_spec 8 (Z.to_nat width)); [lia|].
  destruct (Nat.ltb_spec 54 (Z.to_nat width)); [lia|].
  destruct (Nat.ltb_spec 57 (Z.to_nat width)); [lia|].
  destruct (Nat.ltb_spec 61 (Z.to_nat width)); [lia|].
  constructor; cbn [positions scale colors opacity rot full2 full1 rows items dt dt1].
  - exact Hpos.
  - apply rows_ok_repeat; reflexivity.
  - apply rows_ok_repeat; reflexivity.
  - split; [apply repeat_length|]. apply Forall_forall. intros x Hx.
    apply repeat_spec in Hx. subst x. reflexivity.
  - apply rows_ok_repeat; reflexivity.
Qed.

(** With 9 to 54 floats per record and no NaN among the coefficients of
    the colors, the splats are decoded ones. *)
Lemma decode_colors_decoded (vertex_count width : Z) (payload : bytes) :
  0 < vertex_count -> 9 <= width <= 54 ->
  vertex_count * width * 4 <= Z.of_nat (length payload) ->
  Forall (fun row => forallb (fun x => negb (is_nan x)) (firstn 3 (skipn 6 row)) = true)
         (rows (rows_of_payload vertex_count width payload)) ->
  decoded_splats (Z.to_nat vertex_count)
    (decode_array vertex_count (rows_of_payload vertex_count width payload)).
Proof.
  intros Hvc Hw Hlen Hnan.
  pose proof (payload_positions_ok vertex_count width payload Hvc ltac:(lia) Hlen) as Hpos.
  destruct (rows_of_payload_shape vertex_count width payload) as (Hrows & Hall & _);
    [lia|lia|lia|].
  unfold decode_array, decode_splats.
  assert (Hs1 : shape1 (rows_of_payload vertex_count width payload) = Z.to_nat width)
    by reflexivity.
  rewrite Hs1.
  destruct (Nat.ltb_spec 8 (Z.to_nat width)); [|lia].
  destruct (Nat.ltb_spec 54 (Z.to_nat width)); [lia|].
  destruct (Nat.ltb_spec 57 (Z.to_nat width)); [lia|].
  destruct (Nat.ltb_spec 61 (Z.to_nat width)); [lia|].
  constructor;
    cbn [positions scale colors opacity rot full2 full1 map2 columns rows items dt dt1].
  - exact Hpos.
  - apply rows_ok_repeat; reflexivity.
  - split; [rewrite !length_map; exact Hrows|].
    rewrite map_map. apply Forall_forall. intros r Hr.
    apply in_map_iff in Hr. destruct Hr as (row & <- & Hrow).
    rewrite Forall_forall in Hall, Hnan.
    specialize (Hall row Hrow). specialize (Hnan row Hrow).
    split; [rewrite length_map, length_firstn, length_skipn; lia|].
    apply Forall_forall. intros c Hc. apply in_map_iff in Hc. destruct Hc as (x & <- & Hx).
    rewrite forallb_forall in Hnan. specialize (Hnan x Hx).
    apply sh_to_rgb_unit_interval. destruct (is_nan x); [discriminate Hnan|reflexivity].
  - split; [apply repeat_length|]. apply Forall_forall. intros x Hx.
    apply repeat_spec in Hx. subst x. reflexivity.
  - apply rows_ok_repeat; reflexivity.
Qed.

(** The record of a splat of a file of at most 8 columns. *)
Lemma compact_record_narrow (vertex_count : Z) (a : ndarray) (i : nat) (row : list float) :
  (shape1 a <= 8)%nat -> nth_error (rows a) i = Some row ->
  (i < Z.to_nat vertex_count)%nat ->
  compact_record legacy_promotion (decode_array vertex_count a) i
  = flat_map f32_bytes (firstn 3 row) ++ default_fields.
Proof.
  intros Hw Hrow Hi. unfold decode_array, decode_splats.
  destruct (Nat.ltb_spec 8 (shape1 a)); [lia|].
  destruct (Nat.ltb_spec 54 (shape1 a)); [lia|].
  destruct (Nat.ltb_spec 57 (shape1 a)); [lia|].
  destruct (Nat.ltb_spec 61 (shape1 a)); [lia|].
  unfold compact_record.
  cbn [positions scale colors opacity rot full2 full1 rows items dt dt1 columns].
  rewrite (nth_error_nth _ _ _ (nth_error_repeat_lt _ _ _ Hi)).
  rewrite !(nth_error_nth _ _ _ (nth_error_repeat_lt _ _ _ Hi)).
  erewrite (nth_error_nth (map _ (rows a)));
    [|rewrite nth_error_map, Hrow; reflexivity].
  cbn [skipn]. f_equal. destruct legacy_promotion; reflexivity.
Qed.

(** The record of a splat of a file of 9 to 54 columns: the colors are the
    bytes of the clipped values, the rest as before. *)
Lemma compact_record_colors (vertex_count : Z) (a : ndarray) (i : nat) (row : list float) :
  (9 <= shape1 a <= 54)%nat -> nth_error (rows a) i = Some row ->
  (i < Z.to_nat vertex_count)%nat ->
  compact_record legacy_promotion (decode_array vertex_count a) i
  = flat_map f32_bytes (firstn 3 row)
    ++ firstn 12 default_fields
    ++ map (fun x => quantized legacy_promotion (dt a) 255 (sh_to_rgb x))
           (firstn 3 (skipn 6 row))
    ++ skipn 15 default_fields.
Proof.
  intros Hw Hrow Hi. unfold decode_array, decode_splats.
  destruct (Nat.ltb_spec 8 (shape1 a)); [|lia].
  destruct (Nat.ltb_spec 54 (shape1 a)); [lia|].
  destruct (Nat.ltb_spec 57 (shape1 a)); [lia|].
  destruct (Nat.ltb_spec 61 (shape1 a)); [lia|].
  unfold compact_record.
  cbn [positions scale colors opacity rot full2 full1 map2 rows items dt dt1 columns].
  rewrite !(nth_error_nth _ _ _ (nth_error_repeat_lt _ _ _ Hi)).
  erewrite (nth_error_nth (map _ (rows a)));
    [|rewrite nth_error_map, Hrow; reflexivity].
  erewrite (nth_error_nth (map _ (map _ (rows a))));
    [|rewrite !nth_error_map, Hrow; reflexivity].
  change (skipn 0 row) with row. change (3 - 0)%nat with 3%nat.
  change (9 - 6)%nat with 3%nat. rewrite map_map.
  apply f_equal. apply f_equal2; [destruct legacy_promotion; reflexivity|].
  apply f_equal. destruct legacy_promotion; reflexivity.
Qed.

(** The conversion of a file whose header is ASCII, whose count is
    positive, whose payload is shorter than 62 floats per record and whose
    splats are decoded ones: it returns, with the 32 bytes of every record. *)
Lemma convert_decoded_file
    (fuel : nat) (contents header : bytes) (f : reader) (vertex_count : Z) :
  read_header fuel contents = Some (header, f) ->
  ascii_header header = true ->
  parse_vertex_count max_str_digits (decode header) = Ok vertex_count ->
  0 < vertex_count ->
  let width := Z.of_nat (length (remaining f)) / (vertex_count * 4) in
  let a := rows_of_payload vertex_count width (remaining f) in
  width < 62 ->
  decoded_splats (Z.to_nat vertex_count) (decode_array vertex_count a) ->
  exists out,
    convert_ply_to_splat max_str_digits np_exp np_linalg_norm legacy_promotion fuel contents
    = Some (mkConversion (Some out) (Ok tt))
    /\ length out = (32 * Z.to_nat vertex_count)%nat
    /\ out = List.concat (map (compact_record legacy_promotion (decode_array vertex_count a))
                            (seq 0 (length (rows a)))).
Proof.
  intros Hhdr Hascii Hparse Hvc width a Hw Hdec.
  destruct (read_header_at_payload _ _ _ _ Hhdr) as [Hf _].
  set (payload := remaining f) in *.
  destruct (inferred_width_bounds vertex_count (Z.of_nat (length payload)) Hvc ltac:(lia))
    as (Hw0 & Hneed & _). fold width in Hneed, Hw0.
  assert (Hshort : Z.of_nat (length payload) < vertex_count * 62 * 4).
  { pose proof (Z.div_mod (Z.of_nat (length payload)) (vertex_count * 4)) as Hdm.
    pose proof (Z.mod_pos_bound (Z.of_nat (length payload)) (vertex_count * 4)) as Hm.
    subst width. nia. }
  assert (Hread : read_vertex_data vertex_count header f = Ok a).
  { rewrite Hf. apply read_vertex_data_short; assumption. }
  assert (Hidx : Forall (fun i => (i < Z.to_nat vertex_count)%nat)
                        (seq 0 (Z.to_nat vertex_count))).
  { apply Forall_forall. intros i Hi. apply in_seq in Hi. lia. }
  destruct (write_loop_records legacy_promotion _ _ _ Hdec Hidx []) as [Hwrite Hlen].
  destruct (rows_of_payload_shape vertex_count width payload) as (Hrows & _ & _);
    [lia|lia|lia|]. fold a in Hrows. rewrite Hrows.
  eexists. split; [|split; [|reflexivity]].
  - unfold convert_ply_to_splat. rewrite Hhdr. unfold load_splats.
    rewrite Hparse. cbn [bind]. rewrite Hread. cbn [bind].
    unfold write_splats. fold decode_array. rewrite Hwrite. reflexivity.
  - rewrite Hlen, length_seq. reflexivity.
Qed.

(** The conversion of a file whose header is ASCII, whose count is positive
    and whose payload has 3 to 8 floats per record: it returns, and the
    output holds for every record the 12 bytes of its position and the 20
    bytes of the defaults. *)
Theorem convert_narrow_file
    (fuel : nat) (contents header : bytes) (f : reader) (vertex_count : Z) :
  read_header fuel contents = Some (header, f) ->
  ascii_header header = true ->
  parse_vertex_count max_str_digits (decode header) = Ok vertex_count ->
  0 < vertex_count ->
  let width := Z.of_nat (length (remaining f)) / (vertex_count * 4) in
  3 <= width <= 8 ->
  exists out,
    convert_ply_to_splat max_str_digits np_exp np_linalg_norm legacy_promotion fuel contents
    = Some (mkConversion (Some out) (Ok tt))
    /\ length out = (32 * Z.to_nat vertex_count)%nat
    /\ out = List.concat
               (map (fun row => flat_map f32_bytes (firstn 3 row) ++ default_fields)
                  (rows (rows_of_payload vertex_count width (remaining f)))).
Proof.
  intros Hhdr Hascii Hparse Hvc width Hw.
  destruct (inferred_width_bounds vertex_count (Z.of_nat (length (remaining f))) Hvc
              ltac:(lia)) as (_ & Hneed & _). fold width in Hneed.
  pose proof (decode_narrow_decoded vertex_count width (remaining f) Hvc Hw Hneed) as Hdec.
  destruct (convert_decoded_file fuel contents header f vertex_count Hhdr Hascii Hparse Hvc
              ltac:(fold width; lia) Hdec) as (out & Hrun & Hlen & Hout).
  exists out. split; [exact Hrun|]. split; [exact Hlen|].
  rewrite Hout. f_equal. fold width.
  set (a := rows_of_payload vertex_count width (remaining f)).
  assert (Hrows : length (rows a) = Z.to_nat vertex_count).
  { destruct (rows_of_payload_shape vertex_count width (remaining f)) as (Hrows & _ & _);
      [lia|lia|lia|exact Hrows]. }
  apply (map_seq_nth_error _ _ (rows a) 0). intros i row Hrow. cbn [Nat.add].
  assert (Hi : (i < length (rows a))%nat) by (apply nth_error_Some; congruence).
  apply (compact_record_narrow vertex_count a i row); [cbn; lia|exact Hrow|lia].
Qed.

(** The same with 9 to 54 floats per record, none of the coefficients of
    the colors a NaN: every record holds the position, the default scale, the
    three color bytes of the clipped values, the default opacity and
    rotation. *)
Theorem convert_color_file
    (fuel : nat) (contents header : bytes) (f : reader) (vertex_count : Z) :
  read_header fuel contents = Some (header, f) ->
  ascii_header header = true ->
  parse_vertex_count max_str_digits (decode header) = Ok vertex_count ->
  0 < vertex_count ->
  let width := Z.of_nat (length (remaining f)) / (vertex_count * 4) in
  let a := rows_of_payload vertex_count width (remaining f) in
  9 <= width <= 54 ->
  Forall (fun row => forallb (fun x => negb (is_nan x)) (firstn 3 (skipn 6 row)) = true)
         (rows a) ->
  exists out,
    convert_ply_to_splat max_str_digits np_exp np_linalg_norm legacy_promotion fuel contents
    = Some (mkConversion (Some out) (Ok tt))
    /\ length out = (32 * Z.to_nat vertex_count)%nat
    /\ out = List.concat
               (map (fun row =>
                       flat_map f32_bytes (firstn 3 row)
                       ++ firstn 12 default_fields
                       ++ map (fun x => quantized legacy_promotion float32 255 (sh_to_rgb x))
                              (firstn 3 (skipn 6 row))
                       ++ skipn 15 default_fields)
                  (rows a)).
Proof.
  intros Hhdr Hascii Hparse Hvc width a Hw Hnan.
  destruct (inferred_width_bounds vertex_count (Z.of_nat (length (remaining f))) Hvc
              ltac:(lia)) as (_ & Hneed & _). fold width in Hneed.
  pose proof (decode_colors_decoded vertex_count width (remaining f) Hvc Hw Hneed Hnan)
    as Hdec.
  destruct (convert_decoded_file fuel contents header f vertex_count Hhdr Hascii Hparse Hvc
              ltac:(fold width; lia) Hdec) as (out & Hrun & Hlen & Hout).
  exists out. split; [exact Hrun|]. split; [exact Hlen|].
  rewrite Hout. f_equal. fold width. fold a.
  assert (Hrows : length (rows a) = Z.to_nat vertex_count).
  { destruct (rows_of_payload_shape vertex_count width (remaining f)) as (Hrows & _ & _);
      [lia|lia|lia|exact Hrows]. }
  apply (map_seq_nth_error _ _ (rows a) 0). intros i row Hrow. cbn [Nat.add].
  assert (Hi : (i < length (rows a))%nat) by (apply nth_error_Some; congruence).
  apply (compact_record_colors vertex_count a i row);
    [cbn [a rows_of_payload shape1]; lia|exact Hrow|lia].
Qed.

End DecodedFiles.

(** ** The size of the output *)

Lemma pack_f_length (x : float) (b : bytes) : pack_f x = Ok b -> length b = 4%nat.
Proof.
  unfold pack_f. destruct (is_finite x && negb (is_finite (round_to float32 x)));
    [discriminate|]. intros H. injection H as <-. reflexivity.
Qed.

Lemma pack_fff_length (row : list float) (b : bytes) :
  pack_fff row = Ok b -> length b = 12%nat.
Proof.
  destruct row as [|x [|y [|z [|]]]]; try discriminate. cbn [pack_fff].
  destruct (pack_f x) as [px|] eqn:Hx; [|discriminate].
  destruct (pack_f y) as [py|] eqn:Hy; [|discriminate].
  destruct (pack_f z) as [pz|] eqn:Hz; [|discriminate].
  cbn [bind]. intros H. injection H as <-.
  rewrite !length_app, (pack_f_length _ _ Hx), (pack_f_length _ _ Hy), (pack_f_length _ _ Hz).
  reflexivity.
Qed.

Lemma pack_B_length (n : Z) (b : bytes) : pack_B n = Ok b -> length b = 1%nat.
Proof.
  unfold pack_B. destruct ((0 <=? n) && (n <=? 255)); [|discriminate].
  intros H. injection H as <-. reflexivity.
Qed.

Lemma pack_b_length (n : Z) (b : bytes) : pack_b n = Ok b -> length b = 1%nat.
Proof.
  unfold pack_b. destruct ((-128 <=? n) && (n <=? 127)); [|discriminate].
  intros H. injection H as <-. reflexivity.
Qed.

Lemma pack_BBBB_length (r g b a : Z) (bs : bytes) :
  pack_BBBB r g b a = Ok bs -> length bs = 4%nat.
Proof.
  unfold pack_BBBB.
  destruct (pack_B r) as [pr|] eqn:Hr; [|discriminate].
  destruct (pack_B g) as [pg|] eqn:Hg; [|discriminate].
  destruct (pack_B b) as [pb|] eqn:Hb; [|discriminate].
  destruct (pack_B a) as [pa|] eqn:Ha; [|discriminate].
  cbn [bind]. intros H. injection H as <-.
  rewrite !length_app, (pack_B_length _ _ Hr), (pack_B_length _ _ Hg),
    (pack_B_length _ _ Hb), (pack_B_length _ _ Ha). reflexivity.
Qed.

Lemma pack_bbbb_length (w x y z : Z) (bs : bytes) :
  pack_bbbb w x y z = Ok bs -> length bs = 4%nat.
Proof.
  unfold pack_bbbb.
  destruct (pack_b w) as [pw|] eqn:Hw; [|discriminate].
  destruct (pack_b x) as [px|] eqn:Hx; [|discriminate].
  destruct (pack_b y) as [py|] eqn:Hy; [|discriminate].
  destruct (pack_b z) as [pz|] eqn:Hz; [|discriminate].
  cbn [bind]. intros H. injection H as <-.
  rewrite !length_app, (pack_b_length _ _ Hw), (pack_b_length _ _ Hx),
    (pack_b_length _ _ Hy), (pack_b_length _ _ Hz). reflexivity.
Qed.

Lemma bind_ok {A B : Type} (c : result A) (k : A -> result B) (b : B) :
  bind c k = Ok b -> exists a, c = Ok a /\ k a = Ok b.
Proof. destruct c as [a|e]; [eauto|discriminate]. Qed.

Section OutputSize.

Variable legacy_promotion : bool.

(** One iteration adds the 32 bytes of a record, or raises and leaves the
    first fields of it. *)
Lemma write_splat_length (s : splats) (i : nat) (out : bytes) :
  (snd (write_splat legacy_promotion s i out) = Ok tt /\
   length (fst (write_splat legacy_promotion s i out)) = (length out + 32)%nat)
  \/ (exists e r, snd (write_splat legacy_promotion s i out) = Raise e /\
        In r partial_record_sizes /\
        length (fst (write_splat legacy_promotion s i out)) = (length out + r)%nat).
Proof.
  unfold write_splat, partial_record_sizes.
  destruct (bind (row_at (positions s) i) _) as [b_pos|e] eqn:Hpos.
  2:{ right. exists e, 0%nat. cbn. auto with arith. }
  apply bind_ok in Hpos. destruct Hpos as (p & _ & Hpos). apply pack_fff_length in Hpos.
  destruct (bind (row_at (scale s) i) _) as [b_scale|e] eqn:Hsc.
  2:{ right. exists e, 12%nat. cbn [fst snd]. rewrite length_app, Hpos. cbn; auto. }
  apply bind_ok in Hsc. destruct Hsc as (sc & _ & Hsc). apply pack_fff_length in Hsc.
  match goal with
  | |- context [match ?c with Ok _ => _ | Raise _ => _ end] =>
      destruct c as [b_color|e] eqn:Hcol
  end.
  2:{ right. exists e, 24%nat. cbn [fst snd]. rewrite !length_app, Hpos, Hsc.
      cbn; split; [reflexivity|]. split; [auto|lia]. }
  do 8 (apply bind_ok in Hcol; destruct Hcol as (? & _ & Hcol)).
  apply pack_BBBB_length in Hcol.
  match goal with
  | |- context [match ?c with Ok _ => _ | Raise _ => _ end] =>
      destruct c as [b_rot|e] eqn:Hrot
  end.
  2:{ right. exists e, 28%nat. cbn [fst snd]. rewrite !length_app, Hpos, Hsc, Hcol.
      cbn; split; [reflexivity|]. split; [auto|lia]. }
  do 8 (apply bind_ok in Hrot; destruct Hrot as (? & _ & Hrot)).
  apply pack_bbbb_length in Hrot.
  left. cbn [fst snd]. rewrite !length_app, Hpos, Hsc, Hcol, Hrot. split; [reflexivity|lia].
Qed.

Lemma write_loop_length (s : splats) (indices : list nat) :
  forall out,
    (snd (write_loop legacy_promotion s indices out) = Ok tt /\
     length (fst (write_loop legacy_promotion s indices out))
     = (length out + 32 * length indices)%nat)
    \/ (exists e k r, snd (write_loop legacy_promotion s indices out) = Raise e /\
          (k < length indices)%nat /\ In r partial_record_sizes /\
          length (fst (write_loop legacy_promotion s indices out))
          = (length out + 32 * k + r)%nat).
Proof.
  induction indices as [|i rest IH]; intros out; cbn [write_loop].
  - left. cbn. split; [reflexivity|lia].
  - destruct (write_splat_length s i out) as [[Hst Hlen]|(e & r & Hst & Hr & Hlen)];
      destruct (write_splat legacy_promotion s i out) as [out' st]; cbn [fst snd] in *;
      subst st.
    + destruct (IH out') as [[Hst' Hlen']|(e & k & r & Hst' & Hk & Hr & Hlen')].
      * left. split; [exact Hst'|]. rewrite Hlen', Hlen. cbn [length]. lia.
      * right. exists e, (S k), r. split; [exact Hst'|]. cbn [length].
        split; [lia|]. split; [exact Hr|]. rewrite Hlen', Hlen. lia.
    + right. exists e, 0%nat, r. cbn [fst snd length].
      split; [reflexivity|]. split; [lia|]. split; [exact Hr|]. lia.
Qed.

End OutputSize.

Section ConversionOutcome.

Variable max_str_digits : nat.
Variable np_exp : dtype -> float -> float.
Variable np_linalg_norm : list float -> float.
Variable legacy_promotion : bool.

Let convert := convert_ply_to_splat max_str_digits np_exp np_linalg_norm legacy_promotion.



End ConversionOutcome.



(** ** Where the header ends *)

Lemma header_loop_first_marker (fuel : nat) :
  forall header f header' f',
    header_loop fuel (header, f) = Some (header', f') ->
    exists before line,
      header' = header ++ List.concat before ++ line
      /\ Forall no_marker before /\ has_marker line
      /\ file_lines (remaining f) = before ++ line :: file_lines (remaining f')
      /\ (length before < fuel)%nat.
Proof.
  induction fuel as [|fuel IH]; intros header f header' f' Hrun; [discriminate Hrun|].
  cbn [header_loop header_step] in Hrun.
  destruct (readline f) as [line g] eqn:Hrl.
  assert (Hline : line = take_line (remaining f)) by (unfold readline in Hrl; congruence).
  assert (Hg : g = snd (readline f)) by (rewrite Hrl; reflexivity).
  destruct (contains end_header line) eqn:Hc.
  - injection Hrun as <- <-. exists [], line. cbn [List.concat app length].
    split; [reflexivity|]. split; [constructor|]. split; [exact Hc|]. split; [|lia].
    assert (Hne : remaining f <> []).
    { intros Hnil. rewrite Hnil in Hline. cbn in Hline. subst line. discriminate Hc. }
    rewrite (file_lines_unfold _ Hne), <- Hline, Hg, remaining_readline, <- Hline.
    reflexivity.
  - destruct (IH _ _ _ _ Hrun) as (before & l & Hh & Hno & Hm & Hlines & Hlen).
    destruct (remaining f) as [|b bs] eqn:Hrem.
    + (* at the end of the file: nothing is read and no line is left *)
      exfalso. assert (Hrem' : remaining g = []).
      { rewrite Hg, remaining_readline, Hrem. reflexivity. }
      rewrite Hrem' in Hlines. destruct before; discriminate Hlines.
    + exists (line :: before), l. cbn [List.concat length].
      split; [rewrite Hh, <- !app_assoc; reflexivity|].
      split; [constructor; [exact Hc|exact Hno]|]. split; [exact Hm|]. split; [|lia].
      rewrite (file_lines_unfold (b :: bs)) by discriminate.
      rewrite <- Hline. cbn [app]. f_equal.
      rewrite <- Hlines, Hg, remaining_readline, Hrem, <- Hline. reflexivity.
Qed.

(** X3. The header is the lines of the file up to and including the first
    line in which [end_header] occurs, anywhere in the line; the vertex data
    are the bytes after that line. No earlier line contains the marker, and
    the loop has run once per line of the header. *)
Theorem read_header_first_marker (fuel : nat) (contents header : bytes) (f : reader) :
  read_header fuel contents = Some (header, f) ->
  exists before line,
    header = List.concat before ++ line
    /\ Forall (fun l => contains end_header l = false) before
    /\ contains end_header line = true
    /\ file_lines contents = before ++ line :: file_lines (remaining f)
    /\ contents = header ++ remaining f
    /\ (length before < fuel)%nat.
Proof.
  intros Hrun.
  destruct (read_header_at_payload _ _ _ _ Hrun) as [_ Hcat].
  destruct (header_loop_first_marker fuel [] (open_rb contents) header f Hrun)
    as (before & line & Hh & Hno & Hm & Hlines & Hlen).
  exists before, line. repeat split; assumption.
Qed.

Lemma read_header_first_marker_witness :
  exists before line,
    header_one_vertex = List.concat before ++ line
    /\ Forall (fun l => contains end_header l = false) before
    /\ contains end_header line = true
    /\ file_lines file_3_floats = before ++ line :: file_lines payload_3_floats
    /\ (length before < 10)%nat.
Proof.
  destruct (read_header_first_marker 10 file_3_floats header_one_vertex
              (at_payload header_one_vertex payload_3_floats) eq_refl)
    as (before & line & H1 & H2 & H3 & H4 & _ & H5).
  exists before, line. repeat split; assumption.
Defined.

(** ** The bytes of a record, from the input to the output *)

Lemma float32_items_short (bs : bytes) : (length bs < 4)%nat -> float32_items bs = [].
Proof.
  destruct bs as [|b0 [|b1 [|b2 [|b3 rest]]]]; cbn [length float32_items]; intros H;
    try reflexivity. lia.
Qed.

Lemma float32_items_firstn (c : nat) :
  forall bs, firstn c (float32_items bs) = float32_items (firstn (4 * c) bs).
Proof.
  induction c as [|c IH]; intros bs; [reflexivity|].
  replace (4 * S c)%nat with (S (S (S (S (4 * c))))) by lia.
  destruct bs as [|b0 [|b1 [|b2 [|b3 rest]]]]; try reflexivity.
  cbn [float32_items firstn]. rewrite IH. reflexivity.
Qed.

Lemma float32_items_skipn (c : nat) :
  forall bs, skipn c (float32_items bs) = float32_items (skipn (4 * c) bs).
Proof.
  induction c as [|c IH]; intros bs; [reflexivity|].
  replace (4 * S c)%nat with (S (S (S (S (4 * c))))) by lia.
  destruct bs as [|b0 [|b1 [|b2 [|b3 rest]]]];
    try (cbn [float32_items skipn]; rewrite ?skipn_nil; reflexivity).
  cbn [float32_items skipn]. apply IH.
Qed.

Lemma skipn_add {A : Type} (a b : nat) :
  forall l : list A, skipn a (skipn b l) = skipn (b + a) l.
Proof.
  induction b as [|b IH]; intros l; [reflexivity|].
  destruct l as [|x l]; [rewrite !skipn_nil; reflexivity|]. cbn [skipn Nat.add]. apply IH.
Qed.

Lemma nth_error_chunk (c : nat) :
  forall n flat i, (i < n)%nat ->
    nth_error (chunk n c flat) i = Some (firstn c (skipn (c * i) flat)).
Proof.
  induction n as [|n IH]; intros flat i Hi; [lia|].
  destruct i as [|i]; cbn [chunk nth_error].
  - rewrite Nat.mul_0_r. reflexivity.
  - rewrite IH by lia. rewrite skipn_add. do 3 f_equal. lia.
Qed.

(** The row of a record holds the float32 values of its bytes. *)
Lemma rows_of_payload_record (n w : Z) (payload : bytes) (i : nat) (row : list float) :
  0 <= n -> 0 <= w -> n * w * 4 <= Z.of_nat (length payload) ->
  nth_error (rows (rows_of_payload n w payload)) i = Some row ->
  (i < Z.to_nat n)%nat /\ row = float32_items (record_at (Z.to_nat w) payload i).
Proof.
  intros Hn Hw Hlen Hrow. cbn [rows_of_payload rows] in Hrow.
  assert (Hi : (i < Z.to_nat n)%nat).
  { destruct (rows_of_payload_shape n w payload Hn Hw Hlen) as (Hrows & _ & _).
    rewrite <- Hrows. apply nth_error_Some. cbn [rows_of_payload rows]. congruence. }
  split; [exact Hi|].
  rewrite (nth_error_chunk _ _ _ _ Hi) in Hrow. injection Hrow as <-.
  rewrite float32_items_skipn, float32_items_firstn. unfold record_at. f_equal.
  rewrite skipn_firstn_comm, firstn_firstn. f_equal; [|f_equal; lia].
  apply Nat.min_l.
  replace (Z.to_nat (n * w * 4)) with (4 * Z.to_nat w * Z.to_nat n)%nat by nia.
  nia.
Qed.

(** Three values read from twelve bytes and packed again are the twelve
    bytes, when none is a NaN. *)
Lemma f32_bytes_of_items (bs : bytes) :
  (12 <= length bs)%nat ->
  forallb (fun x => negb (is_nan x)) (firstn 3 (float32_items bs)) = true ->
  flat_map f32_bytes (firstn 3 (float32_items bs)) = firstn 12 bs.
Proof.
  intros Hlen Hnan.
  destruct bs as [|a0 [|a1 [|a2 [|a3 [|b0 [|b1 [|b2 [|b3 [|c0 [|c1 [|c2 [|c3 rest]]]]]]]]]]]];
    cbn [length] in Hlen; try lia.
  cbn [float32_items firstn flat_map forallb] in *.
  apply andb_prop in Hnan. destruct Hnan as [Ha Hnan].
  apply andb_prop in Hnan. destruct Hnan as [Hb Hnan].
  apply andb_prop in Hnan. destruct Hnan as [Hc _].
  apply negb_true_iff in Ha, Hb, Hc.
  rewrite (proj1 (f32_bytes_raw _ _ _ _ Ha)), (proj1 (f32_bytes_raw _ _ _ _ Hb)),
    (proj1 (f32_bytes_raw _ _ _ _ Hc)). reflexivity.
Qed.

Lemma record_at_length (w : nat) (payload : bytes) (n i : nat) :
  (4 * w * n <= length payload)%nat -> (i < n)%nat ->
  length (record_at w payload i) = (4 * w)%nat.
Proof.
  intros Hlen Hi. unfold record_at. rewrite length_firstn, length_skipn. nia.
Qed.

Section RecordBytes.

Variable max_str_digits : nat.
Variable np_exp : dtype -> float -> float.
Variable np_linalg_norm : list float -> float.
Variable legacy_promotion : bool.

Let convert := convert_ply_to_splat max_str_digits np_exp np_linalg_norm legacy_promotion.

(** X4. A file with 3 to 8 floats per record, none of its coordinates a
    NaN: the conversion returns, and record [i] of the output is the first
    12 bytes of record [i] of the input, as they are, followed by the 20
    bytes of the defaults. What follows the coordinates within a record
    does not reach the output. *)
Theorem convert_positions_only
    (fuel : nat) (contents header : bytes) (f : reader) (vertex_count : Z) :
  read_header fuel contents = Some (header, f) ->
  ascii_header header = true ->
  parse_vertex_count max_str_digits (decode header) = Ok vertex_count ->
  readable_count vertex_count ->
  0 < vertex_count ->
  let payload := remaining f in
  let width := Z.of_nat (length payload) / (vertex_count * 4) in
  3 <= width <= 8 ->
  (forall i, (i < Z.to_nat vertex_count)%nat ->
     forallb (fun x => negb (is_nan x))
       (float32_items (firstn 12 (record_at (Z.to_nat width) payload i))) = true) ->
  convert fuel contents
  = Some (mkConversion
            (Some (List.concat
                     (map (fun i => firstn 12 (record_at (Z.to_nat width) payload i)
                                    ++ default_fields)
                        (seq 0 (Z.to_nat vertex_count)))))
            (Ok tt)).
Proof.
  intros Hhdr Hascii Hparse _ Hvc payload width Hw Hnan.
  destruct (convert_narrow_file max_str_digits np_exp np_linalg_norm legacy_promotion
              fuel contents header f vertex_count Hhdr Hascii Hparse Hvc Hw)
    as (out & Hrun & _ & Hout).
  fold payload width in Hout. unfold convert. rewrite Hrun, Hout. do 4 f_equal.
  destruct (inferred_width_bounds vertex_count (Z.of_nat (length payload)) Hvc ltac:(lia))
    as (_ & Hneed & _). fold width in Hneed.
  set (a := rows_of_payload vertex_count width payload).
  assert (Hrows : length (rows a) = Z.to_nat vertex_count).
  { destruct (rows_of_payload_shape vertex_count width payload) as (Hrows & _ & _);
      [lia|lia|lia|exact Hrows]. }
  symmetry. rewrite <- Hrows.
  apply (map_seq_nth_error _ _ (rows a) 0). intros i row Hrow. cbn [Nat.add].
  destruct (rows_of_payload_record vertex_count width payload i row
              ltac:(lia) ltac:(lia) Hneed Hrow) as [Hi ->].
  f_equal. specialize (Hnan i Hi).
  assert (Hlen : length (record_at (Z.to_nat width) payload i) = (4 * Z.to_nat width)%nat).
  { apply (record_at_length _ _ (Z.to_nat vertex_count)); [nia|exact Hi]. }
  pose proof (float32_items_firstn 3 (record_at (Z.to_nat width) payload i)) as Efirst.
  change (4 * 3)%nat with 12%nat in Efirst. rewrite <- Efirst in Hnan.
  symmetry. apply f32_bytes_of_items; [lia|exact Hnan].
Qed.

(** X5. A file with 9 to 54 floats per record, none of its coordinates
    and none of its three color coefficients a NaN: the conversion returns,
    and record [i] of the output is the first 12 bytes of record [i] of the
    input, the default scale, one byte for each of the floats 6, 7 and 8 of
    the record, [int(clip(x * 0.28209479177387814 + 0.5, 0, 1) * 255)], and
    the default opacity and rotation. *)
Theorem convert_positions_colors
    (fuel : nat) (contents header : bytes) (f : reader) (vertex_count : Z) :
  read_header fuel contents = Some (header, f) ->
  ascii_header header = true ->
  parse_vertex_count max_str_digits (decode header) = Ok vertex_count ->
  readable_count vertex_count ->
  0 < vertex_count ->
  let payload := remaining f in
  let width := Z.of_nat (length payload) / (vertex_count * 4) in
  let record := record_at (Z.to_nat width) payload in
  9 <= width <= 54 ->
  (forall i, (i < Z.to_nat vertex_count)%nat ->
     forallb (fun x => negb (is_nan x)) (float32_items (firstn 12 (record i))) = true
     /\ forallb (fun x => negb (is_nan x))
          (float32_items (firstn 12 (skipn 24 (record i)))) = true) ->
  convert fuel contents
  = Some (mkConversion
            (Some (List.concat
                     (map (fun i =>
                             firstn 12 (record i)
                             ++ firstn 12 default_fields
                             ++ map (fun x => quantized legacy_promotion float32 255
                                                (sh_to_rgb x))
                                    (float32_items (firstn 12 (skipn 24 (record i))))
                             ++ skipn 15 default_fields)
                        (seq 0 (Z.to_nat vertex_count)))))
            (Ok tt)).
Proof.
  intros Hhdr Hascii Hparse _ Hvc payload width record Hw Hnan.
  destruct (inferred_width_bounds vertex_count (Z.of_nat (length payload)) Hvc ltac:(lia))
    as (_ & Hneed & _). fold width in Hneed.
  set (a := rows_of_payload vertex_count width payload).
  assert (Hrows : length (rows a) = Z.to_nat vertex_count).
  { destruct (rows_of_payload_shape vertex_count width payload) as (Hrows & _ & _);
      [lia|lia|lia|exact Hrows]. }
  assert (Hrec : forall i row, nth_error (rows a) i = Some row ->
            (i < Z.to_nat vertex_count)%nat
            /\ firstn 3 row = float32_items (firstn 12 (record i))
            /\ firstn 3 (skipn 6 row) = float32_items (firstn 12 (skipn 24 (record i)))
            /\ (12 <= length (record i))%nat).
  { intros i row Hrow.
    destruct (rows_of_payload_record vertex_count width payload i row
                ltac:(lia) ltac:(lia) Hneed Hrow) as [Hi ->].
    fold (record i). split; [exact Hi|].
    pose proof (float32_items_firstn 3 (record i)) as E1.
    pose proof (float32_items_skipn 6 (record i)) as E2.
    pose proof (float32_items_firstn 3 (skipn 24 (record i))) as E3.
    change (4 * 3)%nat with 12%nat in E1, E3. change (4 * 6)%nat with 24%nat in E2.
    rewrite E2, E1, E3. repeat split.
    unfold record. rewrite (record_at_length _ _ (Z.to_nat vertex_count)); [lia|nia|exact Hi]. }
  assert (Hcolors : Forall (fun row => forallb (fun x => negb (is_nan x))
                                         (firstn 3 (skipn 6 row)) = true) (rows a)).
  { apply Forall_forall. intros row Hin. apply In_nth_error in Hin.
    destruct Hin as [i Hrow]. destruct (Hrec i row Hrow) as (Hi & _ & -> & _).
    apply (Hnan i Hi). }
  destruct (convert_color_file max_str_digits np_exp np_linalg_norm legacy_promotion
              fuel contents header f vertex_count Hhdr Hascii Hparse Hvc Hw Hcolors)
    as (out & Hrun & _ & Hout).
  fold payload width a in Hout. unfold convert. rewrite Hrun, Hout. do 4 f_equal.
  symmetry. rewrite <- Hrows.
  apply (map_seq_nth_error _ _ (rows a) 0). intros i row Hrow. cbn [Nat.add].
  destruct (Hrec i row Hrow) as (Hi & E1 & E2 & Hlen).
  destruct (Hnan i Hi) as [Hpos _].
  rewrite E2. f_equal. rewrite E1 in *.
  pose proof (float32_items_firstn 3 (record i)) as Efirst.
  change (4 * 3)%nat with 12%nat in Efirst. rewrite <- Efirst in Hpos |- *.
  symmetry. apply f32_bytes_of_items; assumption.
Qed.

End RecordBytes.

Lemma convert_positions_only_witness :
  convert_ply_to_splat default_max_str_digits sample_exp sample_norm true 10 file_3_floats
  = Some (mkConversion (Some (payload_3_floats ++ default_fields)) (Ok tt)).
Proof.
  refine (eq_trans
            (convert_positions_only default_max_str_digits sample_exp sample_norm true
               10 file_3_floats header_one_vertex
               (at_payload header_one_vertex payload_3_floats) 1 _ _ _ _ _ _ _) _).
  - vm_compute; reflexivity.
  - vm_compute; reflexivity.
  - vm_compute; reflexivity.
  - unfold readable_count. lia.
  - lia.
  - vm_compute. split; discriminate.
  - intros i Hi. replace i with 0%nat by (cbn in Hi; lia). vm_compute; reflexivity.
  - vm_compute; reflexivity.
Defined.

Lemma convert_positions_colors_witness :
  convert_ply_to_splat default_max_str_digits sample_exp sample_norm true 10 file_9_floats
  = Some (mkConversion
            (Some (payload_3_floats ++ firstn 12 default_fields
                   ++ [xc7; xc7; xc7] ++ skipn 15 default_fields))
            (Ok tt)).
Proof.
  refine (eq_trans
            (convert_positions_colors default_max_str_digits sample_exp sample_norm true
               10 file_9_floats header_one_vertex
               (at_payload header_one_vertex payload_9_floats) 1 _ _ _ _ _ _ _) _).
  - vm_compute; reflexivity.
  - vm_compute; reflexivity.
  - vm_compute; reflexivity.
  - unfold readable_count. lia.
  - lia.
  - vm_compute. split; discriminate.
  - intros i Hi. replace i with 0%nat by (cbn in Hi; lia). vm_compute. split; reflexivity.
  - vm_compute; reflexivity.
Defined.

(** ** A NaN among the colors *)

Lemma quantize_nan (legacy_promotion : bool) (d : dtype) (k : Z) :
  quantize legacy_promotion d S754_nan k = Raise (ValueError FloatNaNToInt).
Proof. unfold quantize, scalar_times_int. destruct legacy_promotion, d; reflexivity. Qed.

Lemma sh_to_rgb_nan : sh_to_rgb S754_nan = S754_nan.
Proof. reflexivity. Qed.

Lemma write_loop_app (legacy_promotion : bool) (s : splats) (l1 l2 : list nat) :
  forall out,
    write_loop legacy_promotion s (l1 ++ l2) out
    = match write_loop legacy_promotion s l1 out with
      | (out', Ok _) => write_loop legacy_promotion s l2 out'
      | (out', Raise e) => (out', Raise e)
      end.
Proof.
  induction l1 as [|i l1 IH]; intros out; [reflexivity|].
  cbn [app write_loop]. destruct (write_splat legacy_promotion s i out) as [out' [u|e]];
    [apply IH|reflexivity].
Qed.

Section NaNColor.

Variable max_str_digits : nat.
Variable np_exp : dtype -> float -> float.
Variable np_linalg_norm : list float -> float.
Variable legacy_promotion : bool.

Let convert := convert_ply_to_splat max_str_digits np_exp np_linalg_norm legacy_promotion.
Let decode_array := decode_splats np_exp np_linalg_norm.

(** The record of a splat of a file of 9 to 54 columns, from its row. *)
Lemma write_splat_color_row (vertex_count : Z) (a : ndarray) (i : nat) (row : list float) :
  (9 <= shape1 a <= 54)%nat -> dt a = float32 ->
  nth_error (rows a) i = Some row -> (9 <= length row)%nat ->
  (i < Z.to_nat vertex_count)%nat ->
  Forall (fun x => valid_binary 24 128 x = true) row ->
  forall out,
    write_splat legacy_promotion (decode_array vertex_count a) i out
    = if forallb (fun x => negb (is_nan x)) (firstn 3 (skipn 6 row))
      then (out ++ compact_record legacy_promotion (decode_array vertex_count a) i, Ok tt)
      else (out ++ flat_map f32_bytes (firstn 3 row) ++ firstn 12 default_fields,
            Raise (ValueError FloatNaNToInt)).
Proof.
  intros Hw Hdt Hrow Hlen Hi Hvalid out.
  destruct row as [|x0 [|x1 [|x2 [|x3 [|x4 [|x5 [|x6 [|x7 [|x8 rest]]]]]]]]];
    cbn [length] in Hlen; try lia.
  assert (Hfit : Forall (fun x => fits_float32 x = true) [x0; x1; x2]).
  { rewrite Forall_forall in Hvalid. apply Forall_forall. intros x Hx.
    apply valid_fits_float32, Hvalid. cbn in Hx |- *. tauto. }
  unfold compact_record, write_splat, row_at, item_at, item1_at, row_at.
  unfold decode_array, decode_splats.
  destruct (Nat.ltb_spec 8 (shape1 a)); [|lia].
  destruct (Nat.ltb_spec 54 (shape1 a)); [lia|].
  destruct (Nat.ltb_spec 57 (shape1 a)); [lia|].
  destruct (Nat.ltb_spec 61 (shape1 a)); [lia|].
  cbn [positions scale colors opacity rot full2 full1 map2 rows items dt dt1 columns].
  rewrite !(nth_error_nth _ _ _ (nth_error_repeat_lt _ _ _ Hi)).
  erewrite (nth_error_nth (map _ (rows a))); [|rewrite nth_error_map, Hrow; reflexivity].
  erewrite (nth_error_nth (map _ (map _ (rows a))));
    [|rewrite !nth_error_map, Hrow; reflexivity].
  rewrite !nth_error_map, Hrow, !(nth_error_repeat_lt _ _ _ Hi), Hdt.
  cbn [option_map bind firstn skipn Nat.sub map nth_error forallb].
  rewrite (pack_fff_fits _ _ _ Hfit).
  assert (Hscale : pack_fff [lit_0_01; lit_0_01; lit_0_01]
                   = Ok (firstn 12 default_fields)) by reflexivity.
  rewrite Hscale.
  assert (Hscale' : flat_map f32_bytes [lit_0_01; lit_0_01; lit_0_01]
                    = firstn 12 default_fields) by reflexivity.
  rewrite Hscale'.
  assert (Hq : forall x, is_nan x = false ->
            quantize legacy_promotion float32 (sh_to_rgb x) 255
            = Ok (truncate_toward_zero
                    (scalar_times_int legacy_promotion float32 (sh_to_rgb x) 255))
            /\ 0 <= truncate_toward_zero
                      (scalar_times_int legacy_promotion float32 (sh_to_rgb x) 255) <= 255).
  { intros x Hx. apply quantize_color, sh_to_rgb_unit_interval, Hx. }
  assert (Hn : forall x, is_nan x = true ->
            quantize legacy_promotion float32 (sh_to_rgb x) 255
            = Raise (ValueError FloatNaNToInt)).
  { intros x Hx. destruct x; try discriminate Hx. rewrite sh_to_rgb_nan. apply quantize_nan. }
  destruct (is_nan x6) eqn:H6; cbn [negb andb].
  { rewrite (Hn x6 H6). cbn [bind]. rewrite <- !app_assoc. reflexivity. }
  destruct (Hq x6 H6) as [E6 R6]. rewrite E6. cbn [bind].
  destruct (is_nan x7) eqn:H7; cbn [negb andb].
  { rewrite (Hn x7 H7). cbn [bind]. rewrite <- !app_assoc. reflexivity. }
  destruct (Hq x7 H7) as [E7 R7]. rewrite E7. cbn [bind].
  destruct (is_nan x8) eqn:H8; cbn [negb andb].
  { rewrite (Hn x8 H8). cbn [bind]. rewrite <- !app_assoc. reflexivity. }
  destruct (Hq x8 H8) as [E8 R8]. rewrite E8. cbn [bind].
  assert (Ho : quantize legacy_promotion float64 lit_0_8 255 = Ok 204)
    by (destruct legacy_promotion; reflexivity).
  rewrite Ho. cbn [bind]. unfold pack_BBBB. rewrite !pack_B_range by (assumption || lia).
  cbn [bind].
  assert (Hr1 : quantize legacy_promotion float64 one 127 = Ok 127)
    by (destruct legacy_promotion; reflexivity).
  assert (Hr0 : quantize legacy_promotion float64 zero 127 = Ok 0)
    by (destruct legacy_promotion; reflexivity).
  rewrite Hr1, Hr0. cbn [bind].
  assert (Hrot : pack_bbbb 127 0 0 0 = Ok (skipn 16 default_fields)) by reflexivity.
  rewrite Hrot.
  f_equal. rewrite <- !app_assoc. do 3 f_equal.
  unfold quantized. cbn [app]. do 3 f_equal.
  destruct legacy_promotion; reflexivity.
Qed.

Lemma write_loop_ok (s : splats) (indices : list nat) :
  (forall j out, In j indices ->
     snd (write_splat legacy_promotion s j out) = Ok tt) ->
  forall out,
    snd (write_loop legacy_promotion s indices out) = Ok tt
    /\ length (fst (write_loop legacy_promotion s indices out))
       = (length out + 32 * length indices)%nat.
Proof.
  intros Hall out.
  assert (Hst : forall out, snd (write_loop legacy_promotion s indices out) = Ok tt).
  { clear out. induction indices as [|j rest IH]; intros out; [reflexivity|].
    cbn [write_loop]. pose proof (Hall j out (or_introl eq_refl)) as Hj.
    destruct (write_splat legacy_promotion s j out) as [out' st]. cbn [snd] in Hj. subst st.
    apply IH. intros k o Hk. apply Hall. right. exact Hk. }
  split; [apply Hst|].
  destruct (write_loop_length legacy_promotion s indices out)
    as [[_ Hlen]|(e & k & r & Hraise & _)]; [exact Hlen|].
  rewrite Hst in Hraise. discriminate Hraise.
Qed.

(** X6. A file with 9 to 54 floats per record in which record [i] is the
    first with a NaN among its three color coefficients: the conversion
    raises [ValueError] at [int()], in the iteration of record [i]. The
    output file is left with the [i] records before it and the position and
    the scale of record [i]: [32 * i + 24] bytes. *)
Theorem convert_nan_color
    (fuel : nat) (contents header : bytes) (f : reader) (vertex_count : Z) (i : nat) :
  read_header fuel contents = Some (header, f) ->
  ascii_header header = true ->
  parse_vertex_count max_str_digits (decode header) = Ok vertex_count ->
  readable_count vertex_count ->
  0 < vertex_count ->
  let payload := remaining f in
  let width := Z.of_nat (length payload) / (vertex_count * 4) in
  let colors_of j :=
    float32_items (firstn 12 (skipn 24 (record_at (Z.to_nat width) payload j))) in
  9 <= width <= 54 ->
  (i < Z.to_nat vertex_count)%nat ->
  (forall j, (j < i)%nat -> forallb (fun x => negb (is_nan x)) (colors_of j) = true) ->
  existsb is_nan (colors_of i) = true ->
  exists out,
    convert fuel contents
    = Some (mkConversion (Some out) (Raise (ValueError FloatNaNToInt)))
    /\ length out = (32 * i + 24)%nat.
Proof.
  intros Hhdr Hascii Hparse _ Hvc payload width colors_of Hw Hi Hbefore Hnan.
  destruct (read_header_at_payload _ _ _ _ Hhdr) as [Hf _]. fold payload in Hf.
  destruct (inferred_width_bounds vertex_count (Z.of_nat (length payload)) Hvc ltac:(lia))
    as (_ & Hneed & _). fold width in Hneed.
  assert (Hshort : Z.of_nat (length payload) < vertex_count * 62 * 4).
  { pose proof (Z.div_mod (Z.of_nat (length payload)) (vertex_count * 4)) as Hdm.
    pose proof (Z.mod_pos_bound (Z.of_nat (length payload)) (vertex_count * 4)) as Hm.
    subst width. nia. }
  set (a := rows_of_payload vertex_count width payload).
  assert (Hread : read_vertex_data vertex_count header f = Ok a).
  { rewrite Hf. apply read_vertex_data_short; assumption. }
  destruct (rows_of_payload_shape vertex_count width payload) as (Hrows & Hall & Hcat);
    [lia|lia|lia|]. fold a in Hrows, Hall, Hcat.
  assert (Hrow : forall j, (j < Z.to_nat vertex_count)%nat ->
            exists row, nth_error (rows a) j = Some row
                        /\ (9 <= length row)%nat
                        /\ Forall (fun x => valid_binary 24 128 x = true) row
                        /\ firstn 3 (skipn 6 row) = colors_of j).
  { intros j Hj.
    destruct (nth_error (rows a) j) as [row|] eqn:Hr;
      [|apply nth_error_None in Hr; lia].
    exists row. split; [reflexivity|].
    rewrite Forall_forall in Hall. pose proof (Hall row (nth_error_In _ _ Hr)) as Hlen.
    split; [lia|]. split.
    - apply Forall_forall. intros x Hx.
      pose proof (float32_items_valid
                    (firstn (Z.to_nat (vertex_count * width * 4)) payload)) as Hv.
      rewrite Forall_forall in Hv. apply Hv.
      eapply chunk_items; [exact (nth_error_In _ _ Hr)|exact Hx].
    - destruct (rows_of_payload_record vertex_count width payload j row
                  ltac:(lia) ltac:(lia) Hneed Hr) as [_ ->].
      pose proof (float32_items_skipn 6 (record_at (Z.to_nat width) payload j)) as E2.
      pose proof (float32_items_firstn 3
                    (skipn 24 (record_at (Z.to_nat width) payload j))) as E3.
      change (4 * 3)%nat with 12%nat in E3. change (4 * 6)%nat with 24%nat in E2.
      rewrite E2, E3. reflexivity. }
  set (s := decode_array vertex_count a).
  assert (Hprefix : snd (write_loop legacy_promotion s (seq 0 i) []) = Ok tt
                    /\ length (fst (write_loop legacy_promotion s (seq 0 i) []))
                       = (32 * i)%nat).
  { destruct (write_loop_ok s (seq 0 i)) with (out := @nil byte) as [Hst Hlen].
    - intros j out Hj. apply in_seq in Hj.
      destruct (Hrow j ltac:(lia)) as (row & Hr & Hlen & Hvalid & Hcol).
      unfold s.
      rewrite (write_splat_color_row vertex_count a j row ltac:(cbn; lia) eq_refl Hr Hlen
                 ltac:(lia) Hvalid out).
      rewrite Hcol, (Hbefore j ltac:(lia)). reflexivity.
    - split; [exact Hst|]. rewrite Hlen, length_seq. reflexivity. }
  destruct Hprefix as [Hst Hlen].
  destruct (write_loop legacy_promotion s (seq 0 i) []) as [out0 st0] eqn:Hrun0.
  cbn [fst snd] in Hst, Hlen. subst st0.
  destruct (Hrow i Hi) as (row & Hr & Hrlen & Hvalid & Hcol).
  pose proof (write_splat_color_row vertex_count a i row ltac:(cbn; lia) eq_refl Hr Hrlen Hi
                Hvalid out0) as Hfail.
  fold s in Hfail. rewrite Hcol in Hfail.
  assert (Hno : forallb (fun x => negb (is_nan x)) (colors_of i) = false).
  { apply existsb_exists in Hnan. destruct Hnan as (x & Hx & Hxn).
    destruct (forallb _ (colors_of i)) eqn:Hall'; [|reflexivity].
    rewrite forallb_forall in Hall'. specialize (Hall' x Hx). rewrite Hxn in Hall'.
    discriminate Hall'. }
  rewrite Hno in Hfail.
  exists (out0 ++ flat_map f32_bytes (firstn 3 row) ++ firstn 12 default_fields).
  split.
  - unfold convert, convert_ply_to_splat. rewrite Hhdr. unfold load_splats.
    rewrite Hparse. cbn [bind]. rewrite Hread. cbn [bind].
    unfold write_splats. fold decode_array. fold s.
    replace (Z.to_nat vertex_count) with (i + S (Z.to_nat vertex_count - S i))%nat by lia.
    rewrite seq_app, write_loop_app, Hrun0. cbn [Nat.add seq write_loop].
    rewrite Hfail. reflexivity.
  - rewrite !length_app, Hlen.
    destruct row as [|x0 [|x1 [|x2 rest]]]; cbn [length] in Hrlen; try lia.
    cbn. lia.
Qed.

End NaNColor.

Lemma convert_nan_color_witness :
  exists out,
    convert_ply_to_splat default_max_str_digits sample_exp sample_norm true 10 file_nan_color
    = Some (mkConversion (Some out) (Raise (ValueError FloatNaNToInt)))
    /\ length out = 24%nat.
Proof.
  refine (convert_nan_color default_max_str_digits sample_exp sample_norm true
            10 file_nan_color header_one_vertex
            (at_payload header_one_vertex payload_nan_color) 1 0 _ _ _ _ _ _ _ _ _).
  - vm_compute; reflexivity.
  - vm_compute; reflexivity.
  - vm_compute; reflexivity.
  - unfold readable_count. lia.
  - lia.
  - vm_compute. split; discriminate.
  - vm_compute. lia.
  - intros j Hj. lia.
  - vm_compute; reflexivity.
Defined.

(** ** The density filter and the calls to Open3D and SciPy *)

Section VolumeEdges.

Variable np_exp : dtype -> float -> float.

Lemma round_to_not_finite (d : dtype) (t : float) :
  is_finite t = false -> round_to d t = t.
Proof. destruct t; try reflexivity. discriminate. Qed.

Lemma flt_nan_or_inf (t x : float) :
  is_nan t = true \/ t = S754_infinity false -> flt t x = false.
Proof.
  intros [Ht| ->]; [destruct t; try discriminate Ht; reflexivity|].
  destruct x as [s|[|]| |s m e]; reflexivity.
Qed.

Lemma solid_points_none (p : plydata) (t : float) :
  is_nan t = true \/ t = S754_infinity false -> solid_points np_exp p t = [].
Proof.
  intros Ht. unfold solid_points.
  rewrite round_to_not_finite by (destruct Ht as [H| ->]; [destruct t; try discriminate H|];
                                  reflexivity).
  induction (combine (xyz p) (items (effective_opacity np_exp p))) as [|[pt o] l IH];
    [reflexivity|].
  cbn [filter snd]. rewrite (flt_nan_or_inf t o Ht). exact IH.
Qed.

(** Without the properties [opacity] and [alpha] the opacities are 1.0:
    every point is solid when the threshold is below 1, none otherwise. *)
Lemma solid_points_no_opacity (points : list point) (t : float) :
  solid_points np_exp (mkPly points NoOpacity) t
  = if flt (round_to float64 t) one then points else [].
Proof.
  unfold solid_points, effective_opacity. cbn [opacity_of xyz dt1 items].
  set (t' := round_to float64 t).
  induction points as [|pt l IH]; [destruct (flt t' one); reflexivity|].
  cbn [length repeat combine filter snd map].
  destruct (flt t' one) eqn:Ht; cbn [map fst]; rewrite IH; reflexivity.
Qed.

Variable remove_statistical_outlier : list point -> option (list point).
Variable convex_hull_volume : list point -> option float.

Let volume := calculate_splat_volume np_exp remove_statistical_outlier convex_hull_volume.

(** X7. A threshold that is NaN or +Infinity lets no point through the
    density filter: for every file that has the coordinates of its vertices,
    whatever its opacities, the volume is 0.0 and neither Open3D nor SciPy
    is called. *)
Theorem volume_zero_above_all
    (points : list point) (source : opacity_source) (threshold : float) :
  is_nan threshold = true \/ threshold = S754_infinity false ->
  solid_points np_exp (mkPly points source) threshold = []
  /\ volume true (Some (mkPly points source)) threshold = Ok zero.
Proof.
  intros Ht. unfold volume, calculate_splat_volume. cbn [negb].
  rewrite (solid_points_none (mkPly points source) threshold Ht).
  split; reflexivity.
Qed.

(** X8. A file without [opacity] and without [alpha]: with a threshold
    below 1.0 every point of the file is solid, in the order of the file, so
    the volume is that of all the points; with a threshold of 1.0 or more
    the volume is 0.0. *)
Theorem volume_without_opacity (points : list point) (threshold : float) :
  (flt (round_to float64 threshold) one = true ->
   solid_points np_exp (mkPly points NoOpacity) threshold = points
   /\ volume true (Some (mkPly points NoOpacity)) threshold
      = Ok (if (length points <? 4)%nat then zero
            else hull_volume convex_hull_volume
                   (clean_points remove_statistical_outlier points)))
  /\ (flt (round_to float64 threshold) one = false ->
      volume true (Some (mkPly points NoOpacity)) threshold = Ok zero).
Proof.
  unfold volume, calculate_splat_volume. cbn [negb].
  rewrite solid_points_no_opacity.
  split; intros Ht; rewrite Ht; [|reflexivity].
  split; [reflexivity|]. destruct (length points <? 4)%nat; reflexivity.
Qed.

End VolumeEdges.

(** X9. Open3D and SciPy are given at least 4 points, or are not called:
    two outlier removals that agree on the lists of 4 points or more, and
    two convex hulls that do, give the same volume for every file and
    threshold. *)
Theorem volume_calls_need_four_points
    (np_exp : dtype -> float -> float)
    (remove1 remove2 : list point -> option (list point))
    (hull1 hull2 : list point -> option float)
    (has_volume_deps : bool) (read_ply : option plydata) (threshold : float) :
  (forall points, (4 <= length points)%nat -> remove1 points = remove2 points) ->
  (forall points, (4 <= length points)%nat -> hull1 points = hull2 points) ->
  calculate_splat_volume np_exp remove1 hull1 has_volume_deps read_ply threshold
  = calculate_splat_volume np_exp remove2 hull2 has_volume_deps read_ply threshold.
Proof.
  intros Hremove Hhull. unfold calculate_splat_volume.
  destruct (negb has_volume_deps); [reflexivity|].
  destruct read_ply as [[points source| |]|]; try reflexivity.
  set (p := mkPly points source).
  destruct (Nat.ltb_spec (length (solid_points np_exp p threshold)) 4) as [|Hfour];
    [reflexivity|].
  unfold clean_points. rewrite (Hremove _ Hfour).
  unfold hull_volume.
  destruct (remove2 (solid_points np_exp p threshold)) as [cl|].
  - destruct (Nat.ltb_spec (length cl) 4) as [|Hcl]; [reflexivity|].
    rewrite (Hhull _ Hcl). reflexivity.
  - destruct (Nat.ltb_spec (length (solid_points np_exp p threshold)) 4) as [|Hs];
      [reflexivity|].
    rewrite (Hhull _ Hs). reflexivity.
Qed.

Lemma volume_zero_above_all_witness :
  calculate_splat_volume sample_exp (fun _ => None) sample_hull true
    (Some ply_six_points) S754_nan = Ok zero.
Proof.
  exact (proj2 (volume_zero_above_all sample_exp (fun _ => None) sample_hull
                  (xyz ply_six_points) NoOpacity S754_nan (or_introl eq_refl))).
Defined.

Lemma volume_without_opacity_witness :
  calculate_splat_volume sample_exp (fun _ => None) sample_hull true
    (Some ply_six_points) lit_0_5 = Ok (of_int float64 6).
Proof.
  refine (eq_trans
            (proj2 (proj1 (volume_without_opacity sample_exp (fun _ => None) sample_hull
                             (xyz ply_six_points) lit_0_5) _)) _);
    vm_compute; reflexivity.
Defined.

Lemma volume_calls_need_four_points_witness :
  calculate_splat_volume sample_exp (fun _ => None) sample_hull true
    (Some ply_six_points) lit_0_5
  = calculate_splat_volume sample_exp
      (fun points => if (length points <? 4)%nat then Some [] else None)
      (fun points => if (length points <? 4)%nat then None else sample_hull points)
      true (Some ply_six_points) lit_0_5.
Proof.
  apply volume_calls_need_four_points; intros points Hfour;
    destruct (Nat.ltb_spec (length points) 4) as [Hlt|_]; try reflexivity; lia.
Defined.

(** ** Equal volumes *)

Lemma fsub_same (d : dtype) (x : float) : is_finite x = true -> fsub d x x = zero.
Proof.
  destruct x as [s|s| |s m e]; try discriminate; intros _; unfold fsub; cbn [SFsub].
  - destruct s; reflexivity.
  - rewrite Z.sub_diag. reflexivity.
Qed.

Lemma growth_percentage_same (v : float) :
  is_finite v = true -> growth_percentage v v = zero.
Proof.
  intros Hv. unfold growth_percentage. destruct (flt zero v) eqn:Hpos; [|reflexivity].
  rewrite (fsub_same float64 v Hv).
  destruct v as [s|s| |[|] m e]; try discriminate Hv; try discriminate Hpos.
  reflexivity.
Qed.

Section EqualVolumes.

Variable np_exp : dtype -> float -> float.
Variable remove_statistical_outlier : list point -> option (list point).
Variable convex_hull_volume : list point -> option float.

Let volume := calculate_splat_volume np_exp remove_statistical_outlier convex_hull_volume true.
Let analyze := analyze_growth np_exp remove_statistical_outlier convex_hull_volume true.

(** X10. When the two volumes computed are one finite number, the growth
    reported is exactly 0.0, that number being zero or not: the difference
    of a finite float64 and itself is 0.0, and the guard keeps the division
    from a zero volume. *)
Theorem analyze_growth_equal_volumes (ply1 ply2 : option plydata) (threshold v : float) :
  volume ply1 threshold = Ok v ->
  volume ply2 threshold = Ok v ->
  is_finite v = true ->
  growth_percentage v v = zero
  /\ analyze ply1 ply2 threshold = Ok (mkReport v v zero).
Proof.
  intros H1 H2 Hv. split; [apply growth_percentage_same, Hv|].
  unfold analyze, analyze_growth. cbn [negb]. fold volume. rewrite H1, H2.
  cbn [bind]. rewrite (growth_percentage_same v Hv). reflexivity.
Qed.

End EqualVolumes.

(** A scene of volume 4.0 and one of six points of which an outlier removal
    keeps four. *)
Lemma analyze_growth_equal_volumes_witness :
  analyze_growth sample_exp (fun points => Some (firstn 4 points)) sample_hull true
    (Some ply_four_points) (Some ply_six_points) lit_0_5
  = Ok (mkReport (of_int float64 4) (of_int float64 4) zero).
Proof.
  refine (proj2 (analyze_growth_equal_volumes sample_exp
                   (fun points => Some (firstn 4 points)) sample_hull
                   (Some ply_four_points) (Some ply_six_points) lit_0_5
                   (of_int float64 4) _ _ _));
    vm_compute; reflexivity.
Defined.

(** ** Waiting for ComfyUI *)

Lemma str_eqb_eq (a b : str) : str_eqb a b = true <-> a = b.
Proof.
  revert b. induction a as [|x a IH]; intros [|y b]; cbn [str_eqb];
    try (split; [discriminate|discriminate]); [tauto|].
  rewrite andb_true_iff, N.eqb_eq, IH. split; [intros [-> ->]; reflexivity|].
  intros H. injection H as -> ->. auto.
Qed.

Lemma lookup_existsb (k : str) (entries : list (str * json)) :
  existsb (fun kv => str_eqb (fst kv) k) entries
  = match lookup k entries with Some _ => true | None => false end.
Proof.
  induction entries as [|[k' v] rest IH]; [reflexivity|].
  cbn [existsb lookup fst]. destruct (str_eqb k' k); [reflexivity|exact IH].
Qed.

(** *** The loop *)

Section PollLoop.

Context {R : Type}.
Variable clock : nat -> float.
Variable timeout : Z.
Variable body : nat -> option R.

Let before (i : nat) : bool := before_deadline (clock (S i)) (clock 0%nat) timeout.

(** The loop returns from an iteration: the first whose body returns, all
    the iterations up to it beginning before the deadline. *)
Lemma poll_loop_returns (fuel : nat) :
  forall k r,
    poll_loop clock timeout body fuel k = Some (Some r) ->
    exists j, (k <= j < k + fuel)%nat /\ body j = Some r
              /\ (forall i, (k <= i < j)%nat -> body i = None)
              /\ (forall i, (k <= i <= j)%nat -> before i = true).
Proof.
  induction fuel as [|fuel IH]; intros k r Hrun; [discriminate Hrun|].
  cbn [poll_loop] in Hrun. fold (before k) in Hrun.
  destruct (before k) eqn:Hb; [|discriminate Hrun].
  destruct (body k) as [r'|] eqn:Hbody.
  - injection Hrun as <-. exists k. split; [lia|]. split; [exact Hbody|].
    split; [intros i Hi; lia|]. intros i Hi. replace i with k by lia. exact Hb.
  - destruct (IH _ _ Hrun) as (j & Hj & Hr & Hnone & Hbefore).
    exists j. split; [lia|]. split; [exact Hr|]. split.
    + intros i Hi. destruct (Nat.eq_dec i k) as [->|]; [exact Hbody|apply Hnone; lia].
    + intros i Hi. destruct (Nat.eq_dec i k) as [->|]; [exact Hb|apply Hbefore; lia].
Qed.

(** The loop is left at the deadline: no iteration before has returned. *)
Lemma poll_loop_deadline (fuel : nat) :
  forall k,
    poll_loop clock timeout body fuel k = Some None ->
    exists j, (k <= j < k + fuel)%nat /\ before j = false
              /\ (forall i, (k <= i < j)%nat -> body i = None /\ before i = true).
Proof.
  induction fuel as [|fuel IH]; intros k Hrun; [discriminate Hrun|].
  cbn [poll_loop] in Hrun. fold (before k) in Hrun.
  destruct (before k) eqn:Hb.
  - destruct (body k) as [r'|] eqn:Hbody; [discriminate Hrun|].
    destruct (IH _ Hrun) as (j & Hj & Hlast & Hall).
    exists j. split; [lia|]. split; [exact Hlast|].
    intros i Hi. destruct (Nat.eq_dec i k) as [->|]; [auto|apply Hall; lia].
  - exists k. split; [lia|]. split; [exact Hb|]. intros i Hi. lia.
Qed.

(** What decides: the first iteration that begins at or after the deadline,
    or whose body returns. *)
Lemma poll_loop_decided (j : nat) :
  forall fuel k, (k <= j < k + fuel)%nat ->
    (forall i, (k <= i < j)%nat -> body i = None /\ before i = true) ->
    poll_loop clock timeout body fuel k
    = Some (if before j then body j else None)
    \/ (before j = true /\ body j = None).
Proof.
  induction fuel as [|fuel IH]; intros k Hj Hall; [lia|].
  cbn [poll_loop]. fold (before k).
  destruct (Nat.eq_dec k j) as [->|Hne].
  - destruct (before j); [|left; reflexivity].
    destruct (body j); [left; reflexivity|right; auto].
  - destruct (Hall k ltac:(lia)) as [Hbody Hb]. rewrite Hb, Hbody.
    apply IH; [lia|]. intros i Hi. apply Hall. lia.
Qed.

End PollLoop.

(** *** [find_latest_ply] *)

Lemma set_difference_In (a b : list str) (x : str) :
  In x (set_difference a b) <-> In x a /\ ~ In x b.
Proof.
  unfold set_difference. rewrite filter_In, negb_true_iff.
  split; intros [Ha Hb]; (split; [exact Ha|]).
  - intros Hin. assert (Hex : existsb (str_eqb x) b = true).
    { apply existsb_exists. exists x. split; [exact Hin|apply str_eqb_eq; reflexivity]. }
    congruence.
  - destruct (existsb (str_eqb x) b) eqn:Hex; [|reflexivity].
    apply existsb_exists in Hex. destruct Hex as (y & Hy & Heq).
    apply str_eqb_eq in Heq. subst y. contradiction.
Qed.

Lemma set_difference_empty (a b : list str) :
  set_difference a b = [] <-> incl a b.
Proof.
  split.
  - intros Hnil x Hx. destruct (in_dec (list_eq_dec N.eq_dec) x b) as [Hb|Hb]; [exact Hb|].
    assert (Hin : In x (set_difference a b)) by (apply set_difference_In; auto).
    rewrite Hnil in Hin. destruct Hin.
  - intros Hincl. destruct (set_difference a b) as [|x l] eqn:Hd; [reflexivity|].
    assert (Hin : In x (set_difference a b)) by (rewrite Hd; left; reflexivity).
    apply set_difference_In in Hin. destruct Hin as [Ha Hb]. elim Hb. apply Hincl, Ha.
Qed.

Section FindLatestPlyProperties.

Variable first_of_set : list str -> str.
Hypothesis first_of_set_member : forall s, s <> [] -> In (first_of_set s) s.

Variable clock : nat -> float.
Variable listings : nat -> list str.
Variable timeout : Z.

Let before (i : nat) : bool := before_deadline (clock (S i)) (clock 0%nat) timeout.
Let find := find_latest_ply first_of_set clock listings timeout.

(** X11. A path that [find_latest_ply] returns is new: it was not in the
    directory when the function was entered, and it is in the listing of
    the iteration that returns. Every listing before held only files that
    were there at the entry, and every iteration up to this one began before
    the deadline. *)
Theorem find_latest_ply_returns_new (fuel : nat) (path : str) :
  find fuel = Some (Some path) ->
  ~ In path (listings 0%nat)
  /\ exists j, (j < fuel)%nat
       /\ In path (listings (S j))
       /\ (forall i, (i < j)%nat -> incl (listings (S i)) (listings 0%nat))
       /\ (forall i, (i <= j)%nat -> before i = true).
Proof.
  unfold find, find_latest_ply. intros Hrun.
  apply poll_loop_returns in Hrun. destruct Hrun as (j & Hj & Hbody & Hnone & Hbefore).
  destruct (set_difference (listings (S j)) (listings 0%nat)) as [|x l] eqn:Hd;
    [discriminate Hbody|].
  injection Hbody as <-.
  assert (Hin : In (first_of_set (x :: l)) (set_difference (listings (S j)) (listings 0%nat))).
  { rewrite Hd. apply first_of_set_member. discriminate. }
  apply set_difference_In in Hin. destruct Hin as [Hcur Hnew].
  split; [exact Hnew|]. exists j. split; [lia|]. split; [exact Hcur|]. split.
  - intros i Hi. specialize (Hnone i ltac:(lia)). cbn beta zeta in Hnone.
    apply set_difference_empty.
    destruct (set_difference (listings (S i)) (listings 0%nat)); [reflexivity|discriminate].
  - intros i Hi. apply Hbefore. lia.
Qed.

(** X12. What [find_latest_ply] returns is decided by the first iteration
    that begins at or after the deadline or sees a file that was not there at
    the entry: [None] in the first case, one of the new files of that listing
    in the second. A file that was there at the entry never counts, also
    when it has been written again. *)
Theorem find_latest_ply_decided (j fuel : nat) :
  (j < fuel)%nat ->
  (forall i, (i < j)%nat ->
     before i = true /\ incl (listings (S i)) (listings 0%nat)) ->
  (before j = false -> find fuel = Some None)
  /\ (before j = true -> ~ incl (listings (S j)) (listings 0%nat) ->
      exists path, find fuel = Some (Some path)
                   /\ In path (listings (S j)) /\ ~ In path (listings 0%nat)).
Proof.
  intros Hj Hall. unfold find, find_latest_ply.
  match goal with
  | |- context [poll_loop clock timeout ?b fuel 0%nat] => set (body := b)
  end.
  destruct (poll_loop_decided clock timeout body j fuel 0 ltac:(lia)) as [Hrun|[Hb Hnone]].
  { intros i Hi. destruct (Hall i ltac:(lia)) as [Hb Hincl]. split; [|exact Hb].
    subst body. cbn beta zeta. apply set_difference_empty in Hincl. rewrite Hincl.
    reflexivity. }
  - fold (before j) in Hrun. rewrite Hrun. split; intros Hb; rewrite Hb; [reflexivity|].
    intros Hnew. subst body. cbn beta zeta.
    destruct (set_difference (listings (S j)) (listings 0%nat)) as [|x l] eqn:Hd.
    + elim Hnew. apply set_difference_empty. exact Hd.
    + exists (first_of_set (x :: l)). split; [reflexivity|].
      apply set_difference_In. rewrite Hd. apply first_of_set_member. discriminate.
  - fold (before j) in Hb. split; [congruence|]. intros _ Hnew. exfalso. apply Hnew.
    subst body. cbn beta zeta in Hnone. apply set_difference_empty.
    destruct (set_difference (listings (S j)) (listings 0%nat)); [reflexivity|discriminate].
Qed.

End FindLatestPlyProperties.

(** *** [get_prompt_result] *)

Lemma py_in_getitem (k : str) (c : json) :
  py_in k c = Got true ->
  (exists entries v, c = JDict entries /\ lookup k entries = Some v /\ py_getitem c k = Got v)
  \/ (exists e, py_getitem c k = Except e).
Proof.
  destruct c as [|b|n|x|s|l|entries]; try discriminate; cbn [py_in py_getitem];
    try (right; eexists; reflexivity).
  rewrite lookup_existsb. destruct (lookup k entries) as [v|] eqn:Hl; [|discriminate].
  intros _. left. exists entries, v. auto.
Qed.

Lemma py_get_dict (c : json) (k : str) (default v : json) :
  py_get c k default = Got v ->
  exists entries, c = JDict entries
                  /\ v = match lookup k entries with Some x => x | None => default end.
Proof.
  destruct c as [|b|n|x|s|l|entries]; try discriminate. cbn [py_get].
  intros H. injection H as <-. eauto.
Qed.

Lemma first_of_field_value (c : json) (k : str) (v : json) :
  first_of_field c k = Got v ->
  exists preview, c = JDict preview /\ field_value preview k v.
Proof.
  unfold first_of_field. destruct (py_get c k (JList [JNull])) as [x|e] eqn:Hget;
    [|discriminate]. cbn [and_then]. intros Hfirst.
  apply py_get_dict in Hget. destruct Hget as (preview & -> & ->).
  exists preview. split; [reflexivity|]. unfold field_value.
  destruct (lookup k preview); [exact Hfirst|].
  cbn in Hfirst. injection Hfirst as <-. reflexivity.
Qed.

Lemma field_value_first (preview : list (str * json)) (k : str) (v : json) :
  field_value preview k v -> first_of_field (JDict preview) k = Got v.
Proof.
  unfold field_value, first_of_field. cbn [py_get and_then].
  destruct (lookup k preview); [tauto|]. intros ->. reflexivity.
Qed.

(** The body returns a dict exactly when the response holds a preview
    output that can be read. *)
Lemma check_history_dict (prompt_id : str) (r : response) (result : prompt_result) :
  check_history prompt_id r = Got (Some (Some result))
  <-> preview_available prompt_id r result.
Proof.
  unfold check_history, preview_available, history_outputs. split.
  - destruct (Z.eqb_spec (status_code r) 200) as [Hcode|]; [|discriminate].
    destruct (json_body r) as [history|]; [|discriminate].
    destruct (py_in prompt_id history) as [[|]|] eqn:Hin; cbn [and_then]; try discriminate.
    apply py_in_getitem in Hin.
    destruct Hin as [(h & entry & -> & Hentry & Hget)|[e Hget]]; rewrite Hget;
      cbn [and_then]; [|discriminate].
    destruct (py_get entry (pystr "outputs") (JDict [])) as [outputs|] eqn:Hout;
      cbn [and_then]; [|discriminate].
    apply py_get_dict in Hout. destruct Hout as (e & -> & Hout).
    destruct (py_in (pystr "8") outputs) as [[|]|] eqn:Hin8; cbn [and_then];
      try discriminate.
    2:{ destruct (py_get (JDict e) (pystr "status") (JDict [])) as [st|]; cbn [and_then];
          [|discriminate].
        destruct (py_get st (pystr "completed") (JBool false)) as [c|]; cbn [and_then];
          [|discriminate].
        destruct (truthy c); [|discriminate].
        destruct (py_keys outputs); cbn [and_then]; discriminate. }
    apply py_in_getitem in Hin8.
    destruct Hin8 as [(o & preview & Ho & Hpreview & Hget8)|[e8 Hget8]]; rewrite Hget8;
      cbn [and_then]; [|discriminate].
    destruct (first_of_field preview (pystr "extrinsics")) as [ex|] eqn:Hex;
      cbn [and_then]; [|discriminate].
    destruct (first_of_field preview (pystr "intrinsics")) as [intr|] eqn:Hintr;
      cbn [and_then]; [|discriminate].
    destruct (first_of_field preview (pystr "ply_file")) as [ply|] eqn:Hply;
      cbn [and_then]; [|discriminate].
    apply first_of_field_value in Hex, Hintr, Hply.
    destruct Hex as (p & -> & Hex). destruct Hintr as (p' & Hp' & Hintr).
    destruct Hply as (p'' & Hp'' & Hply). injection Hp' as <-. injection Hp'' as <-.
    intros Hres. split; [exact Hcode|].
    exists (JDict h), e, o, p. split; [reflexivity|]. split.
    { exists h. split; [reflexivity|]. split; [exact Hentry|]. rewrite <- Hout. exact Ho. }
    split; [exact Hpreview|].
    destruct (truthy intr) eqn:Htruthy.
    + destruct (py_first intr) as [row|] eqn:Hrow; cbn [and_then] in Hres;
        [|discriminate Hres].
      destruct (py_first row) as [fx|] eqn:Hfx; cbn [and_then] in Hres;
        [|discriminate Hres].
      injection Hres as <-. cbn [extrinsics intrinsics ply_file].
      repeat (split; [assumption|]). intros _. exists row, fx. auto.
    + cbn [and_then] in Hres. injection Hres as <-. cbn [extrinsics intrinsics ply_file].
      repeat (split; [assumption|]). congruence.
  - intros (Hcode & history & e & o & p & Hbody & (h & -> & Hentry & Hout) & Hpreview
            & Hex & Hintr & Hply & Hfx).
    rewrite Hcode, Hbody. cbn [Z.eqb Pos.eqb py_in py_getitem and_then].
    rewrite lookup_existsb, Hentry. cbn [and_then py_get]. rewrite Hout.
    cbn [py_in py_getitem and_then]. rewrite lookup_existsb, Hpreview. cbn [and_then].
    rewrite (field_value_first _ _ _ Hex), (field_value_first _ _ _ Hintr),
      (field_value_first _ _ _ Hply). cbn [and_then].
    destruct result as [ex intr ply]. cbn [extrinsics intrinsics ply_file] in *.
    destruct (truthy intr); [|reflexivity].
    destruct (Hfx eq_refl) as (row & fx & -> & Hrow). cbn [and_then]. rewrite Hrow.
    reflexivity.
Qed.

(** The body returns [None] exactly when the workflow is completed and has
    no output of node 8. *)
Lemma check_history_none (prompt_id : str) (r : response) :
  check_history prompt_id r = Got (Some None)
  <-> completed_without_preview prompt_id r.
Proof.
  unfold check_history, completed_without_preview, history_outputs. split.
  - destruct (Z.eqb_spec (status_code r) 200) as [Hcode|]; [|discriminate].
    destruct (json_body r) as [history|]; [|discriminate].
    destruct (py_in prompt_id history) as [[|]|] eqn:Hin; cbn [and_then]; try discriminate.
    apply py_in_getitem in Hin.
    destruct Hin as [(h & entry & -> & Hentry & Hget)|[e Hget]]; rewrite Hget;
      cbn [and_then]; [|discriminate].
    destruct (py_get entry (pystr "outputs") (JDict [])) as [outputs|] eqn:Hout;
      cbn [and_then]; [|discriminate].
    apply py_get_dict in Hout. destruct Hout as (e & -> & Hout).
    destruct (py_in (pystr "8") outputs) as [[|]|] eqn:Hin8; cbn [and_then];
      try discriminate.
    { apply py_in_getitem in Hin8.
      destruct Hin8 as [(o & preview & Ho & Hpreview & Hget8)|[e8 Hget8]]; rewrite Hget8;
        cbn [and_then]; [|discriminate].
      destruct (first_of_field preview (pystr "extrinsics")); cbn [and_then];
        [|discriminate].
      destruct (first_of_field preview (pystr "intrinsics")) as [intr|]; cbn [and_then];
        [|discriminate].
      destruct (first_of_field preview (pystr "ply_file")); cbn [and_then];
        [|discriminate].
      destruct (truthy intr); cbn [and_then]; [|discriminate].
      destruct (py_first intr) as [row|]; cbn [and_then]; [|discriminate].
      destruct (py_first row); cbn [and_then]; discriminate. }
    destruct (py_get (JDict e) (pystr "status") (JDict [])) as [st|] eqn:Hst;
      cbn [and_then]; [|discriminate].
    destruct (py_get st (pystr "completed") (JBool false)) as [c|] eqn:Hc; cbn [and_then];
      [|discriminate].
    apply py_get_dict in Hc. destruct Hc as (s & -> & Hc).
    cbn [py_get] in Hst. injection Hst as Hst.
    destruct (truthy c) eqn:Htruthy; [|discriminate].
    destruct outputs as [| | | | | |o]; try discriminate. intros _.
    cbn [py_in] in Hin8. rewrite lookup_existsb in Hin8.
    destruct (lookup (pystr "8") o) eqn:H8; [discriminate Hin8|].
    split; [exact Hcode|]. exists (JDict h), e, o, s. split; [reflexivity|]. split.
    { exists h. split; [reflexivity|]. split; [exact Hentry|]. symmetry. exact Hout. }
    split; [exact H8|]. split; [exact Hst|]. rewrite <- Hc. exact Htruthy.
  - intros (Hcode & history & e & o & s & Hbody & (h & -> & Hentry & Hout) & H8 & Hst
            & Hcompleted).
    rewrite Hcode, Hbody. cbn [Z.eqb Pos.eqb py_in py_getitem and_then].
    rewrite lookup_existsb, Hentry. cbn [and_then py_get]. rewrite Hout.
    cbn [py_in and_then]. rewrite lookup_existsb, H8. cbn [and_then].
    rewrite Hst. cbn [py_get and_then]. rewrite Hcompleted. reflexivity.
Qed.

Lemma poll_history_dict (prompt_id : str) (o : get_outcome) (result : prompt_result) :
  poll_history prompt_id o = Some (Some result)
  <-> exists r, o = GetReturns r /\ preview_available prompt_id r result.
Proof.
  unfold poll_history. split.
  - destruct o as [|r]; [discriminate|].
    destruct (check_history prompt_id r) as [[x|]|] eqn:Hc; try discriminate.
    intros H. injection H as ->. exists r. split; [reflexivity|].
    apply check_history_dict, Hc.
  - intros (r & -> & Hr). apply check_history_dict in Hr. rewrite Hr. reflexivity.
Qed.

Lemma poll_history_none (prompt_id : str) (o : get_outcome) :
  poll_history prompt_id o = Some None
  <-> exists r, o = GetReturns r /\ completed_without_preview prompt_id r.
Proof.
  unfold poll_history. split.
  - destruct o as [|r]; [discriminate|].
    destruct (check_history prompt_id r) as [[x|]|] eqn:Hc; try discriminate.
    intros H. injection H as ->. exists r. split; [reflexivity|].
    apply check_history_none, Hc.
  - intros (r & -> & Hr). apply check_history_none in Hr. rewrite Hr. reflexivity.
Qed.

Section GetPromptResultProperties.

Variable clock : nat -> float.
Variable gets : nat -> get_outcome.
Variable prompt_id : str.
Variable timeout : Z.

Let before (i : nat) : bool := before_deadline (clock (S i)) (clock 0%nat) timeout.
Let get := get_prompt_result clock gets prompt_id timeout.

(** X13. A dict that [get_prompt_result] returns was read from a response
    with status 200 whose JSON is a dict with the key [prompt_id], holding a
    dict whose outputs are a dict with the key ["8"], holding a dict. Each of
    the three fields is [None] when the preview output has no such key, and
    else the first item of what the key holds; the intrinsics are a false
    value or have an item [[0][0]]. Any other response, one whose intrinsics
    are a flat list of numbers among them, is passed over. *)
Theorem get_prompt_result_returns_dict (fuel : nat) (result : prompt_result) :
  get fuel = Some (Some result) ->
  exists j r, (j < fuel)%nat /\ gets j = GetReturns r
              /\ preview_available prompt_id r result
              /\ (forall i, (i <= j)%nat -> before i = true).
Proof.
  unfold get, get_prompt_result. intros Hrun.
  destruct (poll_loop _ _ _ fuel 0%nat) as [[[x|]|]|] eqn:Hloop; try discriminate Hrun.
  injection Hrun as ->.
  apply poll_loop_returns in Hloop. destruct Hloop as (j & Hj & Hbody & _ & Hbefore).
  apply poll_history_dict in Hbody. destruct Hbody as (r & Hget & Hr).
  exists j, r. split; [lia|]. split; [exact Hget|]. split; [exact Hr|].
  intros i Hi. apply Hbefore. lia.
Qed.

(** X14. [get_prompt_result] returns [None] for one of two reasons: an
    iteration begins at or after the deadline, or a response with status 200
    shows the workflow of [prompt_id] completed, with outputs that are a dict
    without the key ["8"]. In the second case it does not wait for the
    deadline. *)
Theorem get_prompt_result_returns_none (fuel : nat) :
  get fuel = Some None ->
  exists j, (j < fuel)%nat
    /\ (before j = false
        \/ (before j = true
            /\ exists r, gets j = GetReturns r /\ completed_without_preview prompt_id r)).
Proof.
  unfold get, get_prompt_result. intros Hrun.
  destruct (poll_loop _ _ _ fuel 0%nat) as [[[x|]|]|] eqn:Hloop; try discriminate Hrun.
  - apply poll_loop_returns in Hloop. destruct Hloop as (j & Hj & Hbody & _ & Hbefore).
    apply poll_history_none in Hbody.
    exists j. split; [lia|]. right. split; [apply Hbefore; lia|exact Hbody].
  - apply poll_loop_deadline in Hloop. destruct Hloop as (j & Hj & Hlast & _).
    exists j. split; [lia|]. left. exact Hlast.
Qed.

(** X15. The first iteration that decides: when every iteration before
    [j] began before the deadline and met a failed request, or a response
    that shows neither a preview output that can be read nor a completed
    workflow without one, then iteration [j] gives the result: [None] when it
    begins at or after the deadline, the dict when its response holds a
    preview output, [None] when its response shows the workflow completed
    without one. *)
Theorem get_prompt_result_decided (j fuel : nat) :
  (j < fuel)%nat ->
  (forall i, (i < j)%nat ->
     before i = true
     /\ forall r, gets i = GetReturns r ->
          (forall result, ~ preview_available prompt_id r result)
          /\ ~ completed_without_preview prompt_id r) ->
  (before j = false -> get fuel = Some None)
  /\ (before j = true ->
      forall r, gets j = GetReturns r ->
        (forall result, preview_available prompt_id r result ->
                        get fuel = Some (Some result))
        /\ (completed_without_preview prompt_id r -> get fuel = Some None)).
Proof.
  intros Hj Hall. unfold get, get_prompt_result.
  set (body := fun k => poll_history prompt_id (gets k)).
  assert (Hearlier : forall i, (0 <= i < j)%nat -> body i = None /\ before i = true).
  { intros i Hi. destruct (Hall i ltac:(lia)) as [Hb Hr]. split; [|exact Hb].
    subst body. cbn beta. destruct (poll_history prompt_id (gets i)) as [[res|]|] eqn:Hp;
      [| |reflexivity]; exfalso.
    - apply poll_history_dict in Hp. destruct Hp as (r & Hg & Hav).
      exact (proj1 (Hr r Hg) res Hav).
    - apply poll_history_none in Hp. destruct Hp as (r & Hg & Hc).
      exact (proj2 (Hr r Hg) Hc). }
  destruct (poll_loop_decided clock timeout body j fuel 0 ltac:(lia) Hearlier)
    as [Hrun|[Hb Hnone]]; fold (before j) in *.
  - rewrite Hrun. split; intros Hb; rewrite Hb; [reflexivity|].
    intros r Hg. subst body. cbn beta. split.
    + intros result Hav.
      rewrite (proj2 (poll_history_dict prompt_id (gets j) result)); [reflexivity|eauto].
    + intros Hc.
      rewrite (proj2 (poll_history_none prompt_id (gets j))); [reflexivity|eauto].
  - split; [congruence|]. intros _ r Hg. subst body. cbn beta in Hnone. split.
    + intros result Hav.
      rewrite (proj2 (poll_history_dict prompt_id (gets j) result)) in Hnone;
        [discriminate Hnone|eauto].
    + intros Hc.
      rewrite (proj2 (poll_history_none prompt_id (gets j))) in Hnone;
        [discriminate Hnone|eauto].
Qed.

End GetPromptResultProperties.

Lemma sample_first_member (s : list str) : s <> [] -> In (sample_first s) s.
Proof. destruct s as [|x l]; [congruence|]. intros _. left. reflexivity. Qed.

Lemma find_latest_ply_returns_new_witness :
  ~ In (pystr "b.ply") (sample_listings 0)
  /\ exists j, (j < 5)%nat
       /\ In (pystr "b.ply") (sample_listings (S j))
       /\ (forall i, (i < j)%nat -> incl (sample_listings (S i)) (sample_listings 0))
       /\ (forall i, (i <= j)%nat ->
             before_deadline (sample_clock (S i)) (sample_clock 0) 180 = true).
Proof.
  apply (find_latest_ply_returns_new sample_first sample_first_member
           sample_clock sample_listings 180 5 (pystr "b.ply")).
  vm_compute. reflexivity.
Defined.

Lemma find_latest_ply_decided_witness :
  exists path,
    find_latest_ply sample_first sample_clock sample_listings 180 5 = Some (Some path)
    /\ In path (sample_listings 2) /\ ~ In path (sample_listings 0).
Proof.
  refine (proj2 (find_latest_ply_decided sample_first sample_first_member
                   sample_clock sample_listings 180 1 5 _ _) _ _).
  - lia.
  - intros i Hi. replace i with 0%nat by lia. split; [vm_compute; reflexivity|].
    intros x Hx. exact Hx.
  - vm_compute; reflexivity.
  - intros Hincl. specialize (Hincl (pystr "b.ply") (or_intror (or_introl eq_refl))).
    cbn in Hincl. destruct Hincl as [Heq|[]]. discriminate Heq.
Defined.

Lemma get_prompt_result_returns_dict_witness :
  exists j r, (j < 5)%nat /\ sample_gets sample_history j = GetReturns r
              /\ preview_available (pystr "p1") r sample_result
              /\ (forall i, (i <= j)%nat ->
                    before_deadline (sample_clock (S i)) (sample_clock 0) 30 = true).
Proof.
  apply (get_prompt_result_returns_dict sample_clock (sample_gets sample_history)
           (pystr "p1") 30 5 sample_result).
  vm_compute. reflexivity.
Defined.

Lemma get_prompt_result_returns_none_witness :
  exists j, (j < 5)%nat
    /\ (before_deadline (sample_clock (S j)) (sample_clock 0) 30 = false
        \/ (before_deadline (sample_clock (S j)) (sample_clock 0) 30 = true
            /\ exists r, sample_gets sample_history_completed j = GetReturns r
                         /\ completed_without_preview (pystr "p1") r)).
Proof.
  apply (get_prompt_result_returns_none sample_clock (sample_gets sample_history_completed)
           (pystr "p1") 30 5).
  vm_compute. reflexivity.
Defined.

Lemma get_prompt_result_decided_witness :
  get_prompt_result sample_clock (sample_gets sample_history) (pystr "p1") 30 5
  = Some (Some sample_result).
Proof.
  refine (proj1 (proj2 (get_prompt_result_decided sample_clock (sample_gets sample_history)
                          (pystr "p1") 30 2 5 _ _) _ _ eq_refl) sample_result _).
  - lia.
  - intros i Hi. assert (Hcases : i = 0%nat \/ i = 1%nat) by lia.
    destruct Hcases as [-> | ->]; (split; [vm_compute; reflexivity|]); intros r Hr.
    + discriminate Hr.
    + injection Hr as <-. split.
      * intros result [Hcode _]. discriminate Hcode.
      * intros [Hcode _]. discriminate Hcode.
  - vm_compute; reflexivity.
  - apply check_history_dict. vm_compute. reflexivity.
Defined.

(** *** The deadline ends the wait *)

Lemma poll_loop_ends {R : Type} (clock : nat -> float) (timeout : Z) (body : nat -> option R)
    (j : nat) :
  before_deadline (clock (S j)) (clock 0%nat) timeout = false ->
  forall k, (k <= j)%nat ->
    exists r, forall fuel, (j - k < fuel)%nat ->
      poll_loop clock timeout body fuel k = Some r.
Proof.
  intros Hlast k Hk. remember (j - k)%nat as d eqn:Hd. revert k Hk Hd.
  induction d as [|d IH]; intros k Hk Hd.
  - assert (k = j) by lia. subst k. exists None. intros fuel Hfuel.
    destruct fuel as [|fuel]; [lia|]. cbn [poll_loop]. rewrite Hlast. reflexivity.
  - destruct (before_deadline (clock (S k)) (clock 0%nat) timeout) eqn:Hb.
    + destruct (body k) as [r|] eqn:Hbody.
      * exists (Some r). intros fuel Hfuel. destruct fuel as [|fuel]; [lia|].
        cbn [poll_loop]. rewrite Hb, Hbody. reflexivity.
      * destruct (IH (S k) ltac:(lia) ltac:(lia)) as [r Hr]. exists r.
        intros fuel Hfuel. destruct fuel as [|fuel]; [lia|].
        cbn [poll_loop]. rewrite Hb, Hbody. apply Hr. lia.
    + exists None. intros fuel Hfuel. destruct fuel as [|fuel]; [lia|].
      cbn [poll_loop]. rewrite Hb. reflexivity.
Qed.

(** X16. Both functions return once the clock has reached the deadline:
    when the reading at the head of iteration [j] is at or past it, the
    function has returned within [j + 1] iterations, with a result that more
    iterations do not change. *)
Theorem polling_ends_at_deadline
    (first_of_set : list str -> str) (clock : nat -> float) (timeout : Z) (j : nat)
    (listings : nat -> list str) (gets : nat -> get_outcome) (prompt_id : str) :
  before_deadline (clock (S j)) (clock 0%nat) timeout = false ->
  (exists path, forall fuel, (j < fuel)%nat ->
     find_latest_ply first_of_set clock listings timeout fuel = Some path)
  /\ (exists result, forall fuel, (j < fuel)%nat ->
        get_prompt_result clock gets prompt_id timeout fuel = Some result).
Proof.
  intros Hlast. split.
  - unfold find_latest_ply.
    match goal with
    | |- context [poll_loop clock timeout ?b _ 0%nat] =>
        destruct (poll_loop_ends clock timeout b j Hlast 0 ltac:(lia)) as [r Hr]
    end.
    exists r. intros fuel Hfuel. apply Hr. lia.
  - unfold get_prompt_result.
    destruct (poll_loop_ends clock timeout (fun k => poll_history prompt_id (gets k))
                j Hlast 0 ltac:(lia)) as [r Hr].
    exists match r with Some x => x | None => None end.
    intros fuel Hfuel. rewrite Hr by lia. destruct r as [[x|]|]; reflexivity.
Qed.

Lemma polling_ends_at_deadline_witness :
  (exists path, forall fuel, (15 < fuel)%nat ->
     find_latest_ply sample_first sample_clock (fun _ => []) 30 fuel = Some path)
  /\ (exists result, forall fuel, (15 < fuel)%nat ->
        get_prompt_result sample_clock (fun _ => GetRaises) (pystr "p1") 30 fuel
        = Some result).
Proof.
  apply polling_ends_at_deadline. vm_compute. reflexivity.
Defined.

(** ** The files of the output directory *)

(** The order of floats that are not NaN: [a >= b] and [b >= c] give
    [a >= c]. *)
Lemma flt_false_trans (a b c : float) :
  is_nan b = false ->
  flt a b = false -> flt b c = false -> flt a c = false.
Proof.
  unfold flt, SFltb.
  destruct a as [sa|sa| |sa ma ea], b as [sb|sb| |sb mb eb], c as [sc|sc| |sc mc ec];
    cbn [SFcompare is_nan]; try reflexivity; try discriminate;
    intros _; destruct sa, sb, sc; try reflexivity; try discriminate;
    change (Pos.compare_cont Eq ma mb) with (Pos.compare ma mb);
    change (Pos.compare_cont Eq mb mc) with (Pos.compare mb mc);
    change (Pos.compare_cont Eq ma mc) with (Pos.compare ma mc);
    destruct (Z.compare_spec ea eb), (Z.compare_spec eb ec), (Z.compare_spec ea ec);
    try lia; try reflexivity; try discriminate;
    destruct (Pos.compare_spec ma mb), (Pos.compare_spec mb mc), (Pos.compare_spec ma mc);
    cbn [CompOpp]; try lia; try reflexivity; try discriminate.
Qed.

Lemma flt_asym (a b : float) : flt a b = true -> flt b a = false.
Proof.
  unfold flt, SFltb.
  destruct a as [sa|sa| |sa ma ea], b as [sb|sb| |sb mb eb];
    cbn [SFcompare]; try reflexivity; try discriminate;
    destruct sa, sb; try reflexivity; try discriminate;
    change (Pos.compare_cont Eq ma mb) with (Pos.compare ma mb);
    change (Pos.compare_cont Eq mb ma) with (Pos.compare mb ma);
    destruct (Z.compare_spec ea eb), (Z.compare_spec eb ea);
    try lia; try reflexivity; try discriminate;
    destruct (Pos.compare_spec ma mb), (Pos.compare_spec mb ma);
    cbn [CompOpp]; try lia; try reflexivity; try discriminate.
Qed.

(** Two floats equal to a third are not less than one another. *)
Lemma feq_not_flt (a b t : float) :
  feq a t = true -> feq b t = true -> flt a b = false.
Proof.
  unfold feq, flt, SFeqb, SFltb.
  destruct a as [sa|sa| |sa ma ea], t as [st|st| |st mt et], b as [sb|sb| |sb mb eb];
    cbn [SFcompare]; try reflexivity; try discriminate;
    destruct sa, st, sb; try reflexivity; try discriminate;
    change (Pos.compare_cont Eq ma mt) with (Pos.compare ma mt);
    change (Pos.compare_cont Eq mb mt) with (Pos.compare mb mt);
    change (Pos.compare_cont Eq ma mb) with (Pos.compare ma mb);
    destruct (Z.compare_spec ea et), (Z.compare_spec eb et), (Z.compare_spec ea eb);
    try lia; try reflexivity; try discriminate;
    destruct (Pos.compare_spec ma mt), (Pos.compare_spec mb mt), (Pos.compare_spec ma mb);
    cbn [CompOpp]; try lia; try reflexivity; try discriminate.
Qed.

Lemma insert_newest_first_perm (x : file_item) (l : list file_item) :
  Permutation (insert_newest_first x l) (x :: l).
Proof.
  induction l as [|y l IH]; cbn [insert_newest_first]; [apply Permutation_refl|].
  destruct (flt (item_modified x) (item_modified y)); [|apply Permutation_refl].
  eapply Permutation_trans; [apply perm_skip, IH|apply perm_swap].
Qed.

Lemma sort_newest_first_perm (l : list file_item) : Permutation (sort_newest_first l) l.
Proof.
  induction l as [|x l IH]; cbn [sort_newest_first fold_right]; [apply perm_nil|].
  eapply Permutation_trans; [apply insert_newest_first_perm|apply perm_skip, IH].
Qed.

Lemma insert_newest_first_sorted (x : file_item) (l : list file_item) :
  Forall (fun y => is_nan (item_modified y) = false) l ->
  StronglySorted not_older l -> StronglySorted not_older (insert_newest_first x l).
Proof.
  intros Hnan Hs. induction Hs as [|y l Hs IH Hy]; cbn [insert_newest_first].
  - constructor; constructor.
  - pose proof (Forall_inv Hnan) as Hyn. pose proof (Forall_inv_tail Hnan) as Hln.
    destruct (flt (item_modified x) (item_modified y)) eqn:Hxy.
    + constructor; [apply IH, Hln|].
      eapply Permutation_Forall; [apply Permutation_sym, insert_newest_first_perm|].
      constructor; [apply flt_asym, Hxy|exact Hy].
    + constructor; [constructor; assumption|].
      constructor; [exact Hxy|].
      rewrite Forall_forall in Hy |- *. intros z Hz.
      exact (flt_false_trans _ _ _ Hyn Hxy (Hy z Hz)).
Qed.

Lemma sort_newest_first_sorted (l : list file_item) :
  Forall (fun y => is_nan (item_modified y) = false) l ->
  StronglySorted not_older (sort_newest_first l).
Proof.
  induction l as [|x l IH]; intros Hnan; cbn [sort_newest_first fold_right];
    [constructor|].
  apply insert_newest_first_sorted; [|apply IH, (Forall_inv_tail Hnan)].
  eapply Permutation_Forall; [apply Permutation_sym, sort_newest_first_perm|].
  exact (Forall_inv_tail Hnan).
Qed.

Lemma insert_newest_first_stable (t : float) (x : file_item) (l : list file_item) :
  modified_at t (insert_newest_first x l) = modified_at t (x :: l).
Proof.
  unfold modified_at. induction l as [|y l IH]; cbn [insert_newest_first]; [reflexivity|].
  destruct (flt (item_modified x) (item_modified y)) eqn:Hxy; [|reflexivity].
  cbn [filter] in *. rewrite IH.
  destruct (feq (item_modified x) t) eqn:Hx; [|reflexivity].
  destruct (feq (item_modified y) t) eqn:Hy; [|reflexivity].
  rewrite (feq_not_flt _ _ _ Hx Hy) in Hxy. discriminate Hxy.
Qed.

Lemma sort_newest_first_stable (t : float) (l : list file_item) :
  modified_at t (sort_newest_first l) = modified_at t l.
Proof.
  induction l as [|x l IH]; cbn [sort_newest_first fold_right]; [reflexivity|].
  rewrite insert_newest_first_stable. unfold modified_at in *. cbn [filter].
  fold (sort_newest_first l). rewrite IH. reflexivity.
Qed.

Section ListOutputFilesProperties.

Variable basename : str -> str.
Variable stat : str -> option stat_result.

Let list_files := list_output_files basename stat.

Lemma collect_files_items (paths : list str) (items : list file_item) :
  collect_files basename stat paths = Some items ->
  Forall2 (fun fp item => exists st, stat fp = Some st /\ item = file_item_of basename fp st)
          paths items.
Proof.
  revert items. induction paths as [|fp rest IH]; intros items; cbn [collect_files].
  - intros H. injection H as <-. constructor.
  - destruct (stat fp) as [st|] eqn:Hst; [|discriminate].
    destruct (collect_files basename stat rest) as [files|]; [|discriminate].
    intros H. injection H as <-. constructor; [eauto|apply IH; reflexivity].
Qed.

Lemma collect_files_raises (paths : list str) :
  collect_files basename stat paths = None <-> exists fp, In fp paths /\ stat fp = None.
Proof.
  induction paths as [|fp rest IH]; cbn [collect_files].
  - split; [discriminate|intros (fp & [] & _)].
  - destruct (stat fp) as [st|] eqn:Hst.
    + destruct (collect_files basename stat rest) as [files|].
      * split; [discriminate|]. intros (x & [<-|Hx] & Hnone); [congruence|].
        assert (Habs : Some files = None) by (apply (proj2 IH); eauto).
        discriminate Habs.
      * split; [|reflexivity]. intros _. destruct (proj1 IH eq_refl) as (x & Hx & Hnone).
        exists x. split; [right; exact Hx|exact Hnone].
    + split; [|reflexivity]. intros _. exists fp. split; [left; reflexivity|exact Hst].
Qed.

(** X17. The list of [list_output_files] holds one item for each path of
    the listing, with the base name of the path, the path [/files/] followed
    by that name, and the size and the time of [os.stat]. The items are in
    the order newest first: no item is older than a later one (times are not
    NaN), and items of equal time are in the order of the listing. When the
    output directory does not exist the list is empty. *)
Theorem list_output_files_newest_first
    (output_exists : bool) (paths : list str) (files : list file_item) :
  list_files output_exists paths = Some files ->
  (output_exists = false -> files = [])
  /\ (output_exists = true ->
      exists items,
        Forall2 (fun fp item =>
                   exists st, stat fp = Some st
                     /\ item = mkFileItem (basename fp) (pystr "/files/" ++ basename fp)
                                 (st_size st) (st_mtime st) (pystr "model"))
                paths items
        /\ Permutation files items
        /\ (forall t, modified_at t files = modified_at t items)
        /\ (Forall (fun item => is_nan (item_modified item) = false) items ->
            StronglySorted not_older files)).
Proof.
  unfold list_files, list_output_files. intros Hrun.
  destruct output_exists; cbn [negb] in Hrun.
  - split; [discriminate|]. intros _.
    destruct (collect_files basename stat paths) as [items|] eqn:Hc; [|discriminate Hrun].
    injection Hrun as <-. exists items.
    split; [apply collect_files_items, Hc|].
    split; [apply sort_newest_first_perm|].
    split; [intros t; apply sort_newest_first_stable|apply sort_newest_first_sorted].
  - injection Hrun as <-. split; [reflexivity|discriminate].
Qed.

(** X18. [list_output_files] raises exactly when the output directory
    exists and [os.stat] raises for one of the listed paths, a file removed
    since the listing; no partial list is returned. *)
Theorem list_output_files_raises (output_exists : bool) (paths : list str) :
  list_files output_exists paths = None
  <-> output_exists = true /\ exists fp, In fp paths /\ stat fp = None.
Proof.
  unfold list_files, list_output_files. destruct output_exists; cbn [negb].
  - rewrite <- collect_files_raises.
    destruct (collect_files basename stat paths); split;
      try discriminate; try tauto. intros [_ H]. discriminate H.
  - split; [discriminate|]. intros [H _]. discriminate H.
Qed.

End ListOutputFilesProperties.

Lemma list_output_files_newest_first_witness :
  exists items,
    Forall2 (fun fp item =>
               exists st, sample_stat fp = Some st
                 /\ item = mkFileItem fp (pystr "/files/" ++ fp)
                             (st_size st) (st_mtime st) (pystr "model"))
            sample_paths items
    /\ Permutation sample_files items
    /\ (forall t, modified_at t sample_files = modified_at t items)
    /\ (Forall (fun item => is_nan (item_modified item) = false) items ->
        StronglySorted not_older sample_files).
Proof.
  refine (proj2 (list_output_files_newest_first (fun fp => fp) sample_stat true
                   sample_paths sample_files _) eq_refl).
  vm_compute. reflexivity.
Defined.

(** ** The positions, in every conversion that returns *)

Lemma pack_f_ok (x : float) (b : bytes) : pack_f x = Ok b -> b = f32_bytes x.
Proof.
  unfold pack_f, f32_bytes.
  destruct (is_finite x && negb (is_finite (round_to float32 x))); [discriminate|].
  intros H. injection H as <-. reflexivity.
Qed.

Lemma pack_fff_ok (row : list float) (b : bytes) :
  pack_fff row = Ok b -> length row = 3%nat /\ b = flat_map f32_bytes row.
Proof.
  destruct row as [|x [|y [|z [|]]]]; try discriminate. cbn [pack_fff].
  destruct (pack_f x) as [px|] eqn:Hx; [|discriminate].
  destruct (pack_f y) as [py|] eqn:Hy; [|discriminate].
  destruct (pack_f z) as [pz|] eqn:Hz; [|discriminate].
  cbn [bind]. intros H. injection H as <-.
  apply pack_f_ok in Hx, Hy, Hz. subst. split; [reflexivity|].
  cbn [flat_map]. rewrite app_nil_r. reflexivity.
Qed.

Lemma firstn_skipn_middle_app {A : Type} (a b c : list A) :
  firstn (length b) (skipn (length a) (a ++ b ++ c)) = b.
Proof.
  rewrite skipn_app, Nat.sub_diag, skipn_all. cbn [app skipn].
  rewrite firstn_app, Nat.sub_diag, firstn_all. cbn [firstn]. apply app_nil_r.
Qed.

Section Positions.

Variable legacy_promotion : bool.

(** An iteration that does not raise has written the position first. *)
Lemma write_splat_position (s : splats) (i : nat) (out out' : bytes) :
  write_splat legacy_promotion s i out = (out', Ok tt) ->
  exists p rest,
    row_at (positions s) i = Ok p /\ length p = 3%nat
    /\ out' = out ++ flat_map f32_bytes p ++ rest /\ length rest = 20%nat.
Proof.
  unfold write_splat.
  destruct (bind (row_at (positions s) i) _) as [b_pos|e] eqn:Hpos; [|discriminate].
  apply bind_ok in Hpos. destruct Hpos as (p & Hp & Hpos).
  apply pack_fff_ok in Hpos. destruct Hpos as [Hlen ->].
  destruct (bind (row_at (scale s) i) _) as [b_scale|e] eqn:Hsc; [|discriminate].
  apply bind_ok in Hsc. destruct Hsc as (sc & _ & Hsc). apply pack_fff_length in Hsc.
  match goal with
  | |- context [match ?c with Ok _ => _ | Raise _ => _ end] =>
      destruct c as [b_color|e] eqn:Hcol; [|discriminate]
  end.
  do 8 (apply bind_ok in Hcol; destruct Hcol as (? & _ & Hcol)).
  apply pack_BBBB_length in Hcol.
  match goal with
  | |- context [match ?c with Ok _ => _ | Raise _ => _ end] =>
      destruct c as [b_rot|e] eqn:Hrot; [|discriminate]
  end.
  do 8 (apply bind_ok in Hrot; destruct Hrot as (? & _ & Hrot)).
  apply pack_bbbb_length in Hrot.
  intros H. injection H as <-.
  exists p, (b_scale ++ b_color ++ b_rot). split; [exact Hp|]. split; [exact Hlen|].
  split; [rewrite <- !app_assoc; reflexivity|].
  rewrite !length_app, Hsc, Hcol, Hrot. reflexivity.
Qed.

Lemma write_loop_extends (s : splats) (indices : list nat) :
  forall out, exists more,
    fst (write_loop legacy_promotion s indices out) = out ++ more.
Proof.
  induction indices as [|i rest IH]; intros out; cbn [write_loop].
  - exists []. rewrite app_nil_r. reflexivity.
  - destruct (write_splat legacy_promotion s i out) as [out' st] eqn:Hw.
    assert (Hext : exists more, out' = out ++ more).
    { unfold write_splat in Hw.
      repeat match type of Hw with
             | context [match ?c with Ok _ => _ | Raise _ => _ end] => destruct c
             end;
        injection Hw as <- _; rewrite <- ?app_assoc; eauto.
      exists []. rewrite app_nil_r. reflexivity. }
    destruct Hext as [m1 ->]. destruct st as [u|e].
    + destruct (IH (out ++ m1)) as [m2 Hm2]. rewrite Hm2, <- app_assoc. eauto.
    + cbn [fst]. eauto.
Qed.

(** After a loop that does not raise, record [k] of what was written
    begins with the position of the splat of index [k]. *)
Lemma write_loop_positions (s : splats) (indices : list nat) :
  forall out out',
    write_loop legacy_promotion s indices out = (out', Ok tt) ->
    forall k i, nth_error indices k = Some i ->
      exists p,
        row_at (positions s) i = Ok p /\ length p = 3%nat
        /\ firstn 12 (skipn (length out + 32 * k) out') = flat_map f32_bytes p.
Proof.
  induction indices as [|j rest IH]; intros out out' Hrun k i Hk;
    [destruct k; discriminate Hk|].
  cbn [write_loop] in Hrun.
  destruct (write_splat legacy_promotion s j out) as [o1 [[]|e]] eqn:Hw;
    [|discriminate Hrun].
  destruct (write_splat_position s j out o1 Hw) as (p & tail & Hp & Hlen & -> & Htail).
  assert (Hplen : length (flat_map f32_bytes p) = 12%nat).
  { destruct p as [|x [|y [|z [|]]]]; try discriminate Hlen. reflexivity. }
  destruct k as [|k]; cbn [nth_error] in Hk.
  - injection Hk as <-. exists p. split; [exact Hp|]. split; [exact Hlen|].
    destruct (write_loop_extends s rest (out ++ flat_map f32_bytes p ++ tail)) as [more Hm].
    rewrite Hrun in Hm. cbn [fst] in Hm. subst out'.
    rewrite Nat.mul_0_r, Nat.add_0_r, <- !app_assoc, <- Hplen.
    apply firstn_skipn_middle_app.
  - destruct (IH _ _ Hrun k i Hk) as (q & Hq & Hqlen & Hbytes).
    exists q. split; [exact Hq|]. split; [exact Hqlen|].
    rewrite <- Hbytes. do 2 f_equal. rewrite !length_app, Hplen, Htail. lia.
Qed.

End Positions.

Section KeepsPositions.

Variable max_str_digits : nat.
Variable np_exp : dtype -> float -> float.
Variable np_linalg_norm : list float -> float.
Variable legacy_promotion : bool.

Let convert := convert_ply_to_splat max_str_digits np_exp np_linalg_norm legacy_promotion.

(** A conversion that opened the output file has read the vertex data, for
    a count that is positive, as rows of the chosen width, and has run the
    writer on them. *)
Lemma convert_opened (fuel : nat) (contents out : bytes) (st : result unit) :
  convert fuel contents = Some (mkConversion (Some out) st) ->
  exists header f vertex_count,
    read_header fuel contents = Some (header, f)
    /\ parse_vertex_count max_str_digits (decode header) = Ok vertex_count
    /\ 0 < vertex_count
    /\ 0 <= chosen_width vertex_count (remaining f)
    /\ vertex_count * chosen_width vertex_count (remaining f) * 4
       <= Z.of_nat (length (remaining f))
    /\ write_splats legacy_promotion
         (decode_splats np_exp np_linalg_norm vertex_count
            (rows_of_payload vertex_count (chosen_width vertex_count (remaining f))
               (remaining f)))
         vertex_count
       = (out, st).
Proof.
  unfold convert, convert_ply_to_splat. intros Hrun.
  destruct (read_header fuel contents) as [[header f]|] eqn:Hhdr; [|discriminate Hrun].
  injection Hrun as Hrun. unfold load_splats in Hrun.
  destruct (parse_vertex_count max_str_digits (decode header)) as [vc|e] eqn:Hparse;
    cbn [bind] in Hrun; [|discriminate Hrun].
  destruct (read_vertex_data vc header f) as [a|e] eqn:Hread;
    cbn [bind] in Hrun; [|discriminate Hrun].
  assert (Hvc : 0 < vc).
  { destruct (Z.lt_trichotomy vc 0) as [Hneg|[H0|Hpos]]; [| |exact Hpos].
    - pose proof (read_vertex_data_negative_count vc header f Hneg) as Hve.
      rewrite Hread in Hve. discriminate Hve.
    - subst vc. unfold parse_vertex_count in Hparse.
      destruct (find_vertex_count _ _) as [n|]; cbn [bind] in Hparse; [|discriminate].
      destruct (n =? 0) eqn:Hn; [discriminate|].
      injection Hparse as ->. discriminate Hn. }
  destruct (read_header_at_payload _ _ _ _ Hhdr) as [Hf _].
  exists header, f, vc. split; [reflexivity|]. split; [exact Hparse|]. split; [exact Hvc|].
  rewrite Hf in Hread. unfold chosen_width.
  destruct (Z.leb_spec (vc * 62 * 4) (Z.of_nat (length (remaining f)))) as [Hlong|Hshort].
  - rewrite (read_vertex_data_long vc header _ Hvc Hlong) in Hread. injection Hread as <-.
    split; [lia|]. split; [lia|].
    destruct (write_splats _ _ _) as [o s1]. injection Hrun as <- <-. reflexivity.
  - rewrite (read_vertex_data_short vc header _ Hvc Hshort) in Hread. injection Hread as <-.
    destruct (inferred_width_bounds vc (Z.of_nat (length (remaining f))) Hvc ltac:(lia))
      as (Hw0 & Hneed & _).
    split; [exact Hw0|]. split; [exact Hneed|].
    destruct (write_splats _ _ _) as [o s1]. injection Hrun as <- <-. reflexivity.
Qed.

(** X19. In every conversion that returns, whatever the number of columns,
    record [i] of the output begins with the first 12 bytes of record [i] of
    the input, as they are, when none of its three coordinates is a NaN; the
    records of the input are those of the width the data were read with,
    which is at least 3. The output has 32 bytes for each record. *)
Theorem convert_keeps_positions
    (fuel : nat) (contents header : bytes) (f : reader) (vertex_count : Z) (out : bytes) :
  read_header fuel contents = Some (header, f) ->
  ascii_header header = true ->
  parse_vertex_count max_str_digits (decode header) = Ok vertex_count ->
  readable_count vertex_count ->
  convert fuel contents = Some (mkConversion (Some out) (Ok tt)) ->
  let payload := remaining f in
  let width := chosen_width vertex_count payload in
  3 <= width <= 62
  /\ length out = (32 * Z.to_nat vertex_count)%nat
  /\ forall i, (i < Z.to_nat vertex_count)%nat ->
       forallb (fun x => negb (is_nan x))
         (float32_items (firstn 12 (record_at (Z.to_nat width) payload i))) = true ->
       firstn 12 (skipn (32 * i) out) = firstn 12 (record_at (Z.to_nat width) payload i).
Proof.
  intros Hhdr _ Hparse _ Hrun payload width.
  destruct (convert_opened fuel contents out (Ok tt) Hrun)
    as (header' & f' & vc' & Hhdr' & Hparse' & Hvc & Hw0 & Hneed & Hwrite).
  rewrite Hhdr in Hhdr'. injection Hhdr' as <- <-.
  rewrite Hparse in Hparse'. injection Hparse' as <-.
  fold payload width in Hw0, Hneed, Hwrite.
  set (a := rows_of_payload vertex_count width payload) in *.
  set (s := decode_splats np_exp np_linalg_norm vertex_count a) in *.
  unfold write_splats in Hwrite.
  destruct (rows_of_payload_shape vertex_count width payload) as (Hrows & Hall & _);
    [lia|lia|lia|]. fold a in Hrows, Hall.
  assert (Hpos : forall i, (i < Z.to_nat vertex_count)%nat ->
            exists row, nth_error (rows a) i = Some row
              /\ length (firstn 3 row) = 3%nat
              /\ firstn 12 (skipn (32 * i) out) = flat_map f32_bytes (firstn 3 row)).
  { intros i Hi.
    destruct (write_loop_positions legacy_promotion s _ _ _ Hwrite i i) as (p & Hp & Hlen & Hb).
    { rewrite nth_error_seq. destruct (Nat.ltb_spec i (Z.to_nat vertex_count)); [|lia].
      reflexivity. }
    unfold row_at, s, decode_splats in Hp. cbn [positions columns rows] in Hp.
    rewrite nth_error_map in Hp.
    destruct (nth_error (rows a) i) as [row|] eqn:Hrow; [|discriminate Hp].
    cbn [option_map skipn Nat.sub] in Hp. injection Hp as <-.
    exists row. split; [reflexivity|]. split; [exact Hlen|exact Hb]. }
  assert (Hwidth : 3 <= width <= 62).
  { split.
    - destruct (Hpos 0%nat ltac:(lia)) as (row & Hrow & Hlen & _).
      rewrite Forall_forall in Hall. pose proof (Hall row (nth_error_In _ _ Hrow)) as Hr.
      rewrite length_firstn in Hlen. lia.
    - unfold width, chosen_width.
      destruct (Z.leb_spec (vertex_count * 62 * 4) (Z.of_nat (length payload))); [lia|].
      destruct (inferred_width_bounds vertex_count (Z.of_nat (length payload)) Hvc
                  ltac:(lia)) as (_ & _ & Hlt). specialize (Hlt ltac:(lia)). lia. }
  split; [exact Hwidth|]. split.
  - destruct (write_loop_length legacy_promotion s (seq 0 (Z.to_nat vertex_count)) [])
      as [[_ Hlen]|(e & k & r & Hraise & _)].
    + rewrite Hwrite in Hlen. cbn [fst length Nat.add] in Hlen.
      rewrite length_seq in Hlen. exact Hlen.
    + rewrite Hwrite in Hraise. discriminate Hraise.
  - intros i Hi Hnan. destruct (Hpos i Hi) as (row & Hrow & _ & ->).
    destruct (rows_of_payload_record vertex_count width payload i row
                ltac:(lia) ltac:(lia) Hneed Hrow) as [_ ->].
    pose proof (float32_items_firstn 3 (record_at (Z.to_nat width) payload i)) as Efirst.
    change (4 * 3)%nat with 12%nat in Efirst. rewrite <- Efirst in Hnan.
    apply f32_bytes_of_items; [|exact Hnan].
    rewrite (record_at_length _ _ (Z.to_nat vertex_count)); [lia|nia|exact Hi].
Qed.

End KeepsPositions.

Lemma convert_keeps_positions_witness :
  firstn 12 (skipn 0 (payload_3_floats ++ firstn 12 default_fields
                      ++ [xc7; xc7; xc7] ++ skipn 15 default_fields))
  = firstn 12 (record_at 9 payload_9_floats 0).
Proof.
  refine (proj2 (proj2 (convert_keeps_positions default_max_str_digits sample_exp
                          sample_norm true 10 file_9_floats header_one_vertex
                          (at_payload header_one_vertex payload_9_floats) 1 _ _ _ _ _ _))
            0%nat _ _);
    try (vm_compute; reflexivity). unfold readable_count. lia.
Defined.

(** ** The exceptions of the conversion *)









Section WriterErrors.

Variable legacy_promotion : bool.



End WriterErrors.


Section ConversionExceptions.

Variable max_str_digits : nat.
Variable np_exp : dtype -> float -> float.
Variable np_linalg_norm : list float -> float.
Variable legacy_promotion : bool.

Let convert := convert_ply_to_splat max_str_digits np_exp np_linalg_norm legacy_promotion.


End ConversionExceptions.

